(** * growth-app: the 7-day quest planner, embedded and checked against its
    specification.

    The repository holds three revisions of one page component.  Module
    [Page] is src/app/page.tsx; unnamed/part_001 is the same code without
    the score and the chat.  Module [Part002] is unnamed/part_002, which
    decorates quests, derives the score from the plan and couples [done]
    to [enabled].  [loadState], [saveState], [calculateRank], the template
    pools and the rotation of [buildWeekPlan] are the same text everywhere.

    Conventions of the embedding
    - JavaScript strings that the program only compares for equality (quest
      ids, titles, storage keys) are Rocq strings holding the UTF-8 text of
      the source literal.  The chat responder measures and slices its input
      by UTF-16 code unit, so it works on lists of code units.
    - The numbers of the program are small integers (day numbers, scores,
      indices): [nat] where the code only counts upwards, [Z] for the score,
      which the code subtracts from and clamps.
    - [Math.random()] is an oracle: the n-th call returns [rnd n], the
      numerator of a dyadic fraction m / 2^53.  Code that draws random
      numbers threads the number of draws made so far.  What the program
      computes from a draw is computed in doubles: products and sums are
      rounded to 53 significant bits before a floor or a comparison.
    - A library call that can throw returns a [completion]; an event
      handler returns an [outcome], the hooks and the storage it leaves
      behind, with the exception if it threw. *)

From Stdlib Require Import ZArith NArith String Ascii List Lia Bool.
From stdpp Require Import base list gmap strings.
Import ListNotations.

Set Warnings "-register-all".
Local Open Scope nat_scope.

(** ** Categories and template pools (identical in all three revisions) *)

Inductive CategoryKey :=
| Exercise   (* "運動" *)
| Learning   (* "学習" *)
| Habit      (* "習慣" *)
| Faith      (* "信仰" *)
| Social     (* "人間力" *)
| Finance    (* "金銭" *)
| Sleep      (* "睡眠" *)
| Diet       (* "食事" *)
| Mental     (* "メンタル" *).

Definition category_key (c : CategoryKey) : string :=
  match c with
  | Exercise => "運動" | Learning => "学習" | Habit => "習慣"
  | Faith => "信仰" | Social => "人間力" | Finance => "金銭"
  | Sleep => "睡眠" | Diet => "食事" | Mental => "メンタル"
  end%string.

Definition TEMPLATE_QUESTS (c : CategoryKey) : list string :=
  match c with
  | Exercise => ["10分ストレッチ（首・肩・腰）"; "軽いジョグ10分"; "腕立て・腹筋・背筋 各10回"]
  | Learning => ["英単語15分"; "読書20分"; "講義ノートの復習10分"]
  | Habit => ["デスク片付け5分"; "洗濯物たたむ"; "翌日のToDoを3つ書く"]
  | Faith => ["日記3行（感謝）"; "静かな祈り・瞑想5分"; "善い行いを1つ"]
  | Social => ["誰かに挨拶＋一言"; "家族/友人にLINEで近況"; "ありがとうを3回伝える"]
  | Finance => ["家計簿入力3分"; "不要支出チェック"; "投資/貯蓄を500円検討"]
  | Sleep => ["就寝前のブルーライト10分カット"; "就寝/起床時刻を記録"; "水分を一杯飲む"]
  | Diet => ["水を1日1.5L目標"; "サラダ/タンパク質を一品"; "間食を一度スキップ"]
  | Mental => ["深呼吸3回"; "3分瞑想"; "散歩5分"]
  end%string.

Definition STORAGE_KEY : string := "growth-planner-v1".
Definition POINTS_PER_QUEST : Z := 10.

(** ** Random draws *)

(** A computation that calls [Math.random()]: it reads the oracle [rnd] and
    maps the number of draws made before it to its result and the number of
    draws made after it. *)
Definition Gen (A : Type) : Type := (nat -> N) -> nat -> A * nat.

Definition gret {A} (a : A) : Gen A := fun _ k => (a, k).
Definition gbind {A B} (m : Gen A) (f : A -> Gen B) : Gen B :=
  fun rnd k => let (a, k') := m rnd k in f a rnd k'.

Notation "'let*' x ':=' m 'in' f" := (gbind m (fun x => f))
  (at level 10, x name, m at level 100, f at level 200).

Definition two53 : N := 2 ^ 53.

(** [Math.random()]: a double in [0, 1), held as its numerator over 2^53. *)
Definition Math_random : Gen N := fun rnd k => ((rnd k mod two53)%N, S k).

(** [arr.forEach((x, idx) => ...)] whose callback updates an accumulator
    (the array the source pushes to) and may draw random numbers. *)
Fixpoint forEach {A B} (f : A -> nat -> B -> Gen B) (l : list A) (idx : nat)
    (s : B) : Gen B :=
  match l with
  | [] => gret s
  | x :: l' => let* s' := f x idx s in forEach f l' (S idx) s'
  end.

(** ** Doubles

    An exact result that is [p] units of a fixed power of two becomes the
    nearest number with 53 significant bits, a tie going to the even
    neighbour.  All quantities below stay far from the subnormal range. *)
Definition round53 (p : N) : N :=
  let e := (N.size p - 53)%N in
  let q := (p / 2 ^ e)%N in
  let r := (p mod 2 ^ e)%N in
  let half := (2 ^ e / 2)%N in
  if (N.size p <=? 53)%N then p
  else if (half <? r)%N || ((r =? half)%N && N.odd q) then ((q + 1) * 2 ^ e)%N
  else (q * 2 ^ e)%N.

(** [Math.floor(x * n)] for the double x = m / 2^53 and a whole number n:
    the product is rounded, then floored. *)
Definition floor_mul (m n : N) : N := (round53 (m * n) / two53)%N.

(** ** [Number.prototype.toString(36)] of a fraction

    The standard leaves the digits of a radix other than 10 to the engine.
    This is the algorithm of V8 (DoubleToRadixCString), which Node and
    Chromium run: it multiplies the fraction by the radix in doubles, peels
    off digits until the rest is below [delta], half the distance to the
    next double, and rounds the last digit, carrying into the digits
    before when needed.  [fraction] counts units of 2^-53, [delta] units of
    2^-107; [written] holds the digits written so far, the last one
    first. *)
Definition digit36 (d : N) : ascii :=
  if (d <? 10)%N then ascii_of_N (48 + d) else ascii_of_N (87 + d).

(** The carry after a round-up: step back over the digits that are z, raise
    the first one that is not.  [None]: the carry reached the integer
    part. *)
Fixpoint carry_back (written : list N) : option (list N) :=
  match written with
  | [] => None
  | d :: ds => if (d + 1 <? 36)%N then Some ((d + 1)%N :: ds) else carry_back ds
  end.

(** The [do ... while (fraction >= delta)] loop.  The engine's buffer has
    room for 1100 digits; the loop ends long before that, within 108 rounds
    ([toString36_fuel] below). *)
Fixpoint fraction_digits (fuel : nat) (fraction delta : N) (written : list N)
    : option (list N) :=
  match fuel with
  | O => Some written
  | S fuel' =>
      let fraction1 := round53 (fraction * 36) in        (* fraction *= radix *)
      let delta1 := round53 (delta * 36) in              (* delta *= radix *)
      let digit := (fraction1 / two53)%N in
      let fraction2 := (fraction1 mod two53)%N in        (* fraction -= digit *)
      let written1 := digit :: written in
      if ((2 ^ 52 <? fraction2)%N || ((fraction2 =? 2 ^ 52)%N && N.odd digit))
         && (2 ^ 107 <? round53 (fraction2 * 2 ^ 54 + delta1))%N
      then carry_back written1
      else if (delta1 <=? fraction2 * 2 ^ 54)%N
           then fraction_digits fuel' fraction2 delta1 written1
           else Some written1
  end.

Definition digits36 (ds : list N) : string :=
  fold_right (fun d s => String (digit36 d) s) EmptyString ds.

(** [(m / 2^53).toString(36)].  For m > 0 with [N.size m] bits, [delta] is
    2^(size m - 107). *)
Definition toString36 (m : N) : string :=
  if (m =? 0)%N then "0"%string
  else if (m * 2 ^ 54 <? 2 ^ N.size m)%N then "0"%string   (* fraction < delta *)
  else match fraction_digits 1100 m (2 ^ N.size m) [] with
       | Some ds => String.append "0." (digits36 (rev ds))
       | None => "1"%string
       end.

(** [s.slice(a, b)] for 0 <= a <= b. *)
Definition slice (a b : nat) (s : string) : string := substring a (b - a) s.

(** [Math.random().toString(36).slice(2, 10)] applied to a draw. *)
Definition uid_of (m : N) : string := slice 2 10 (toString36 m).

(** [const uid = () => Math.random().toString(36).slice(2, 10)] *)
Definition uid : Gen string := let* r := Math_random in gret (uid_of r).

(** ** JavaScript values, JSON and the browser's storage *)

Inductive jserror := TypeError | SyntaxError | SecurityError | QuotaExceededError.

(** The completion of a call: a value, or a thrown exception. *)
Inductive completion (A : Type) :=
| Normal (a : A)
| Throw (e : jserror).
Arguments Normal {A} a.
Arguments Throw {A} e.

Definition cbind {A B} (c : completion A) (f : A -> completion B) : completion B :=
  match c with
  | Normal a => f a
  | Throw e => Throw e
  end.

(** [try { body } catch { handler }] *)
Definition try_catch {A} (body : completion A) (handler : completion A) : completion A :=
  match body with
  | Normal a => Normal a
  | Throw _ => handler
  end.

(** Plain data as the program holds it.  Objects list their own properties
    in insertion order. *)
Inductive jsval :=
| JUndefined
| JNull
| JBool (b : bool)
| JNum (z : Z)
| JStr (s : string)
| JArr (items : list jsval)
| JObj (fields : list (string * jsval)).

(** What a JSON text denotes. *)
Inductive json :=
| JSNull
| JSBool (b : bool)
| JSNum (z : Z)
| JSStr (s : string)
| JSArr (items : list json)
| JSObj (fields : list (string * json)).

(** A string kept in storage: the JSON text of a document, or a string that
    is not a JSON text, given by its characters. *)
Inductive text :=
| JsonText (d : json)
| OtherText (s : string).

(** [JSON.stringify]: [None] is the result [undefined].  A property holding
    [undefined] is left out, an array element [undefined] becomes [null]. *)
Fixpoint stringify (v : jsval) : option json :=
  match v with
  | JUndefined => None
  | JNull => Some JSNull
  | JBool b => Some (JSBool b)
  | JNum z => Some (JSNum z)
  | JStr s => Some (JSStr s)
  | JArr items =>
      Some (JSArr (map (fun x => match stringify x with
                                 | Some d => d
                                 | None => JSNull
                                 end) items))
  | JObj fields =>
      Some (JSObj (flat_map (fun kv => match stringify (snd kv) with
                                       | Some d => [(fst kv, d)]
                                       | None => []
                                       end) fields))
  end.

(** The value [JSON.parse] builds from a document. *)
Fixpoint revive (d : json) : jsval :=
  match d with
  | JSNull => JNull
  | JSBool b => JBool b
  | JSNum z => JNum z
  | JSStr s => JStr s
  | JSArr items => JArr (map revive items)
  | JSObj fields => JObj (map (fun kv => (fst kv, revive (snd kv))) fields)
  end.

(** [JSON.parse(raw)]: a SyntaxError on a string that is not a JSON text. *)
Definition JSON_parse (raw : text) : completion jsval :=
  match raw with
  | JsonText d => Normal (revive d)
  | OtherText _ => Throw SyntaxError
  end.

(** [JSON.stringify(v)] as the string [setItem] receives: [setItem] turns
    the result [undefined] into the seven letters of that word. *)
Definition JSON_stringify (v : jsval) : text :=
  match stringify v with
  | Some d => JsonText d
  | None => OtherText "undefined"
  end.

(** [raw ? ... : ...] on the result of [getItem]: [null] and the empty
    string are falsy.  A JSON text is never empty. *)
Definition truthy (raw : option text) : bool :=
  match raw with
  | None => false
  | Some (OtherText EmptyString) => false
  | Some _ => true
  end.

(** [localStorage]: when the browser denies access, every use throws.  A
    write is refused with a QuotaExceededError when the contents it would
    leave do not fit; what fits is the browser's business ([fits]). *)
Record Storage := mkStorage {
  denied : bool;
  items : gmap string text;
  fits : gmap string text -> bool;
}.

(** Where the code runs: without a [window] (server-side rendering), or in
    a browser with its storage. *)
Inductive host :=
| NoWindow
| Browser (ls : Storage).

Definition getItem (key : string) (ls : Storage) : completion (option text) :=
  if denied ls then Throw SecurityError else Normal (items ls !! key).

Definition setItem (key : string) (value : text) (ls : Storage) : completion Storage :=
  if denied ls then Throw SecurityError
  else if fits ls (<[key := value]> (items ls))
       then Normal {| denied := false; items := <[key := value]> (items ls);
                      fits := fits ls |}
       else Throw QuotaExceededError.

Definition removeItem (key : string) (ls : Storage) : completion Storage :=
  if denied ls then Throw SecurityError
  else Normal {| denied := false; items := delete key (items ls); fits := fits ls |}.

(** [loadState], the same text in all three revisions; the cast
    [as AppState] checks nothing, so the result is the parsed value. *)
Definition loadState (h : host) : completion jsval :=
  match h with
  | NoWindow => Normal JNull
  | Browser ls =>
      try_catch
        (cbind (getItem STORAGE_KEY ls) (fun raw =>
           if truthy raw
           then match raw with
                | Some t => JSON_parse t
                | None => Normal JNull
                end
           else Normal JNull))
        (Normal JNull)
  end.

(** [saveState], the same text in all three revisions. *)
Definition saveState (state : jsval) (h : host) : completion host :=
  match h with
  | NoWindow => Normal NoWindow
  | Browser ls =>
      cbind (setItem STORAGE_KEY (JSON_stringify state) ls) (fun ls' =>
      Normal (Browser ls'))
  end.

(** [saveState(state)] and, when it returned, [loadState()] right after. *)
Definition load_after_save (state : jsval) (h : host) : completion jsval :=
  cbind (saveState state h) loadState.

(** ** Ranks (page.tsx and part_002) *)

Inductive Rank := Novice | Squire | Knight | Marquis | Duke | Sovereign.

Definition rank_label (r : Rank) : string :=
  match r with
  | Novice => "入門者 (Novice)" | Squire => "従者 (Squire)"
  | Knight => "騎士 (Knight)" | Marquis => "侯爵 (Marquis)"
  | Duke => "公爵 (Duke)" | Sovereign => "王者 (Sovereign)"
  end%string.

Definition calculateRank (score : Z) : Rank :=
  if (score >=? 1000)%Z then Sovereign
  else if (score >=? 500)%Z then Duke
  else if (score >=? 200)%Z then Marquis
  else if (score >=? 100)%Z then Knight
  else if (score >=? 50)%Z then Squire
  else Novice.

(** [rankOrder] and [thresholdByRank] of part_002. *)
Definition rankOrder : list Rank := [Novice; Squire; Knight; Marquis; Duke; Sovereign].

Definition thresholdByRank (r : Rank) : Z :=
  match r with
  | Novice => 0 | Squire => 50 | Knight => 100
  | Marquis => 200 | Duke => 500 | Sovereign => 1000
  end%Z.

(** The position of a tier in the ascending order of [rankOrder]. *)
Definition tier (r : Rank) : nat :=
  match r with
  | Novice => 0 | Squire => 1 | Knight => 2
  | Marquis => 3 | Duke => 4 | Sovereign => 5
  end.

(** ** src/app/page.tsx (part_001 has the same types and plan builder) *)

Module Page.

Record Quest := mkQuest {
  id : string;
  title : string;
  done : bool;
  enabled : bool;
}.

Record DayPlan := mkDayPlan {
  day : nat;
  quests : list Quest;
}.

(** The callback of [titles.forEach]: push one quest. *)
Definition pushTitle (t : string) (_ : nat) (quests : list Quest) : Gen (list Quest) :=
  let* u := uid in
  gret (quests ++ [{| id := u; title := t; done := false; enabled := true |}]).

(** The callback of [selected.forEach] for day [i]. *)
Definition pushCategory (i : nat) (cat : CategoryKey) (idx : nat)
    (quests : list Quest) : Gen (list Quest) :=
  let candidates := TEMPLATE_QUESTS cat in
  let base := (i + idx) mod length candidates in
  let titles := [nth base candidates "undefined"%string;
                 nth ((base + 1) mod length candidates) candidates "undefined"%string] in
  forEach pushTitle titles 0 quests.

(** The body of [for (let i = 1; i <= 7; i++)]. *)
Definition pushDay (selected : list CategoryKey) (i : nat) (_ : nat)
    (days : list DayPlan) : Gen (list DayPlan) :=
  let* quests := forEach (pushCategory i) selected 0 [] in
  let trimmed := take 5 quests in
  gret (days ++ [{| day := i; quests := trimmed |}]).

Definition buildWeekPlan (selected : list CategoryKey) : Gen (list DayPlan) :=
  forEach (pushDay selected) (seq 1 7) 0 [].

Record Theme := mkTheme {
  backgroundColor : string;
  textColor : string;
}.

Record AppState := mkAppState {
  selectedCategories : list CategoryKey;
  plans : list DayPlan;
  createdAt : option string;
  theme : option Theme;
}.

(** The JavaScript object a record stands for; an absent optional field is
    a missing key. *)
Definition questToJS (q : Quest) : jsval :=
  JObj [("id", JStr (id q)); ("title", JStr (title q));
        ("done", JBool (done q)); ("enabled", JBool (enabled q))]%string.

Definition dayToJS (d : DayPlan) : jsval :=
  JObj [("day", JNum (Z.of_nat (day d)));
        ("quests", JArr (map questToJS (quests d)))]%string.

Definition themeToJS (t : Theme) : jsval :=
  JObj [("backgroundColor", JStr (backgroundColor t));
        ("textColor", JStr (textColor t))]%string.

Definition optional (key : string) (v : option jsval) : list (string * jsval) :=
  match v with
  | Some x => [(key, x)]
  | None => []
  end.

Definition stateToJS (st : AppState) : jsval :=
  JObj ([("selectedCategories", JArr (map (fun c => JStr (category_key c)) (selectedCategories st)));
         ("plans", JArr (map dayToJS (plans st)))]%string
        ++ optional "createdAt" (JStr <$> createdAt st)
        ++ optional "theme" (themeToJS <$> theme st)).

Inductive Tab := TabHome | TabQuest | TabChat | TabSettings.

(** The component's state hooks and the host it runs on. *)
Record World := mkWorld {
  state : option AppState;
  selected : list CategoryKey;
  score : Z;
  tab : Tab;
  env : host;
}.

(** What an event handler leaves behind.  State updates queued before an
    exception are still applied, so a throwing handler has a world too. *)
Inductive outcome :=
| Done (w : World)
| Threw (e : jserror) (w : World).

Definition world_of (o : outcome) : World :=
  match o with
  | Done w => w
  | Threw _ w => w
  end.

(** The last statement of a handler: [saveState(copy)]. *)
Definition persist (copy : AppState) (w : World) : outcome :=
  match saveState (stateToJS copy) (env w) with
  | Normal h => Done {| state := state w; selected := selected w;
                        score := score w; tab := tab w; env := h |}
  | Throw e => Threw e w
  end.

Record Scored := mkScored { newScore : Z; rank : Rank }.

Definition addScore (currentScore points : Z) : Scored :=
  let newScore := (currentScore + points)%Z in
  let rank := calculateRank newScore in
  {| newScore := newScore; rank := rank |}.

(** [q.done = !q.done] on the quest [find] returned, inside the clone. *)
Definition flipDone (q : Quest) : Quest :=
  {| id := id q; title := title q; done := negb (done q); enabled := enabled q |}.

(** [q.enabled = !q.enabled] *)
Definition flipEnabled (q : Quest) : Quest :=
  {| id := id q; title := title q; done := done q; enabled := negb (enabled q) |}.

(** The clone of [st] after its quest [j] of day [dayIdx] was replaced. *)
Definition withQuest (st : AppState) (dayIdx : nat) (d : DayPlan) (j : nat)
    (q : Quest) : AppState :=
  {| selectedCategories := selectedCategories st;
     plans := <[dayIdx := {| day := day d; quests := <[j := q]> (quests d) |}]> (plans st);
     createdAt := createdAt st;
     theme := theme st |}.

Definition toggleDone (dayIdx : nat) (qid : string) (w : World) : outcome :=
  match state w with
  | None => Done w
  | Some st =>
      match plans st !! dayIdx with
      | None => Threw TypeError w          (* [day.quests] on [undefined] *)
      | Some d =>
          match list_find (fun x => id x = qid) (quests d) with
          | None => Done w
          | Some (j, q) =>
              let q' := flipDone q in
              let copy := withQuest st dayIdx d j q' in
              let score' := if done q' then newScore (addScore (score w) 1)
                            else Z.max 0 (score w - 1) in
              persist copy {| state := Some copy; selected := selected w;
                              score := score'; tab := tab w; env := env w |}
          end
      end
  end.

Definition toggleEnabled (dayIdx : nat) (qid : string) (w : World) : outcome :=
  match state w with
  | None => Done w
  | Some st =>
      match plans st !! dayIdx with
      | None => Threw TypeError w
      | Some d =>
          match list_find (fun x => id x = qid) (quests d) with
          | None => Done w
          | Some (j, q) =>
              let copy := withQuest st dayIdx d j (flipEnabled q) in
              persist copy {| state := Some copy; selected := selected w;
                              score := score w; tab := tab w; env := env w |}
          end
      end
  end.

(** [handleQuestCompletion]: defined in the component but handed to no
    view.  Its [setScore(newScore)] is queued after the update queued by
    [toggleDone] and, being a plain value, replaces it. *)
Definition handleQuestCompletion (dayIdx : nat) (qid : string) (w : World) : outcome :=
  match toggleDone dayIdx qid w with
  | Done w' => Done {| state := state w'; selected := selected w';
                       score := newScore (addScore (score w) 10);
                       tab := tab w'; env := env w' |}
  | Threw e w' => Threw e w'
  end.

Definition resetAll (w : World) : outcome :=
  let w' := {| state := None; selected := []; score := score w;
               tab := tab w; env := env w |} in
  match env w with
  | NoWindow => Done w'
  | Browser ls =>
      match removeItem STORAGE_KEY ls with
      | Normal ls' => Done {| state := None; selected := []; score := score w;
                              tab := tab w; env := Browser ls' |}
      | Throw e => Threw e w'
      end
  end.

(** [generate], with [now] the text of [new Date().toISOString()].  The
    tab is set after [saveState] returned. *)
Definition generate (now : string) (w : World) : Gen outcome :=
  let base := match selected w with
              | [] => [Exercise; Learning]
              | _ => selected w
              end in
  let* plans := buildWeekPlan base in
  let next := {| selectedCategories := base; plans := plans;
                 createdAt := Some now; theme := None |} in
  gret (match persist next {| state := Some next; selected := selected w;
                              score := score w; tab := tab w; env := env w |} with
        | Done w' => Done {| state := state w'; selected := selected w';
                             score := score w'; tab := TabQuest; env := env w' |}
        | Threw e w' => Threw e w'
        end).

(** The hooks at the first render. *)
Definition initial (h : host) : World :=
  {| state := None; selected := []; score := 0; tab := TabHome; env := h |}.

(** [state.plans[dayIdx].quests[j]], when there is one. *)
Definition quest_at (w : World) (dayIdx j : nat) : option Quest :=
  st ← state w; d ← plans st !! dayIdx; quests d !! j.

(** [setTab], which the footer calls. *)
Definition setTab (t : Tab) (w : World) : World :=
  {| state := state w; selected := selected w; score := score w;
     tab := t; env := env w |}.

(** The checkbox of the quest at position [j] of day [idx] in [QuestView],
    which is on screen under the quest tab:
    [disabled={!q.enabled}] and [onChange={() => onToggleDone(idx, q.id)}].
    A disabled checkbox fires no change event, and where the plan has no
    quest the view has no checkbox. *)
Definition clickDone (idx j : nat) (w : World) : outcome :=
  match tab w, quest_at w idx j with
  | TabQuest, Some q => if enabled q then toggleDone idx (id q) w else Done w
  | _, _ => Done w
  end.

(** The ON/OFF button beside it: [onClick={() => onToggleEnabled(idx, q.id)}]. *)
Definition clickEnabled (idx j : nat) (w : World) : outcome :=
  match tab w, quest_at w idx j with
  | TabQuest, Some q => toggleEnabled idx (id q) w
  | _, _ => Done w
  end.

(** The state [generate] builds for a selection, for examples. *)
Definition buildWeekPlan_state (sel : list CategoryKey) (rnd : nat -> N) : AppState :=
  {| selectedCategories := sel; plans := (buildWeekPlan sel rnd 0).1;
     createdAt := Some "2025-01-01T00:00:00.000Z"%string; theme := None |}.

(** The invariant of the specification: a quest switched off is not done. *)
Definition quest_ok (q : Quest) : Prop := enabled q = false -> done q = false.

Definition world_ok (w : World) : Prop :=
  match state w with
  | None => True
  | Some st => Forall (fun d => Forall quest_ok (quests d)) (plans st)
  end.

End Page.

(** ** unnamed/part_002: the revision with decorated quests *)

(** An optional property [x?: T] of a JavaScript object: the key can be
    missing, or present holding [undefined], or present holding a value. *)
Inductive prop (A : Type) :=
| Missing
| Undef
| Has (a : A).
Arguments Missing {A}.
Arguments Undef {A}.
Arguments Has {A} a.

Module Part002.

Record Quest := mkQuest {
  id : string;
  title : string;
  done : bool;
  enabled : bool;
  category : prop string;
  points : prop Z;
  progress : prop Z;
  locked : prop bool;
  note : prop string;
}.

Record DayPlan := mkDayPlan {
  day : nat;
  quests : list Quest;
}.

(** [Math.random() < 0.3]: the double 0.3 is 5404319552844595 / 2^54. *)
Definition lt_0_3 (m : N) : bool := (2 * m <? 5404319552844595)%N.

(** [Math.floor(Math.random() * 70) + 10] *)
Definition floor70_plus10 (m : N) : Z := Z.of_N (floor_mul m 70) + 10.

(** [Math.random() < 0.3 ? Math.floor(Math.random() * 70) + 10 : undefined] *)
Definition drawProgress : Gen (prop Z) :=
  let* r := Math_random in
  if lt_0_3 r then (let* r2 := Math_random in gret (Has (floor70_plus10 r2)))
  else gret Undef.

(** The callback of [titles.forEach((t, j) => ...)]: push one quest.  The
    object literal evaluates [uid()] before the draws of [progress]. *)
Definition pushTitle (cat : CategoryKey) (t : string) (j : nat)
    (quests : list Quest) : Gen (list Quest) :=
  let* u := uid in
  let* p := drawProgress in
  gret (quests ++ [{| id := u;
                      title := t;
                      done := false;
                      enabled := true;
                      category := Has (category_key cat);
                      points := Has (POINTS_PER_QUEST + (if (j =? 1)%nat then 5 else 0))%Z;
                      progress := p;
                      locked := Has false;
                      note := Missing |}]).

(** The callback of [selected.forEach] for day [i]. *)
Definition pushCategory (i : nat) (cat : CategoryKey) (idx : nat)
    (quests : list Quest) : Gen (list Quest) :=
  let candidates := TEMPLATE_QUESTS cat in
  let base := (i + idx) mod length candidates in
  let titles := [nth base candidates "undefined"%string;
                 nth ((base + 1) mod length candidates) candidates "undefined"%string] in
  forEach (pushTitle cat) titles 0 quests.

Definition pushDay (selected : list CategoryKey) (i : nat) (_ : nat)
    (days : list DayPlan) : Gen (list DayPlan) :=
  let* quests := forEach (pushCategory i) selected 0 [] in
  let trimmed := take 5 quests in
  gret (days ++ [{| day := i; quests := trimmed |}]).

Definition buildWeekPlan (selected : list CategoryKey) : Gen (list DayPlan) :=
  forEach (pushDay selected) (seq 1 7) 0 [].

Record Theme := mkTheme {
  backgroundColor : string;
  textColor : string;
}.

Record AppState := mkAppState {
  selectedCategories : list CategoryKey;
  plans : list DayPlan;
  createdAt : option string;
  theme : option Theme;
}.

(** The property list of an optional field. *)
Definition field {A} (key : string) (f : A -> jsval) (p : prop A) : list (string * jsval) :=
  match p with
  | Missing => []
  | Undef => [(key, JUndefined)]
  | Has a => [(key, f a)]
  end.

Definition questToJS (q : Quest) : jsval :=
  JObj ([("id", JStr (id q)); ("title", JStr (title q));
         ("done", JBool (done q)); ("enabled", JBool (enabled q))]%string
        ++ field "category" JStr (category q)
        ++ field "points" JNum (points q)
        ++ field "progress" JNum (progress q)
        ++ field "locked" JBool (locked q)
        ++ field "note" JStr (note q)).

Definition dayToJS (d : DayPlan) : jsval :=
  JObj [("day", JNum (Z.of_nat (day d)));
        ("quests", JArr (map questToJS (quests d)))]%string.

Definition themeToJS (t : Theme) : jsval :=
  JObj [("backgroundColor", JStr (backgroundColor t));
        ("textColor", JStr (textColor t))]%string.

Definition optional (key : string) (v : option jsval) : list (string * jsval) :=
  match v with
  | Some x => [(key, x)]
  | None => []
  end.

Definition stateToJS (st : AppState) : jsval :=
  JObj ([("selectedCategories", JArr (map (fun c => JStr (category_key c)) (selectedCategories st)));
         ("plans", JArr (map dayToJS (plans st)))]%string
        ++ optional "createdAt" (JStr <$> createdAt st)
        ++ optional "theme" (themeToJS <$> theme st)).

(** What is left of a state when the keys that hold [undefined] are
    removed. *)
Definition defined {A} (p : prop A) : prop A :=
  match p with
  | Undef => Missing
  | _ => p
  end.

Definition questDefined (q : Quest) : Quest :=
  {| id := id q; title := title q; done := done q; enabled := enabled q;
     category := defined (category q); points := defined (points q);
     progress := defined (progress q); locked := defined (locked q);
     note := defined (note q) |}.

Definition dropUndefined (st : AppState) : AppState :=
  {| selectedCategories := selectedCategories st;
     plans := map (fun d => {| day := day d; quests := map questDefined (quests d) |})
                  (plans st);
     createdAt := createdAt st;
     theme := theme st |}.

(** No key of a quest holds [undefined]. *)
Definition quest_defined (q : Quest) : Prop :=
  category q <> Undef /\ points q <> Undef /\ progress q <> Undef
  /\ locked q <> Undef /\ note q <> Undef.

Definition all_defined (st : AppState) : Prop :=
  Forall (fun d => Forall quest_defined (quests d)) (plans st).

Inductive Tab := TabHome | TabQuest | TabChat | TabSettings.

(** This revision keeps no score: it derives [totalPoints] from the plan. *)
Record World := mkWorld {
  state : option AppState;
  selected : list CategoryKey;
  tab : Tab;
  env : host;
}.

Inductive outcome :=
| Done (w : World)
| Threw (e : jserror) (w : World).

Definition world_of (o : outcome) : World :=
  match o with
  | Done w => w
  | Threw _ w => w
  end.

Definition persist (copy : AppState) (w : World) : outcome :=
  match saveState (stateToJS copy) (env w) with
  | Normal h => Done {| state := state w; selected := selected w;
                        tab := tab w; env := h |}
  | Throw e => Threw e w
  end.

(** [state.plans.flatMap(p => p.quests).filter(q => q.enabled && q.done).length
    * POINTS_PER_QUEST], and 0 without a state. *)
Definition totalPoints (w : World) : Z :=
  match state w with
  | None => 0
  | Some st =>
      let flat := flat_map quests (plans st) in
      let doneCnt := length (filter (fun q => enabled q && done q = true) flat) in
      Z.of_nat doneCnt * POINTS_PER_QUEST
  end%Z.

Definition setDone (b : bool) (q : Quest) : Quest :=
  {| id := id q; title := title q; done := b; enabled := enabled q;
     category := category q; points := points q; progress := progress q;
     locked := locked q; note := note q |}.

Definition setEnabled (b : bool) (q : Quest) : Quest :=
  {| id := id q; title := title q; done := done q; enabled := b;
     category := category q; points := points q; progress := progress q;
     locked := locked q; note := note q |}.

Definition withQuest (st : AppState) (dayIdx : nat) (d : DayPlan) (j : nat)
    (q : Quest) : AppState :=
  {| selectedCategories := selectedCategories st;
     plans := <[dayIdx := {| day := day d; quests := <[j := q]> (quests d) |}]> (plans st);
     createdAt := createdAt st;
     theme := theme st |}.

Definition toggleDone (dayIdx : nat) (qid : string) (w : World) : outcome :=
  match state w with
  | None => Done w
  | Some st =>
      match plans st !! dayIdx with
      | None => Threw TypeError w          (* [day.quests] on [undefined] *)
      | Some d =>
          match list_find (fun x => id x = qid) (quests d) with
          | None => Done w
          | Some (j, q) =>
              if negb (enabled q) then Done w
              else
                let copy := withQuest st dayIdx d j (setDone (negb (done q)) q) in
                persist copy {| state := Some copy; selected := selected w;
                                tab := tab w; env := env w |}
          end
      end
  end.

Definition toggleEnabled (dayIdx : nat) (qid : string) (w : World) : outcome :=
  match state w with
  | None => Done w
  | Some st =>
      match plans st !! dayIdx with
      | None => Threw TypeError w
      | Some d =>
          match list_find (fun x => id x = qid) (quests d) with
          | None => Done w
          | Some (j, q) =>
              let q1 := setEnabled (negb (enabled q)) q in
              (* switching from on to off also drops the done flag *)
              let q2 := if negb (enabled q1) then setDone false q1 else q1 in
              let copy := withQuest st dayIdx d j q2 in
              persist copy {| state := Some copy; selected := selected w;
                              tab := tab w; env := env w |}
          end
      end
  end.

Definition resetAll (w : World) : outcome :=
  let w' := {| state := None; selected := []; tab := tab w; env := env w |} in
  match env w with
  | NoWindow => Done w'
  | Browser ls =>
      match removeItem STORAGE_KEY ls with
      | Normal ls' => Done {| state := None; selected := []; tab := tab w;
                              env := Browser ls' |}
      | Throw e => Threw e w'
      end
  end.

Definition generate (now : string) (w : World) : Gen outcome :=
  let base := match selected w with
              | [] => [Exercise; Learning]
              | _ => selected w
              end in
  let* plans := buildWeekPlan base in
  let next := {| selectedCategories := base; plans := plans;
                 createdAt := Some now; theme := None |} in
  gret (persist next {| state := Some next; selected := selected w;
                        tab := tab w; env := env w |}).

Definition initial (h : host) : World :=
  {| state := None; selected := []; tab := TabHome; env := h |}.

(** [state.plans[dayIdx].quests[j]], when there is one. *)
Definition quest_at (w : World) (dayIdx j : nat) : option Quest :=
  st ← state w; d ← plans st !! dayIdx; quests d !! j.

(** [setTab], which the footer calls. *)
Definition setTab (t : Tab) (w : World) : World :=
  {| state := state w; selected := selected w; tab := t; env := env w |}.

(** The checkbox of a quest in [QuestView], which is on screen under the
    quest tab: [disabled={!q.enabled || q.locked}],
    [onChange={() => onToggleDone(idx, q.id)}]. *)
Definition clickDone (idx j : nat) (w : World) : outcome :=
  match tab w, quest_at w idx j with
  | TabQuest, Some q =>
      if negb (enabled q) || match locked q with Has true => true | _ => false end
      then Done w
      else toggleDone idx (id q) w
  | _, _ => Done w
  end.

(** The ON/OFF button: [onClick={() => onToggleEnabled(idx, q.id)}]. *)
Definition clickEnabled (idx j : nat) (w : World) : outcome :=
  match tab w, quest_at w idx j with
  | TabQuest, Some q => toggleEnabled idx (id q) w
  | _, _ => Done w
  end.

(** The invariant of the specification: a quest switched off is not done. *)
Definition quest_ok (q : Quest) : Prop := enabled q = false -> done q = false.

Definition world_ok (w : World) : Prop :=
  match state w with
  | None => True
  | Some st => Forall (fun d => Forall quest_ok (quests d)) (plans st)
  end.

End Part002.

(** ** The chat responder *)

(** A JavaScript string as the responder sees it: UTF-16 code units. *)
Definition jsstring := list N.

(** The code units of a source literal, decoded from its UTF-8 bytes. *)
Fixpoint utf16 (s : string) : jsstring :=
  match s with
  | EmptyString => []
  | String c0 r0 =>
      let b0 := N_of_ascii c0 in
      if (b0 <? 128)%N then b0 :: utf16 r0
      else match r0 with
      | EmptyString => []
      | String c1 r1 =>
          let b1 := N.land (N_of_ascii c1) 63 in
          if (b0 <? 224)%N then (N.land b0 31 * 64 + b1)%N :: utf16 r1
          else match r1 with
          | EmptyString => []
          | String c2 r2 =>
              let b2 := N.land (N_of_ascii c2) 63 in
              if (b0 <? 240)%N
              then (N.land b0 15 * 4096 + b1 * 64 + b2)%N :: utf16 r2
              else match r2 with
              | EmptyString => []
              | String c3 r3 =>
                  let b3 := N.land (N_of_ascii c3) 63 in
                  let cp := (N.land b0 7 * 262144 + b1 * 4096 + b2 * 64 + b3 - 65536)%N in
                  (55296 + cp / 1024)%N :: (56320 + cp mod 1024)%N :: utf16 r3
              end
          end
      end
  end.

Definition code_eqb (a b : N) : bool := (a =? b)%N.

(** [t.startsWith(p)], the test of a pattern anchored with [^]. *)
Fixpoint starts_with (p t : jsstring) : bool :=
  match p, t with
  | [], _ => true
  | _ :: _, [] => false
  | a :: p', b :: t' => code_eqb a b && starts_with p' t'
  end.

(** [t.includes(p)], the test of an unanchored literal pattern. *)
Fixpoint includes (p t : jsstring) : bool :=
  starts_with p t ||
  match t with
  | [] => false
  | _ :: t' => includes p t'
  end.

(** [/[?？]$/.test(t)]: the last code unit is one of the two marks. *)
Definition ends_with_question (t : jsstring) : bool :=
  match last t with
  | Some c => code_eqb c 63 || code_eqb c 65311
  | None => false
  end.

(** WhiteSpace and LineTerminator code points, which [trim] removes. *)
Definition is_space (c : N) : bool :=
  ((9 <=? c) && (c <=? 13) || (c =? 32) || (c =? 160) || (c =? 5760)
   || (8192 <=? c) && (c <=? 8202) || (c =? 8232) || (c =? 8233)
   || (c =? 8239) || (c =? 8287) || (c =? 12288) || (c =? 65279))%N.

Fixpoint trimStart (t : jsstring) : jsstring :=
  match t with
  | c :: t' => if is_space c then trimStart t' else t
  | [] => []
  end.

Definition trim (t : jsstring) : jsstring := rev (trimStart (rev (trimStart t))).

(** [toLowerCase] on the letters A to Z.  No other character lowers to a
    letter of the one pattern that is tested on the lowered text. *)
Definition toLowerCase (t : jsstring) : jsstring :=
  map (fun c => if ((65 <=? c) && (c <=? 90))%N then (c + 32)%N else c) t.

(** [parts.join(sep)] *)
Fixpoint join (sep : jsstring) (parts : list jsstring) : jsstring :=
  match parts with
  | [] => []
  | [x] => x
  | x :: rest => x ++ sep ++ join sep rest
  end.

Inductive ChatRole := RoleUser | RoleAssistant.

Record ChatMsg := mkChatMsg {
  role : ChatRole;
  content : jsstring;
}.

(** An array whose elements can be [undefined]: [None] is [undefined] (a
    hole reads the same).  [a[i]] past the end is [undefined]; [a[i] = v]
    past the end makes the array longer and leaves holes in between. *)
Definition js_get {T} (a : list (option T)) (i : nat) : option T :=
  default None (a !! i).

Definition js_set {T} (i : nat) (v : option T) (a : list (option T)) : list (option T) :=
  if decide (i < length a) then <[i := v]> a
  else a ++ replicate (i - length a) None ++ [v].

(** [[a[i], a[j]] = [a[j], a[i]]]: both reads, then the write to [a[i]],
    then the write to [a[j]]. *)
Definition swap {T} (i j : nat) (a : list (option T)) : list (option T) :=
  let aj := js_get a j in
  let ai := js_get a i in
  js_set j ai (js_set i aj a).

(** The loop of [shuffle], entered with [i], run while [i > 0]. *)
Fixpoint shuffle_from {T} (i : nat) (a : list (option T)) : Gen (list (option T)) :=
  match i with
  | O => gret a
  | S i' =>
      let* r := Math_random in
      let j := N.to_nat (floor_mul r (N.of_nat (i + 1))) in
      shuffle_from i' (swap i j a)
  end.

(** [shuffle]: the loop runs on the copy [[...arr]]. *)
Definition shuffle {T} (arr : list T) : Gen (list (option T)) :=
  shuffle_from (length arr - 1) (Some <$> arr).

Module PageChat.

Definition usage_message : jsstring :=
  utf16 "使い方: 目標や悩みを書いて。小さく分解したタスク案を返すよ。例: ‘英単語を覚えたい’".

Definition tips : list jsstring :=
  [utf16 "タイマーを10分セット"; utf16 "やることを3つに絞る"; utf16 "終わったら一言日記";
   utf16 "水を一杯飲む"; utf16 "机の上を15秒だけ整える"].

(** The last lines of [mockAssistant]: the default reply, a shuffled
    choice of tips. *)
Definition fallback_reply (text : jsstring) : Gen jsstring :=
  let len := length text in
  let n := Nat.max 3 (Nat.min 5 (len / 12)) in
  let* shuffled := shuffle tips in
  (* [join] writes nothing for an element that is [undefined] *)
  let pick := join (utf16 " / ") (default [] <$> take n shuffled) in
  gret (utf16 "なるほど。いまから出来る小さな一歩: " ++ pick).

(** [mockAssistant] of src/app/page.tsx. *)
Definition mockAssistant (input : jsstring) (history : list ChatMsg) : Gen jsstring :=
  let text := trim input in
  let lower := toLowerCase text in
  if starts_with (utf16 "help") text || starts_with (utf16 "ヘルプ") text
     || includes (utf16 "困った") text || includes (utf16 "どう使") text
  then gret usage_message
  else if includes (utf16 "こんにちは") text || includes (utf16 "初めまして") text
          || includes (utf16 "こんちは") text
  then gret (utf16 "こんにちは。今日は何を進める？7分で出来る小タスクからいこう")
  else if includes (utf16 "天気") lower || includes (utf16 "weather") lower
  then gret (utf16 "天気はこのモックでは見られないけど、代わりに ‘屋内で出来ること’ を3つ提案: 1) ストレッチ7分 2) 読書10分 3) 机の片付け5分")
  else if includes (utf16 "英単語") text || includes (utf16 "単語") text
          || includes (utf16 "英語") text
  then gret (utf16 "提案: 1) 1分で復習テーマ決め 2) 7分で10語暗記 3) 2分で自己テスト → 合計10分")
  else if includes (utf16 "運動") text || includes (utf16 "筋トレ") text
          || includes (utf16 "ストレッチ") text || includes (utf16 "走") text
  then gret (utf16 "提案: 1) 1分準備 2) 7分サーキット(腕立て/スクワット/プランク) 3) 2分整理")
  else if ends_with_question text
  then
    let lastUser :=
      match find (fun m => match role m with RoleUser => true | _ => false end)
                 (rev history) with
      | Some m => content m
      | None => []
      end in
    gret (utf16 "要するに『" ++ take 40 lastUser
          ++ utf16 "』ってことかな。まずは小さく試すと良いよ")
  else fallback_reply text.

End PageChat.

Module Part002Chat.

(** [mockAssistant] of part_002: a stand-in that its own comment asks to
    replace by the existing responder. *)
Definition mockAssistant (input : jsstring) (_messages : list ChatMsg) : jsstring :=
  if includes (utf16 "進捗") input || includes (utf16 "status") input
     || includes (utf16 "ステータス") input
  then utf16 "現在の進捗を要約します。まずはタスク一覧を共有してください。"
  else if includes (utf16 "データ") input || includes (utf16 "分析") input
  then utf16 "CSVかスプレッドシートをアップロードいただければ、概要統計→可視化→所見まで出します。"
  else utf16 "承知しました。もう少し具体的に状況を教えてください。".

End Part002Chat.

(** ** The titles the rotation selects *)

(** [pool[(i + idx) mod pool.length]] and [pool[(i + idx + 1) mod pool.length]]
    for the category at position [idx] on day [i]. *)
Definition rotation_pair (i idx : nat) (cat : CategoryKey) : list string :=
  let pool := TEMPLATE_QUESTS cat in
  [nth ((i + idx) mod length pool) pool "undefined"%string;
   nth ((i + idx + 1) mod length pool) pool "undefined"%string].

(** The per-category pairs in selection order, cut after five entries. *)
Definition day_titles (i : nat) (selected : list CategoryKey) : list string :=
  take 5 (concat (imap (rotation_pair i) selected)).

(** ** Which draws became ids *)

(** The id made from the n-th call of [Math.random()]. *)
Definition uid_at (rnd : nat -> N) (n : nat) : string := uid_of (rnd n mod two53)%N.

(** [drawn rnd k k' ids]: between draw [k] and draw [k'] the ids [ids] were
    made, in this order, each from a draw of its own. *)
Definition drawn (rnd : nat -> N) (k k' : nat) (ids : list string) : Prop :=
  k <= k' /\ sublist ids (map (uid_at rnd) (seq k (k' - k))).

(** The tokens of the draws [k], ..., [n - 1] are pairwise different. *)
Definition distinct_tokens (rnd : nat -> N) (k n : nat) : Prop :=
  NoDup (map (uid_at rnd) (seq k (n - k))).

Definition all_ids_page (days : list Page.DayPlan) : list string :=
  concat (map (fun d => map Page.id (Page.quests d)) days).

Definition all_ids_part002 (days : list Part002.DayPlan) : list string :=
  concat (map (fun d => map Part002.id (Part002.quests d)) days).

(** A generated quest starts not done and switched on. *)
Definition fresh_page (q : Page.Quest) : Prop :=
  Page.done q = false /\ Page.enabled q = true.

Definition fresh_part002 (q : Part002.Quest) : Prop :=
  Part002.done q = false /\ Part002.enabled q = true.


(** A value that [JSON.stringify] and [JSON.parse] give back unchanged. *)
Definition json_safe (v : jsval) : Prop :=
  exists d, stringify v = Some d /\ revive d = v.

(** [stored_as v w]: the value [v] has a JSON text, and parsing it gives
    [w]. *)
Definition stored_as (v w : jsval) : Prop :=
  exists d, stringify v = Some d /\ revive d = w.

(** A browser whose storage is empty and open. *)
Definition empty_browser : host :=
  Browser {| denied := false; items := ∅; fits := fun _ => true |}.

(** Oracles for examples.  [demo_rnd] returns 1/64, 2/64, ...: the tokens
    all differ.  [stuck_rnd] always returns 1/2.  [close_rnd] returns
    numbers that all differ, but only beyond the eighth base-36 digit. *)
Definition demo_rnd (n : nat) : N := (N.of_nat (n + 1) * 2 ^ 47)%N.
Definition stuck_rnd (n : nat) : N := (2 ^ 52)%N.
Definition close_rnd (n : nat) : N := (2 ^ 52 + 1 + N.of_nat n)%N.

(** A session of page.tsx in a browser: the user picks the category
    "運動" and presses the button that creates the plan.  The first quest
    of the first day gets the id "0k9". *)
Definition page_session : Page.World :=
  Page.world_of
    (Page.generate "2025-01-01T00:00:00.000Z"
       {| Page.state := None; Page.selected := [Exercise]; Page.score := 0;
          Page.tab := Page.TabHome; Page.env := empty_browser |}
       demo_rnd 0).1.

(** The same session in part_002. *)
Definition part002_session : Part002.World :=
  Part002.world_of
    (Part002.generate "2025-01-01T00:00:00.000Z"
       {| Part002.state := None; Part002.selected := [Exercise];
          Part002.tab := Part002.TabHome; Part002.env := empty_browser |}
       demo_rnd 0).1.



(** A browser whose storage is open and full: it accepts no write. *)
Definition full_browser : host :=
  Browser {| denied := false; items := ∅; fits := fun _ => false |}.

(** ** More of the components: selection, today's index, dashboards *)

#[global] Instance CategoryKey_eq_dec : EqDecision CategoryKey.
Proof. solve_decision. Defined.

#[global] Instance Rank_eq_dec : EqDecision Rank.
Proof. solve_decision. Defined.

(** The time value of a [Date]: milliseconds since the epoch, or NaN for a
    date that could not be parsed. *)
Inductive timeval :=
| Ms (z : Z)
| InvalidDate.

Definition MS_PER_DAY : Z := 1000 * 60 * 60 * 24.

(** [todayIndex], the same text in all three revisions.  [createdAt] is
    [state?.createdAt], [getTime s] is [new Date(s).getTime()] and [now] is
    [new Date().getTime()]; the result [None] is NaN.  The quotient of two
    integers below 2^53 has the same floor in doubles as in the integers. *)
Definition todayIndex (getTime : string -> timeval) (now : Z)
    (createdAt : option string) : option nat :=
  match createdAt with
  | None => Some 0
  | Some EmptyString => Some 0
  | Some s =>
      match getTime s with
      | InvalidDate => None
      | Ms created =>
          let diffMs := (now - created)%Z in
          let day := (diffMs / MS_PER_DAY)%Z in
          Some (Z.to_nat (Z.max 0 (Z.min 6 day)))
      end
  end.

Module PageView.

(** [const hasPlan = !!state?.plans?.length] *)
Definition hasPlan (w : Page.World) : bool :=
  match Page.state w with
  | Some st => negb (length (Page.plans st) =? 0)
  | None => false
  end.

(** [toggleCategory] of the wizard. *)
Definition toggleCategory (key : CategoryKey) (w : Page.World) : Page.World :=
  {| Page.state := Page.state w;
     Page.selected :=
       if bool_decide (key ∈ Page.selected w)
       then filter (fun k => k <> key) (Page.selected w)
       else Page.selected w ++ [key];
     Page.score := Page.score w; Page.tab := Page.tab w; Page.env := Page.env w |}.

(** [onThemeChange] as the page passes it to the settings view. *)
Definition onThemeChange (theme : Page.Theme) (w : Page.World) : Page.outcome :=
  match Page.state w with
  | None => Page.Done w
  | Some st =>
      let next := {| Page.selectedCategories := Page.selectedCategories st;
                     Page.plans := Page.plans st;
                     Page.createdAt := Page.createdAt st;
                     Page.theme := Some theme |} in
      Page.persist next {| Page.state := Some next; Page.selected := Page.selected w;
                           Page.score := Page.score w; Page.tab := Page.tab w;
                           Page.env := Page.env w |}
  end.

(** [HomeView]: [todayPlan.quests.filter((q) => q.enabled)] *)
Definition enabledQuests (todayPlan : Page.DayPlan) : list Page.Quest :=
  filter (fun q => Page.enabled q = true) (Page.quests todayPlan).

(** [enabled.filter((q) => q.done).length] *)
Definition doneCount (todayPlan : Page.DayPlan) : nat :=
  length (filter (fun q => Page.done q = true) (enabledQuests todayPlan)).

(** [randomQuest]: [null] without an enabled quest, else
    [enabled[Math.floor(Math.random() * enabled.length)]]. *)
Definition randomQuest (todayPlan : Page.DayPlan) : Gen (option Page.Quest) :=
  let enabled := enabledQuests todayPlan in
  if length enabled =? 0 then gret None
  else
    let* r := Math_random in
    gret (enabled !! N.to_nat (floor_mul r (N.of_nat (length enabled)))).

(** The number of quests marked done, switched on or not. *)
Definition doneQuests (w : Page.World) : Z :=
  match Page.state w with
  | None => 0
  | Some st =>
      Z.of_nat (length (filter (fun q => Page.done q = true)
                               (flat_map Page.quests (Page.plans st))))
  end.

(** Storage holds what the component holds: [loadState] would return the
    state of the hooks. *)
Definition synced (w : Page.World) : Prop :=
  loadState (Page.env w)
  = Normal match Page.state w with
           | Some st => Page.stateToJS st
           | None => JNull
           end.

End PageView.

Module Part002View.

(** [state.plans.reduce((s, p) => s + p.quests.filter((q) => q.enabled &&
    q.done).length, 0) ?? 0] *)
Definition weekDoneTotal (w : Part002.World) : nat :=
  match Part002.state w with
  | None => 0
  | Some st =>
      fold_left (fun s p =>
                   s + length (filter (fun q => Part002.enabled q && Part002.done q = true)
                                      (Part002.quests p)))
                (Part002.plans st) 0
  end.

(** The same sum over the quests that are switched on. *)
Definition weekAllTotal (w : Part002.World) : nat :=
  match Part002.state w with
  | None => 0
  | Some st =>
      fold_left (fun s p =>
                   s + length (filter (fun q => Part002.enabled q = true)
                                      (Part002.quests p)))
                (Part002.plans st) 0
  end.

Definition currentRank (w : Part002.World) : Rank :=
  calculateRank (Part002.totalPoints w).

(** [rankOrder.indexOf(r) + 1]; [indexOf] is -1 for a missing element. *)
Definition indexOf_succ (r : Rank) (l : list Rank) : nat :=
  match list_find (fun x => x = r) l with
  | Some (i, _) => i + 1
  | None => 0
  end.

(** [rankOrder[Math.min(rankOrder.indexOf(currentRank) + 1, rankOrder.length - 1)]] *)
Definition nextRank (w : Part002.World) : Rank :=
  nth (Nat.min (indexOf_succ (currentRank w) rankOrder) (length rankOrder - 1))
      rankOrder Novice.

(** [Math.max(thresholdByRank[nextRank] - totalPoints, 0)] *)
Definition toNext (w : Part002.World) : Z :=
  Z.max (thresholdByRank (nextRank w) - Part002.totalPoints w) 0.

(** [todayPlan?.quests.filter((q) => q.enabled) ?? []] for [todayPlan =
    state?.plans?.[todayIndex]]. *)
Definition todayEnabled (todayIndex : nat) (w : Part002.World) : list Part002.Quest :=
  match Part002.state w with
  | None => []
  | Some st =>
      match Part002.plans st !! todayIndex with
      | None => []
      | Some todayPlan => filter (fun q => Part002.enabled q = true) (Part002.quests todayPlan)
      end
  end.

Definition doneCount (todayIndex : nat) (w : Part002.World) : nat :=
  length (filter (fun q => Part002.done q = true) (todayEnabled todayIndex w)).


(** The callback of [p.quests.forEach] in [toggleDay]. *)
Definition setDay (checked : bool) (q : Part002.Quest) : Part002.Quest :=
  let q1 := Part002.setEnabled checked q in
  if negb checked then Part002.setDone false q1 else q1.

(** [toggleDay(checked)] of the quest view, for the day at [dayIdx].  It
    writes into the quests of the live state: nothing is cloned, no hook
    is set and nothing is saved. *)
Definition toggleDay (dayIdx : nat) (checked : bool) (w : Part002.World) : Part002.World :=
  match Part002.state w with
  | None => w
  | Some st =>
      match Part002.plans st !! dayIdx with
      | None => w
      | Some p =>
          {| Part002.state :=
               Some {| Part002.selectedCategories := Part002.selectedCategories st;
                       Part002.plans :=
                         <[dayIdx := {| Part002.day := Part002.day p;
                                        Part002.quests := map (setDay checked) (Part002.quests p) |}]>
                           (Part002.plans st);
                       Part002.createdAt := Part002.createdAt st;
                       Part002.theme := Part002.theme st |};
             Part002.selected := Part002.selected w;
             Part002.tab := Part002.tab w;
             Part002.env := Part002.env w |}
      end
  end.

(** A plan as [buildWeekPlan] makes it: 7 days of at most 5 quests. *)
Definition week_shaped (w : Part002.World) : Prop :=
  match Part002.state w with
  | None => True
  | Some st =>
      length (Part002.plans st) = 7
      /\ Forall (fun d => length (Part002.quests d) <= 5) (Part002.plans st)
  end.

End Part002View.

Module PageChatView.

(** [handleSend] of [MessageInput]: what it hands to [onSubmit], if
    anything. *)
Definition handleSend (input : jsstring) : option jsstring :=
  match trim input with
  | [] => None
  | _ => Some input
  end.

(** The chat after [handleSubmit]: the messages shown at once, and the
    reply that the timer appends after [delay] milliseconds. *)
Record Pending := mkPending {
  shown : list ChatMsg;
  reply : ChatMsg;
  delay : nat;
}.

(** [handleSubmit] of [ChatView] in page.tsx.  The responder gets the
    messages of the render, without the message being sent. *)
Definition handleSubmit (text : jsstring) (messages : list ChatMsg) : Gen Pending :=
  let userMsg := {| role := RoleUser; content := text |} in
  let* r := PageChat.mockAssistant text messages in
  gret {| shown := messages ++ [userMsg];
          reply := {| role := RoleAssistant; content := r |};
          delay := Nat.min 1200 (Nat.max 300 (length r * 30)) |}.

(** The callback of [setTimeout]. *)
Definition afterTimeout (p : Pending) : list ChatMsg := shown p ++ [reply p].

(** Typing [input] and pressing the button, until the reply is shown. *)
Definition sendMessage (input : jsstring) (messages : list ChatMsg) : Gen (list ChatMsg) :=
  match handleSend input with
  | None => gret messages
  | Some text => let* p := handleSubmit text messages in gret (afterTimeout p)
  end.

(** The keyword rules of [mockAssistant], in one test. *)
Definition keyword_rule (text : jsstring) : bool :=
  starts_with (utf16 "help") text || starts_with (utf16 "ヘルプ") text
  || includes (utf16 "困った") text || includes (utf16 "どう使") text
  || includes (utf16 "こんにちは") text || includes (utf16 "初めまして") text
  || includes (utf16 "こんちは") text
  || includes (utf16 "天気") (toLowerCase text) || includes (utf16 "weather") (toLowerCase text)
  || includes (utf16 "英単語") text || includes (utf16 "単語") text
  || includes (utf16 "英語") text
  || includes (utf16 "運動") text || includes (utf16 "筋トレ") text
  || includes (utf16 "ストレッチ") text || includes (utf16 "走") text.

(** The content of the last message of the user, or the empty string. *)
Definition lastUserContent (messages : list ChatMsg) : jsstring :=
  match find (fun m => match role m with RoleUser => true | _ => false end)
             (rev messages) with
  | Some m => content m
  | None => []
  end.

End PageChatView.

(** A date function for examples: it reads "2025-01-01T00:00:00.000Z" as
    its time value and nothing else. *)
Definition demo_getTime (s : string) : timeval :=
  if String.eqb s "2025-01-01T00:00:00.000Z" then Ms 1735689600000 else InvalidDate.

(** What the storage of a host holds under a key; nothing without a
    window. *)
Definition host_item (h : host) (key : string) : option text :=
  match h with
  | NoWindow => None
  | Browser ls => items ls !! key
  end.

(** A digit of base 36 as [toString(36)] writes it: 0-9 or a-z. *)
Definition is_base36 (c : ascii) : bool :=
  let n := N_of_ascii c in
  ((48 <=? n) && (n <=? 57) || (97 <=? n) && (n <=? 122))%N.

Fixpoint all_base36 (s : string) : Prop :=
  match s with
  | EmptyString => True
  | String c s' => is_base36 c = true /\ all_base36 s'
  end.

(** The decoration [buildWeekPlan] of part_002 gives a quest. *)
Definition decorated (q : Part002.Quest) : Prop :=
  (exists c, Part002.category q = Has (category_key c))
  /\ (Part002.points q = Has 10%Z \/ Part002.points q = Has 15%Z)
  /\ (Part002.progress q = Undef
      \/ exists p, Part002.progress q = Has p /\ (10 <= p <= 79)%Z)
  /\ Part002.locked q = Has false
  /\ Part002.note q = Missing.

(** * Properties *)

(** ** Draw bookkeeping *)

Lemma gbind_eq {A B} (m : Gen A) (f : A -> Gen B) rnd k :
  gbind m f rnd k = f (m rnd k).1 rnd (m rnd k).2.
Proof. unfold gbind. by destruct (m rnd k). Qed.

Lemma uid_eq rnd k : uid rnd k = (uid_at rnd k, S k).
Proof. reflexivity. Qed.

Lemma drawn_nil rnd k k' : k <= k' -> drawn rnd k k' [].
Proof. intros H. split; [done | apply sublist_nil_l]. Qed.

Lemma drawn_one rnd k : drawn rnd k (S k) [uid_at rnd k].
Proof.
  split; [lia |]. replace (S k - k) with 1 by lia. done.
Qed.

Lemma drawn_app rnd k k' k'' ids ids' :
  drawn rnd k k' ids -> drawn rnd k' k'' ids' -> drawn rnd k k'' (ids ++ ids').
Proof.
  intros [Hle Hs] [Hle' Hs']. split; [lia |].
  replace (k'' - k) with ((k' - k) + (k'' - k')) by lia.
  rewrite seq_app, map_app.
  replace (k + (k' - k)) with k' by lia.
  by apply sublist_app.
Qed.

Lemma drawn_sub rnd k k' ids ids' :
  sublist ids' ids -> drawn rnd k k' ids -> drawn rnd k k' ids'.
Proof. intros Hsub [Hle Hs]. split; [done | by etrans]. Qed.

Lemma drawn_NoDup rnd k k' ids :
  drawn rnd k k' ids -> distinct_tokens rnd k k' -> NoDup ids.
Proof. intros [_ Hs] Hd. by eapply sublist_NoDup. Qed.

Lemma pool_length cat : length (TEMPLATE_QUESTS cat) = 3.
Proof. by destruct cat. Qed.

Lemma rotation_next i idx cat :
  ((i + idx) mod length (TEMPLATE_QUESTS cat) + 1) mod length (TEMPLATE_QUESTS cat)
  = (i + idx + 1) mod length (TEMPLATE_QUESTS cat).
Proof. rewrite pool_length. by rewrite Nat.Div0.add_mod_idemp_l. Qed.

(** ** The plan builder of page.tsx *)

Lemma page_pushCategory_spec rnd i cat idx acc k :
  exists new,
    (Page.pushCategory i cat idx acc rnd k).1 = acc ++ new
    /\ map Page.title new = rotation_pair i idx cat
    /\ Forall fresh_page new
    /\ drawn rnd k (Page.pushCategory i cat idx acc rnd k).2 (map Page.id new).
Proof.
  unfold Page.pushCategory.
  set (base := (i + idx) mod length (TEMPLATE_QUESTS cat)).
  eexists [Page.mkQuest (uid_at rnd k) _ false true;
           Page.mkQuest (uid_at rnd (S k)) _ false true].
  cbn. rewrite <- app_assoc. split; [reflexivity |].
  split; [| split].
  - unfold rotation_pair. by rewrite <- rotation_next.
  - repeat constructor.
  - apply (drawn_app rnd k (S k) (S (S k)) [_] [_]); apply drawn_one.
Qed.

(** The loop over the selected categories, for any quest type whose
    per-category step adds the rotation pair. *)
Section CategoryLoop.
Context {Q : Type} (qtitle qid : Q -> string) (fresh : Q -> Prop).
Context (pushCat : nat -> CategoryKey -> nat -> list Q -> Gen (list Q)).
Context (rnd : nat -> N).

Hypothesis pushCat_spec : forall i cat idx acc k,
  exists new,
    (pushCat i cat idx acc rnd k).1 = acc ++ new
    /\ map qtitle new = rotation_pair i idx cat
    /\ Forall fresh new
    /\ drawn rnd k (pushCat i cat idx acc rnd k).2 (map qid new).

Lemma category_loop i sel : forall idx acc k,
  exists new,
    (forEach (pushCat i) sel idx acc rnd k).1 = acc ++ new
    /\ map qtitle new = concat (imap (fun j => rotation_pair i (idx + j)) sel)
    /\ Forall fresh new
    /\ drawn rnd k (forEach (pushCat i) sel idx acc rnd k).2 (map qid new).
Proof.
  induction sel as [| cat sel IH]; intros idx acc k.
  - exists []. cbn. rewrite app_nil_r. repeat split; try constructor.
    apply sublist_nil_l.
  - cbn [forEach]. rewrite gbind_eq.
    destruct (pushCat_spec i cat idx acc k) as (n1 & E1 & T1 & F1 & D1).
    destruct (IH (S idx) (pushCat i cat idx acc rnd k).1
                 (pushCat i cat idx acc rnd k).2) as (n2 & E2 & T2 & F2 & D2).
    exists (n1 ++ n2).
    split; [by rewrite E2, E1, <- app_assoc |]. split; [| split].
    + rewrite map_app, T1, T2. cbn [imap concat]. rewrite Nat.add_0_r.
      apply (f_equal (app _)), (f_equal (@concat _)), imap_ext.
      intros j x _. cbn. f_equal. lia.
    + by apply Forall_app.
    + rewrite map_app. by eapply drawn_app.
Qed.
End CategoryLoop.

Lemma rotation_pair_length i idx cat : length (rotation_pair i idx cat) = 2.
Proof. done. Qed.

Lemma concat_pairs_length {A} (f : nat -> A -> list string) (l : list A) :
  (forall j x, length (f j x) = 2) -> length (concat (imap f l)) = 2 * length l.
Proof.
  revert f. induction l as [| x l IH]; intros f Hf; [done |].
  cbn. rewrite length_app, Hf, IH; [lia |]. intros j y. apply Hf.
Qed.

Lemma day_titles_length i sel :
  length (day_titles i sel) = Nat.min (2 * length sel) 5.
Proof.
  unfold day_titles. rewrite length_take, concat_pairs_length; [lia |].
  intros j x. apply rotation_pair_length.
Qed.

Lemma page_pushDay_spec sel rnd i n days k :
  exists qs,
    (Page.pushDay sel i n days rnd k).1 = days ++ [Page.mkDayPlan i qs]
    /\ map Page.title qs = day_titles i sel
    /\ Forall fresh_page qs
    /\ drawn rnd k (Page.pushDay sel i n days rnd k).2 (map Page.id qs).
Proof.
  unfold Page.pushDay. rewrite gbind_eq.
  destruct (category_loop Page.title Page.id fresh_page Page.pushCategory rnd
              (page_pushCategory_spec rnd) i sel 0 [] k) as (new & E & T & F & D).
  cbn in E. exists (take 5 new). cbn. rewrite E.
  split; [done |]. split; [| split].
  - transitivity (take 5 (map Page.title new)); [apply fmap_take |].
    rewrite T. reflexivity.
  - by apply Forall_take.
  - eapply drawn_sub; [| exact D].
    apply (fmap_sublist Page.id), sublist_take.
Qed.

Lemma page_days_loop sel rnd ds : forall idx acc k,
  exists new,
    (forEach (Page.pushDay sel) ds idx acc rnd k).1 = acc ++ new
    /\ map (fun d => (Page.day d, map Page.title (Page.quests d))) new
       = map (fun i => (i, day_titles i sel)) ds
    /\ Forall (fun d => Forall fresh_page (Page.quests d)) new
    /\ drawn rnd k (forEach (Page.pushDay sel) ds idx acc rnd k).2 (all_ids_page new).
Proof.
  induction ds as [| i ds IH]; intros idx acc k.
  - exists []. cbn. rewrite app_nil_r. repeat split; try constructor.
    apply sublist_nil_l.
  - cbn [forEach]. rewrite gbind_eq.
    destruct (page_pushDay_spec sel rnd i idx acc k) as (qs & E1 & T1 & F1 & D1).
    destruct (IH (S idx) (Page.pushDay sel i idx acc rnd k).1
                 (Page.pushDay sel i idx acc rnd k).2) as (n2 & E2 & T2 & F2 & D2).
    exists (Page.mkDayPlan i qs :: n2).
    split; [by rewrite E2, E1, <- app_assoc |]. split; [| split].
    + cbn. by rewrite T1, T2.
    + by constructor.
    + unfold all_ids_page. cbn. by eapply drawn_app.
Qed.

Lemma page_buildWeekPlan_spec sel rnd k :
  let r := Page.buildWeekPlan sel rnd k in
  map (fun d => (Page.day d, map Page.title (Page.quests d))) r.1
    = map (fun i => (i, day_titles i sel)) (seq 1 7)
  /\ Forall (fun d => Forall fresh_page (Page.quests d)) r.1
  /\ drawn rnd k r.2 (all_ids_page r.1).
Proof.
  destruct (page_days_loop sel rnd (seq 1 7) 0 [] k) as (new & E & T & F & D).
  unfold Page.buildWeekPlan. cbn zeta. rewrite E. by cbn [app].
Qed.

(** ** The plan builder of part_002 *)

Lemma drawProgress_le rnd k : S k <= (Part002.drawProgress rnd k).2.
Proof.
  unfold Part002.drawProgress. rewrite gbind_eq. cbn.
  destruct (Part002.lt_0_3 _); cbn; lia.
Qed.

Lemma part002_pushTitle_spec rnd cat t j acc k :
  exists q,
    (Part002.pushTitle cat t j acc rnd k).1 = acc ++ [q]
    /\ Part002.title q = t
    /\ fresh_part002 q
    /\ drawn rnd k (Part002.pushTitle cat t j acc rnd k).2 [Part002.id q].
Proof.
  unfold Part002.pushTitle. rewrite !gbind_eq, uid_eq. cbn [gret fst snd].
  eexists. split; [reflexivity |]. cbn [Part002.title Part002.id].
  split; [done |]. split; [done |]. split.
  - pose proof (drawProgress_le rnd (S k)). lia.
  - pose proof (drawProgress_le rnd (S k)) as Hle.
    set (k' := (Part002.drawProgress rnd (S k)).2) in *.
    replace (k' - k) with (S (k' - S k)) by lia. cbn.
    apply sublist_skip, sublist_nil_l.
Qed.

Lemma part002_pushCategory_spec rnd i cat idx acc k :
  exists new,
    (Part002.pushCategory i cat idx acc rnd k).1 = acc ++ new
    /\ map Part002.title new = rotation_pair i idx cat
    /\ Forall fresh_part002 new
    /\ drawn rnd k (Part002.pushCategory i cat idx acc rnd k).2 (map Part002.id new).
Proof.
  unfold Part002.pushCategory. cbn [forEach]. rewrite !gbind_eq.
  set (base := (i + idx) mod length (TEMPLATE_QUESTS cat)).
  set (t1 := nth base _ _). set (t2 := nth _ _ _).
  destruct (part002_pushTitle_spec rnd cat t1 0 acc k) as (q1 & E1 & T1 & F1 & D1).
  set (r1 := Part002.pushTitle cat t1 0 acc rnd k) in *.
  destruct (part002_pushTitle_spec rnd cat t2 1 r1.1 r1.2) as (q2 & E2 & T2 & F2 & D2).
  exists [q1; q2]. cbn [gret fst snd].
  split; [by rewrite E2, E1, <- app_assoc |]. split; [| split].
  - cbn. rewrite T1, T2. unfold rotation_pair, t1, t2, base.
    by rewrite <- rotation_next.
  - by repeat apply Forall_cons_2.
  - apply (drawn_app rnd k r1.2 _ [_] [_]); assumption.
Qed.

Lemma part002_pushDay_spec sel rnd i n days k :
  exists qs,
    (Part002.pushDay sel i n days rnd k).1 = days ++ [Part002.mkDayPlan i qs]
    /\ map Part002.title qs = day_titles i sel
    /\ Forall fresh_part002 qs
    /\ drawn rnd k (Part002.pushDay sel i n days rnd k).2 (map Part002.id qs).
Proof.
  unfold Part002.pushDay. rewrite gbind_eq.
  destruct (category_loop Part002.title Part002.id fresh_part002
              Part002.pushCategory rnd
              (part002_pushCategory_spec rnd) i sel 0 [] k) as (new & E & T & F & D).
  cbn in E. exists (take 5 new). cbn. rewrite E.
  split; [done |]. split; [| split].
  - transitivity (take 5 (map Part002.title new)); [apply fmap_take |].
    rewrite T. reflexivity.
  - by apply Forall_take.
  - eapply drawn_sub; [| exact D].
    apply (fmap_sublist Part002.id), sublist_take.
Qed.

Lemma part002_days_loop sel rnd ds : forall idx acc k,
  exists new,
    (forEach (Part002.pushDay sel) ds idx acc rnd k).1 = acc ++ new
    /\ map (fun d => (Part002.day d, map Part002.title (Part002.quests d))) new
       = map (fun i => (i, day_titles i sel)) ds
    /\ Forall (fun d => Forall fresh_part002 (Part002.quests d)) new
    /\ drawn rnd k (forEach (Part002.pushDay sel) ds idx acc rnd k).2
         (all_ids_part002 new).
Proof.
  induction ds as [| i ds IH]; intros idx acc k.
  - exists []. cbn. rewrite app_nil_r. repeat split; try constructor.
    apply sublist_nil_l.
  - cbn [forEach]. rewrite gbind_eq.
    destruct (part002_pushDay_spec sel rnd i idx acc k) as (qs & E1 & T1 & F1 & D1).
    destruct (IH (S idx) (Part002.pushDay sel i idx acc rnd k).1
                 (Part002.pushDay sel i idx acc rnd k).2) as (n2 & E2 & T2 & F2 & D2).
    exists (Part002.mkDayPlan i qs :: n2).
    split; [by rewrite E2, E1, <- app_assoc |]. split; [| split].
    + cbn. by rewrite T1, T2.
    + by constructor.
    + unfold all_ids_part002. cbn. by eapply drawn_app.
Qed.

Lemma part002_buildWeekPlan_spec sel rnd k :
  let r := Part002.buildWeekPlan sel rnd k in
  map (fun d => (Part002.day d, map Part002.title (Part002.quests d))) r.1
    = map (fun i => (i, day_titles i sel)) (seq 1 7)
  /\ Forall (fun d => Forall fresh_part002 (Part002.quests d)) r.1
  /\ drawn rnd k r.2 (all_ids_part002 r.1).
Proof.
  destruct (part002_days_loop sel rnd (seq 1 7) 0 [] k) as (new & E & T & F & D).
  unfold Part002.buildWeekPlan. cbn zeta. rewrite E. by cbn [app].
Qed.

(** ** Shape of a generated plan *)

Lemma plan_sizes {D Q} (dday : D -> nat) (dquests : D -> list Q)
    (qtitle : Q -> string) sel : forall days ds,
  map (fun d => (dday d, map qtitle (dquests d))) days
    = map (fun i => (i, day_titles i sel)) ds ->
  length days = length ds
  /\ Forall (fun d => length (dquests d) = Nat.min (2 * length sel) 5) days.
Proof.
  induction days as [| d days IH]; intros [| i ds] E; try discriminate.
  - by split.
  - cbn in E. injection E as _ Ht E. destruct (IH ds E) as [Hlen Hall].
    split; [cbn; by rewrite Hlen |]. constructor; [| done].
    by rewrite <- (length_map qtitle), Ht, day_titles_length.
Qed.

Lemma page_quests_determined sel : forall days ds,
  map (fun d => (Page.day d, map Page.title (Page.quests d))) days
    = map (fun i => (i, day_titles i sel)) ds ->
  Forall (fun d => Forall fresh_page (Page.quests d)) days ->
  map (fun d => (Page.day d,
                 map (fun q => (Page.title q, Page.done q, Page.enabled q)) (Page.quests d)))
      days
  = map (fun i => (i, map (fun t => (t, false, true)) (day_titles i sel))) ds.
Proof.
  induction days as [| d days IH]; intros [| i ds] E F; try discriminate; [done |].
  cbn in E. injection E as Hd Ht E. apply Forall_cons in F as [Fd F].
  cbn. rewrite (IH ds E F), Hd, <- Ht. do 2 f_equal.
  clear Ht. induction Fd as [| q qs [Hq1 Hq2] _ IHq]; [done |].
  cbn. by rewrite Hq1, Hq2, IHq.
Qed.

(** C1, as amended.  Whatever the selection and whatever [Math.random]
    returns, [buildWeekPlan] (page.tsx and part_001, and part_002) returns
    7 day-plans of at most 5 quests, every quest not done and switched on;
    the ids of the plan are pairwise different when the tokens of the draws
    made are pairwise different. *)
Theorem buildWeekPlan_shape (sel : list CategoryKey) (rnd : nat -> N) (k : nat) :
  (let r := Page.buildWeekPlan sel rnd k in
   length r.1 = 7
   /\ Forall (fun d => length (Page.quests d) <= 5) r.1
   /\ Forall (fun d => Forall fresh_page (Page.quests d)) r.1
   /\ (distinct_tokens rnd k r.2 -> NoDup (all_ids_page r.1)))
  /\
  (let r := Part002.buildWeekPlan sel rnd k in
   length r.1 = 7
   /\ Forall (fun d => length (Part002.quests d) <= 5) r.1
   /\ Forall (fun d => Forall fresh_part002 (Part002.quests d)) r.1
   /\ (distinct_tokens rnd k r.2 -> NoDup (all_ids_part002 r.1))).
Proof.
  split; cbn zeta.
  - destruct (page_buildWeekPlan_spec sel rnd k) as (T & F & D).
    destruct (plan_sizes _ _ _ sel _ _ T) as [Hlen Hsz].
    repeat split; [done | | done | by apply drawn_NoDup].
    eapply Forall_impl; [exact Hsz |]. cbn. intros d ->. lia.
  - destruct (part002_buildWeekPlan_spec sel rnd k) as (T & F & D).
    destruct (plan_sizes _ _ _ sel _ _ T) as [Hlen Hsz].
    repeat split; [done | | done | by apply drawn_NoDup].
    eapply Forall_impl; [exact Hsz |]. cbn. intros d ->. lia.
Qed.

(** With an oracle whose draws all differ, the ids of a plan differ. *)
Lemma buildWeekPlan_shape_witness :
  NoDup (all_ids_page (Page.buildWeekPlan [Exercise] demo_rnd 0).1)
  /\ NoDup (all_ids_part002 (Part002.buildWeekPlan [Exercise] demo_rnd 0).1).
Proof.
  split.
  - apply (buildWeekPlan_shape [Exercise] demo_rnd 0).
    apply (bool_decide_unpack _). vm_compute. exact I.
  - apply (buildWeekPlan_shape [Exercise] demo_rnd 0).
    apply (bool_decide_unpack _). vm_compute. exact I.
Defined.

(** C1 as stated fails: [uid] keeps the first eight digits that
    [toString(36)] prints for a random draw, and nothing compares the ids
    made.  Fourteen draws that all differ, but agree on these digits, give
    fourteen equal ids. *)
Lemma buildWeekPlan_ids_collide :
  [Exercise] <> []
  /\ NoDup (map close_rnd (seq 0 14))
  /\ (Page.buildWeekPlan [Exercise] close_rnd 0).2 = 14
  /\ ~ NoDup (all_ids_page (Page.buildWeekPlan [Exercise] close_rnd 0).1).
Proof.
  split; [done |]. split; [| split; [reflexivity |]].
  - apply (bool_decide_unpack _). vm_compute. exact I.
  - intros H. vm_compute in H.
    apply NoDup_cons in H as [Hnot _]. apply Hnot. constructor.
Qed.

(** The engine rounds the last digit it prints.  Two draws that differ in
    their last bit get the same id, a draw just below 2/3 is printed as
    "0.o", and the largest draw is printed with eleven digits. *)
Lemma uid_of_rounds :
  uid_of 5264558239689525 = "l1hnmr7q"%string
  /\ uid_of 5264558239689526 = "l1hnmr7q"%string
  /\ toString36 5264558239689526 = "0.l1hnmr7q00c"%string
  /\ toString36 6004799503160661 = "0.o"%string
  /\ toString36 1 = "0.0000000000em2djky0vz9"%string
  /\ toString36 (2 ^ 53 - 1) = "0.zzzzzzzzzza"%string.
Proof. repeat split; vm_compute; reflexivity. Qed.

(** C5.  On day [i] the category at position [idx] contributes
    [pool[(i + idx) mod pool.length]] and [pool[(i + idx + 1) mod pool.length]];
    the day holds these pairs in selection order, cut after 5.  The right
    sides do not mention the oracle: in page.tsx everything but the id of a
    quest is fixed by the day and the selection, and so are the titles of
    part_002. *)
Theorem buildWeekPlan_titles (sel : list CategoryKey) (rnd : nat -> N) (k : nat) :
  map (fun d => (Page.day d,
                 map (fun q => (Page.title q, Page.done q, Page.enabled q)) (Page.quests d)))
      (Page.buildWeekPlan sel rnd k).1
  = map (fun i => (i, map (fun t => (t, false, true)) (day_titles i sel))) (seq 1 7)
  /\
  map (fun d => (Part002.day d, map Part002.title (Part002.quests d)))
      (Part002.buildWeekPlan sel rnd k).1
  = map (fun i => (i, day_titles i sel)) (seq 1 7).
Proof.
  split.
  - destruct (page_buildWeekPlan_spec sel rnd k) as (T & F & _).
    by apply page_quests_determined.
  - by destruct (part002_buildWeekPlan_spec sel rnd k) as (T & _ & _).
Qed.

(** C10.  With k selected categories, each of the 7 day-plans holds exactly
    min(2k, 5) quests. *)
Theorem buildWeekPlan_day_sizes (sel : list CategoryKey) (rnd : nat -> N) (k : nat) :
  (length (Page.buildWeekPlan sel rnd k).1 = 7
   /\ Forall (fun d => length (Page.quests d) = Nat.min (2 * length sel) 5)
             (Page.buildWeekPlan sel rnd k).1)
  /\
  (length (Part002.buildWeekPlan sel rnd k).1 = 7
   /\ Forall (fun d => length (Part002.quests d) = Nat.min (2 * length sel) 5)
             (Part002.buildWeekPlan sel rnd k).1).
Proof.
  split.
  - destruct (page_buildWeekPlan_spec sel rnd k) as (T & _ & _).
    exact (plan_sizes _ _ _ sel _ _ T).
  - destruct (part002_buildWeekPlan_spec sel rnd k) as (T & _ & _).
    exact (plan_sizes _ _ _ sel _ _ T).
Qed.

(** ** Ranks *)

Lemma tier_rankOrder r : rankOrder !! tier r = Some r.
Proof. by destruct r. Qed.

Ltac rank_cases :=
  unfold calculateRank;
  repeat match goal with
         | |- context [(?a >=? ?b)%Z] => destruct (Z.geb_spec a b)
         end.

(** C4.  For a score s >= 0, [calculateRank s] is a tier whose lower bound
    is at most s and no tier with such a bound is higher; the bounds are
    0, 50, 100, 200, 500, 1000 in ascending tier order; the rank never
    falls when the score rises; [calculateRank 0] is Novice and
    [calculateRank 1000] is Sovereign. *)
Theorem calculateRank_highest_tier (s : Z) :
  (0 <= s)%Z ->
  map thresholdByRank rankOrder = [0; 50; 100; 200; 500; 1000]%Z
  /\ (thresholdByRank (calculateRank s) <= s)%Z
  /\ (forall r, (thresholdByRank r <= s)%Z -> tier r <= tier (calculateRank s))
  /\ (forall t, (s <= t)%Z -> tier (calculateRank s) <= tier (calculateRank t))
  /\ calculateRank 0 = Novice
  /\ calculateRank 1000 = Sovereign.
Proof.
  intros Hs. split; [done |]. split; [| split; [| split; [| done]]].
  - rank_cases; cbn; lia.
  - intros r. rank_cases; destruct r; cbn; lia.
  - intros t Ht. rank_cases; cbn; lia.
Qed.

Lemma calculateRank_highest_tier_witness :
  (thresholdByRank (calculateRank 50) <= 50)%Z
  /\ (forall r, (thresholdByRank r <= 50)%Z -> tier r <= tier (calculateRank 50)).
Proof.
  destruct (calculateRank_highest_tier 50 ltac:(lia)) as (_ & H1 & H2 & _).
  exact (conj H1 H2).
Defined.

(** ** Storage *)

(** C8.  [loadState] never throws: on every host it returns a value, and
    that value is [null] without a window, with the key missing, with a
    stored string that is not a JSON text, and with storage that refuses
    access. *)
Theorem loadState_never_throws (h : host) :
  (exists v, loadState h = Normal v)
  /\ loadState NoWindow = Normal JNull
  /\ (forall ls, items ls !! STORAGE_KEY = None -> loadState (Browser ls) = Normal JNull)
  /\ (forall ls s, items ls !! STORAGE_KEY = Some (OtherText s) ->
        loadState (Browser ls) = Normal JNull)
  /\ (forall ls, denied ls = true -> loadState (Browser ls) = Normal JNull).
Proof.
  split; [| split; [done | split; [| split]]].
  - destruct h as [| ls]; [by eexists |]. unfold loadState, getItem.
    destruct (denied ls); [by eexists |]. cbn.
    destruct (items ls !! STORAGE_KEY) as [[d | s] |]; cbn; [by eexists | | by eexists].
    destruct s; cbn; by eexists.
  - intros ls Hnone. unfold loadState, getItem.
    destruct (denied ls); [done |]. cbn. by rewrite Hnone.
  - intros ls s Hs. unfold loadState, getItem.
    destruct (denied ls); [done |]. cbn. rewrite Hs. by destruct s.
  - intros ls Hd. unfold loadState, getItem. by rewrite Hd.
Qed.

Lemma loadState_never_throws_witness :
  loadState (Browser {| denied := false; items := ∅; fits := fun _ => true |})
  = Normal JNull
  /\ loadState (Browser {| denied := false;
                           items := {[ STORAGE_KEY := OtherText "{oops" ]};
                           fits := fun _ => true |})
     = Normal JNull
  /\ loadState (Browser {| denied := true; items := ∅; fits := fun _ => true |})
     = Normal JNull.
Proof.
  destruct (loadState_never_throws NoWindow) as (_ & _ & Hmiss & Hbad & Hden).
  split; [| split].
  - apply Hmiss. apply lookup_empty.
  - apply (Hbad _ "{oops"%string). apply lookup_singleton_eq.
  - by apply Hden.
Defined.

Lemma json_safe_arr (l : list jsval) : Forall json_safe l -> json_safe (JArr l).
Proof.
  intros Hall.
  exists (JSArr (map (fun x => match stringify x with
                               | Some d => d
                               | None => JSNull
                               end) l)).
  split; [done |]. cbn. f_equal.
  induction Hall as [| x l (d & Hs & Hr) _ IH]; [done |].
  cbn. by rewrite Hs, Hr, IH.
Qed.

Lemma json_safe_obj (fs : list (string * jsval)) :
  Forall (fun kv => json_safe kv.2) fs -> json_safe (JObj fs).
Proof.
  intros Hall.
  exists (JSObj (flat_map (fun kv => match stringify (snd kv) with
                                     | Some d => [(fst kv, d)]
                                     | None => []
                                     end) fs)).
  split; [done |]. cbn. f_equal.
  induction Hall as [| [key x] fs (d & Hs & Hr) _ IH]; [done |].
  cbn [flat_map snd fst] in *. rewrite Hs. cbn [app map snd fst].
  by rewrite Hr, IH.
Qed.

Lemma json_safe_str s : json_safe (JStr s).
Proof. by exists (JSStr s). Qed.

Lemma json_safe_num z : json_safe (JNum z).
Proof. by exists (JSNum z). Qed.

Lemma json_safe_bool b : json_safe (JBool b).
Proof. by exists (JSBool b). Qed.

Lemma page_quest_safe q : json_safe (Page.questToJS q).
Proof.
  apply json_safe_obj.
  repeat constructor; cbn; auto using json_safe_str, json_safe_bool.
Qed.

Lemma page_day_safe d : json_safe (Page.dayToJS d).
Proof.
  apply json_safe_obj. repeat constructor; cbn; [apply json_safe_num |].
  apply json_safe_arr, Forall_fmap, Forall_true. intros q. apply page_quest_safe.
Qed.

Lemma page_theme_safe t : json_safe (Page.themeToJS t).
Proof. apply json_safe_obj. repeat constructor; cbn; apply json_safe_str. Qed.

Lemma page_state_safe st : json_safe (Page.stateToJS st).
Proof.
  apply json_safe_obj. repeat apply Forall_app_2.
  - repeat constructor; cbn.
    + apply json_safe_arr, Forall_fmap, Forall_true. intros c. apply json_safe_str.
    + apply json_safe_arr, Forall_fmap, Forall_true. intros d. apply page_day_safe.
  - destruct (Page.createdAt st); repeat constructor. apply json_safe_str.
  - destruct (Page.theme st); repeat constructor. apply page_theme_safe.
Qed.

Lemma stored_as_obj_app a a' b b' :
  stored_as (JObj a) (JObj a') -> stored_as (JObj b) (JObj b') ->
  stored_as (JObj (a ++ b)) (JObj (a' ++ b')).
Proof.
  intros (da & Ha & Ra) (db & Hb & Rb). cbn in Ha, Hb.
  injection Ha as <-. injection Hb as <-. cbn in Ra, Rb.
  injection Ra as Ra. injection Rb as Rb.
  exists (JSObj (flat_map (fun kv => match stringify (snd kv) with
                                     | Some d => [(fst kv, d)]
                                     | None => []
                                     end) (a ++ b))).
  split; [done |]. cbn [revive]. by rewrite flat_map_app, map_app, Ra, Rb.
Qed.

Lemma stored_as_obj_one key x y :
  stored_as x y -> stored_as (JObj [(key, x)]) (JObj [(key, y)]).
Proof.
  intros (d & Hs & Hr). exists (JSObj [(key, d)]).
  split; [| by cbn; rewrite Hr]. cbn [stringify flat_map snd fst]. by rewrite Hs.
Qed.

Lemma stored_as_field {A} key (f : A -> jsval) (p : prop A) :
  (forall a, json_safe (f a)) ->
  stored_as (JObj (Part002.field key f p)) (JObj (Part002.field key f (Part002.defined p))).
Proof.
  intros Hf. destruct p as [| | a]; cbn [Part002.field Part002.defined].
  - by exists (JSObj []).
  - by exists (JSObj []).
  - apply stored_as_obj_one, Hf.
Qed.

Lemma stored_as_arr {A} (f : A -> jsval) (g : A -> A) (l : list A) :
  (forall x, stored_as (f x) (f (g x))) ->
  stored_as (JArr (map f l)) (JArr (map f (map g l))).
Proof.
  intros Hf.
  exists (JSArr (map (fun x => match stringify x with
                               | Some d => d
                               | None => JSNull
                               end) (map f l))).
  split; [done |]. cbn [revive]. f_equal.
  induction l as [| x l IH]; [done |]. cbn [map].
  destruct (Hf x) as (d & Hs & Hr). by rewrite Hs, Hr, IH.
Qed.

Lemma part002_quest_stored q :
  stored_as (Part002.questToJS q) (Part002.questToJS (Part002.questDefined q)).
Proof.
  unfold Part002.questToJS.
  cbn [Part002.questDefined Part002.id Part002.title Part002.done Part002.enabled
       Part002.category Part002.points Part002.progress Part002.locked Part002.note].
  repeat apply stored_as_obj_app;
    try (apply stored_as_field; intros a;
         auto using json_safe_str, json_safe_num, json_safe_bool).
  apply json_safe_obj.
  repeat constructor; cbn; auto using json_safe_str, json_safe_bool.
Qed.

Lemma part002_day_stored d :
  stored_as (Part002.dayToJS d)
    (Part002.dayToJS {| Part002.day := Part002.day d;
                        Part002.quests := map Part002.questDefined (Part002.quests d) |}).
Proof.
  unfold Part002.dayToJS. cbn [Part002.day Part002.quests].
  apply (stored_as_obj_app [_] [_] [_] [_]); apply stored_as_obj_one.
  - apply json_safe_num.
  - apply stored_as_arr, part002_quest_stored.
Qed.

Lemma part002_state_stored st :
  stored_as (Part002.stateToJS st) (Part002.stateToJS (Part002.dropUndefined st)).
Proof.
  unfold Part002.stateToJS. cbn [Part002.dropUndefined Part002.selectedCategories
    Part002.plans Part002.createdAt Part002.theme].
  repeat apply stored_as_obj_app.
  - apply (stored_as_obj_app [_] [_] [_] [_]); apply stored_as_obj_one.
    + apply json_safe_arr, Forall_fmap, Forall_true. intros c. apply json_safe_str.
    + apply (stored_as_arr Part002.dayToJS
               (fun d => {| Part002.day := Part002.day d;
                            Part002.quests := map Part002.questDefined (Part002.quests d) |})).
      apply part002_day_stored.
  - apply json_safe_obj.
    destruct (Part002.createdAt st); repeat constructor. apply json_safe_str.
  - apply json_safe_obj.
    destruct (Part002.theme st) as [t |]; repeat constructor.
    apply json_safe_obj. repeat constructor; cbn; apply json_safe_str.
Qed.

Lemma part002_questDefined_id q : Part002.quest_defined q -> Part002.questDefined q = q.
Proof.
  destruct q as [i t d e c p g l n]. unfold Part002.quest_defined, Part002.questDefined.
  cbn. intros (Hc & Hp & Hg & Hl & Hn).
  by destruct c, p, g, l, n.
Qed.

Lemma part002_dropUndefined_id st : Part002.all_defined st -> Part002.dropUndefined st = st.
Proof.
  destruct st as [sel pl cr th]. unfold Part002.all_defined, Part002.dropUndefined.
  cbn. intros Hall. f_equal.
  induction Hall as [| d pl Hd _ IH]; [done |]. cbn. rewrite IH. f_equal.
  destruct d as [n qs]. cbn in *. f_equal.
  induction Hd as [| q qs Hq _ IHq]; [done |]. cbn.
  by rewrite IHq, part002_questDefined_id.
Qed.

(** What [loadState] returns right after a [saveState] that returned. *)
Lemma load_after_save_stored v w h r :
  stored_as v w -> load_after_save v h = Normal r ->
  (h = NoWindow /\ r = JNull) \/ (exists ls, h = Browser ls) /\ r = w.
Proof.
  intros (d & Hs & Hr). destruct h as [| ls].
  - cbn. intros [= <-]. by left.
  - unfold load_after_save, saveState, setItem, JSON_stringify. rewrite Hs.
    destruct (denied ls); [done |]. destruct (fits ls _); [| done].
    cbn. unfold getItem. cbn. rewrite lookup_insert_eq. cbn. rewrite Hr.
    intros [= <-]. right. split; [by eexists | done].
Qed.

Lemma saveState_returns v ls :
  denied ls = false ->
  fits ls (<[STORAGE_KEY := JSON_stringify v]> (items ls)) = true ->
  exists ls', saveState v (Browser ls) = Normal (Browser ls').
Proof.
  intros Hd Hf. unfold saveState, setItem. rewrite Hd, Hf. by eexists.
Qed.

(** C7, as amended.  In a browser, when [saveState state] returns (the
    storage grants access and has room for the value), [loadState] right
    after it returns the very value of [state] for every application state
    of page.tsx, and for every application state of part_002 it returns
    [state] without the keys that hold [undefined]: the very value when no
    quest has such a key.  Without a window nothing is stored and
    [loadState] answers [null]. *)
Theorem load_after_save_in_browser (ls : Storage) :
  (forall (st : Page.AppState) r,
     load_after_save (Page.stateToJS st) (Browser ls) = Normal r ->
     r = Page.stateToJS st)
  /\ (forall (st : Part002.AppState) r,
     load_after_save (Part002.stateToJS st) (Browser ls) = Normal r ->
     r = Part002.stateToJS (Part002.dropUndefined st)
     /\ (Part002.all_defined st -> r = Part002.stateToJS st))
  /\ (forall v,
     denied ls = false ->
     fits ls (<[STORAGE_KEY := JSON_stringify v]> (items ls)) = true ->
     exists r, load_after_save v (Browser ls) = Normal r)
  /\ (forall v, saveState v NoWindow = Normal NoWindow
                /\ load_after_save v NoWindow = Normal JNull).
Proof.
  split; [| split; [| split]].
  - intros st r Hr.
    destruct (load_after_save_stored _ _ _ _ (page_state_safe st) Hr)
      as [[? _] | [_ ?]]; done.
  - intros st r Hr.
    destruct (load_after_save_stored _ _ _ _ (part002_state_stored st) Hr)
      as [[? _] | [_ ->]]; [done |].
    split; [done |]. intros Hall. by rewrite part002_dropUndefined_id.
  - intros v Hd Hf. destruct (saveState_returns v ls Hd Hf) as (ls' & Hs).
    unfold load_after_save. rewrite Hs. cbn [cbind].
    unfold loadState, getItem.
    destruct (denied ls'); [by eexists |]. cbn.
    destruct (items ls' !! STORAGE_KEY) as [[d | t] |]; cbn; [by eexists | | by eexists].
    destruct t; cbn; by eexists.
  - done.
Qed.

Lemma load_after_save_in_browser_witness :
  load_after_save
    (Page.stateToJS (Page.buildWeekPlan_state [Exercise; Learning] demo_rnd))
    empty_browser
  = Normal (Page.stateToJS (Page.buildWeekPlan_state [Exercise; Learning] demo_rnd)).
Proof.
  destruct (load_after_save_in_browser
              {| denied := false; items := ∅; fits := fun _ => true |})
    as (Hpage & _ & Hret & _).
  destruct (Hret (Page.stateToJS (Page.buildWeekPlan_state [Exercise; Learning] demo_rnd))
              eq_refl eq_refl) as (r & Hr).
  unfold empty_browser. rewrite Hr. f_equal. by apply Hpage.
Defined.

(** C7 as stated fails in three places.  Without a window [saveState]
    returns at once, nothing is stored and [loadState] answers [null].  In
    part_002 the generated plan has quests with [progress: undefined], a
    key that JSON leaves out, so the value that comes back is not the one
    saved.  And where the storage has no room [saveState] throws, so there
    is nothing to load. *)
Lemma load_after_save_not_identity :
  load_after_save (Page.stateToJS (Page.buildWeekPlan_state [Exercise] demo_rnd)) NoWindow
  <> Normal (Page.stateToJS (Page.buildWeekPlan_state [Exercise] demo_rnd))
  /\ (exists st, Part002.state part002_session = Some st
        /\ load_after_save (Part002.stateToJS st) empty_browser
           <> Normal (Part002.stateToJS st))
  /\ load_after_save (Page.stateToJS (Page.buildWeekPlan_state [Exercise] demo_rnd))
       full_browser
     = Throw QuotaExceededError.
Proof.
  split; [discriminate | split; [| reflexivity]].
  eexists. split; [reflexivity |]. vm_compute. discriminate.
Qed.

(** In part_002 a generated quest can carry the key [progress] holding
    [undefined]; JSON leaves that key out, so what comes back differs from
    what was saved by that key. *)
Lemma part002_undefined_progress_dropped :
  let q := {| Part002.id := "i"; Part002.title := "軽いジョグ10分";
              Part002.done := false; Part002.enabled := true;
              Part002.category := Has "運動"%string; Part002.points := Has 10%Z;
              Part002.progress := Undef; Part002.locked := Has false;
              Part002.note := Missing |} in
  (Part002.buildWeekPlan [Exercise] stuck_rnd 0).1 !! 0
    ≫= (fun d => Part002.quests d !! 0) = Some q
  /\ (revive <$> stringify (Part002.questToJS q))
     = Some (Part002.questToJS
               {| Part002.id := "i"; Part002.title := "軽いジョグ10分";
                  Part002.done := false; Part002.enabled := true;
                  Part002.category := Has "運動"%string; Part002.points := Has 10%Z;
                  Part002.progress := Missing; Part002.locked := Has false;
                  Part002.note := Missing |}).
Proof. split; reflexivity. Qed.

(** ** The chat responder *)

(** Every reply of page.tsx's responder either is fixed by the input and
    the history and draws nothing, or is the default reply. *)
Lemma mockAssistant_paths (input : jsstring) (history : list ChatMsg) :
  (exists out, forall rnd k, PageChat.mockAssistant input history rnd k = (out, k))
  \/ (forall rnd k, PageChat.mockAssistant input history rnd k
                    = PageChat.fallback_reply (trim input) rnd k).
Proof.
  unfold PageChat.mockAssistant.
  repeat match goal with
         | |- context [if ?b then _ else _] => destruct b
         end;
    try (left; eexists; intros rnd k; reflexivity).
  by right.
Qed.

(** C9 holds on page.tsx and fails on part_002.  In page.tsx the first
    rule matches the input "help" and the reply is the usage message,
    whatever the history and whatever [Math.random] would return; no random
    number is drawn, and two calls with this input give the same reply.
    The stand-in responder of part_002 has no help rule: it answers "help"
    with its catch-all sentence, which is not the usage message. *)
Theorem mockAssistant_help (history history' : list ChatMsg)
    (rnd rnd' : nat -> N) (k k' : nat) :
  (starts_with (utf16 "help") (trim (utf16 "help")) = true
   /\ PageChat.mockAssistant (utf16 "help") history rnd k = (PageChat.usage_message, k)
   /\ (PageChat.mockAssistant (utf16 "help") history rnd k).1
      = (PageChat.mockAssistant (utf16 "help") history' rnd' k').1)
  /\ trim (utf16 "help") = utf16 "help"
  /\ Part002Chat.mockAssistant (utf16 "help") history
     = utf16 "承知しました。もう少し具体的に状況を教えてください。"
  /\ Part002Chat.mockAssistant (utf16 "help") history <> PageChat.usage_message.
Proof.
  assert (Hrule : starts_with (utf16 "help") (trim (utf16 "help")) = true)
    by (vm_compute; reflexivity).
  assert (Hreply : forall h r n,
             PageChat.mockAssistant (utf16 "help") h r n = (PageChat.usage_message, n)).
  { intros h r n. unfold PageChat.mockAssistant. rewrite Hrule.
    cbn [orb]. reflexivity. }
  assert (Hstub : Part002Chat.mockAssistant (utf16 "help") history
                  = utf16 "承知しました。もう少し具体的に状況を教えてください。")
    by (vm_compute; reflexivity).
  split; [| split; [vm_compute; reflexivity | split; [exact Hstub |]]].
  - split; [exact Hrule |]. split; [apply Hreply |].
    rewrite (Hreply history rnd k), (Hreply history' rnd' k').
    cbn [fst]. reflexivity.
  - rewrite Hstub. vm_compute. discriminate.
Qed.

(** ** The controller of page.tsx *)

(** C2 fails on page.tsx (and part_001): its [toggleEnabled] flips
    [enabled] and leaves [done] alone.  The user ticks the first quest of
    day 1 and then switches it off: the quest ends switched off and done.
    part_002 resets [done] at this point, see
    [part002_toggleEnabled_off_clears_done]. *)
Theorem page_toggleEnabled_keeps_done :
  let w1 := Page.world_of (Page.toggleDone 0 "0k9" page_session) in
  let w2 := Page.world_of (Page.toggleEnabled 0 "0k9" w1) in
  Page.quest_at w1 0 0
    = Some {| Page.id := "0k9"; Page.title := "軽いジョグ10分";
              Page.done := true; Page.enabled := true |}
  /\ Page.quest_at w2 0 0
    = Some {| Page.id := "0k9"; Page.title := "軽いジョグ10分";
              Page.done := true; Page.enabled := false |}
  /\ ~ Page.world_ok w2.
Proof.
  cbn zeta. split; [vm_compute; reflexivity |]. split; [vm_compute; reflexivity |].
  intros Hok. vm_compute in Hok.
  apply Forall_cons in Hok as [Hday _]. apply Forall_cons in Hday as [Hq _].
  specialize (Hq eq_refl). discriminate.
Qed.


(** In every revision a day index outside the plan makes the handler throw:
    [copy.plans[dayIdx]] is [undefined] and [day.quests] is a TypeError. *)
Lemma toggleDone_unknown_day_throws :
  Page.toggleDone 7 "0k9" page_session = Page.Threw TypeError page_session
  /\ Part002.toggleDone 7 "0k9" part002_session
     = Part002.Threw TypeError part002_session.
Proof. split; vm_compute; reflexivity. Qed.

(** ** Toggling, in general *)

Lemma list_find_insert {A} (P : A -> Prop) `{!forall x, Decision (P x)}
    (l : list A) j x y :
  list_find P l = Some (j, x) -> P y -> list_find P (<[j:=y]> l) = Some (j, y).
Proof.
  intros Hf Hy. apply list_find_Some in Hf as (Hl & Hx & Hlt).
  apply list_find_Some. split; [| split; [done |]].
  - apply list_lookup_insert_eq. by eapply lookup_lt_Some.
  - intros i z Hi Hij.
    rewrite (list_lookup_insert_ne l j i y) in Hi; [eauto | lia].
Qed.


Lemma page_persist_world copy w :
  Page.state (Page.world_of (Page.persist copy w)) = Page.state w
  /\ Page.score (Page.world_of (Page.persist copy w)) = Page.score w.
Proof. unfold Page.persist. by destruct (saveState _ _). Qed.

(** What [generate] leaves behind: the world of its [saveState] step, and
    the quest tab when that step returned. *)
Lemma page_generate_world now w rnd k :
  let base := match Page.selected w with
              | [] => [Exercise; Learning]
              | _ => Page.selected w
              end in
  let next := {| Page.selectedCategories := base;
                 Page.plans := (Page.buildWeekPlan base rnd k).1;
                 Page.createdAt := Some now; Page.theme := None |} in
  let w0 := {| Page.state := Some next; Page.selected := Page.selected w;
               Page.score := Page.score w; Page.tab := Page.tab w;
               Page.env := Page.env w |} in
  let g := (Page.generate now w rnd k).1 in
  Page.state (Page.world_of g) = Some next
  /\ Page.selected (Page.world_of g) = Page.selected w
  /\ Page.score (Page.world_of g) = Page.score w
  /\ Page.env (Page.world_of g) = Page.env (Page.world_of (Page.persist next w0))
  /\ (forall w', g = Page.Done w' ->
        exists w'', Page.persist next w0 = Page.Done w''
                    /\ Page.state w' = Page.state w'' /\ Page.env w' = Page.env w'')
  /\ (Page.generate now w rnd k).2 = (Page.buildWeekPlan base rnd k).2.
Proof.
  cbn zeta. unfold Page.generate. rewrite gbind_eq. cbn [gret fst snd].
  match goal with
  | |- context [Page.persist ?c ?x] =>
      pose proof (page_persist_world c x) as [Hst Hsc];
      assert (Hsel : Page.selected (Page.world_of (Page.persist c x)) = Page.selected x)
        by (unfold Page.persist; by destruct (saveState _ _));
      destruct (Page.persist c x) as [w1 | e w1]
  end; cbn in *.
  - repeat split; try done. intros w' [= <-]. by eexists.
  - repeat split; done.
Qed.

Lemma page_toggleDone_found w dayIdx qid st d j q :
  Page.state w = Some st ->
  Page.plans st !! dayIdx = Some d ->
  list_find (fun x => Page.id x = qid) (Page.quests d) = Some (j, q) ->
  let w' := Page.world_of (Page.toggleDone dayIdx qid w) in
  Page.state w' = Some (Page.withQuest st dayIdx d j (Page.flipDone q))
  /\ Page.score w' = (if Page.done q then Z.max 0 (Page.score w - 1)
                      else Page.score w + 1)%Z.
Proof.
  intros Hst Hd Hq. unfold Page.toggleDone. rewrite Hst, Hd, Hq. cbn zeta.
  match goal with
  | |- context [Page.persist ?c ?x] => destruct (page_persist_world c x) as [-> ->]
  end.
  cbn. by destruct (Page.done q).
Qed.

Lemma page_withQuest_back st dayIdx d j q q' :
  Page.plans st !! dayIdx = Some d ->
  Page.quests d !! j = Some q ->
  Page.withQuest (Page.withQuest st dayIdx d j q') dayIdx
    {| Page.day := Page.day d; Page.quests := <[j:=q']> (Page.quests d) |} j q
  = st.
Proof.
  intros Hd Hq. destruct st as [sel pl cr th], d as [n qs]. cbn in *.
  unfold Page.withQuest. cbn.
  rewrite !list_insert_insert_eq, (list_insert_id qs j q Hq).
  by rewrite (list_insert_id pl dayIdx _ Hd).
Qed.

Lemma part002_persist_world copy w :
  Part002.state (Part002.world_of (Part002.persist copy w)) = Part002.state w.
Proof. unfold Part002.persist. by destruct (saveState _ _). Qed.






Lemma part002_setDone_back q :
  Part002.setDone (Part002.done q) (Part002.setDone (negb (Part002.done q)) q) = q.
Proof. by destruct q. Qed.


(** The score of page.tsx starts at 0 and no handler makes it negative. *)
Lemma page_score_nonneg w dayIdx qid now rnd k :
  (0 <= Page.score w)%Z ->
  (0 <= Page.score (Page.initial (Page.env w)))%Z
  /\ (0 <= Page.score (Page.world_of (Page.toggleDone dayIdx qid w)))%Z
  /\ (0 <= Page.score (Page.world_of (Page.toggleEnabled dayIdx qid w)))%Z
  /\ (0 <= Page.score (Page.world_of (Page.handleQuestCompletion dayIdx qid w)))%Z
  /\ (0 <= Page.score (Page.world_of (Page.resetAll w)))%Z
  /\ (0 <= Page.score (Page.world_of (Page.generate now w rnd k).1))%Z.
Proof.
  intros Hs.
  assert (Htoggle : (0 <= Page.score (Page.world_of (Page.toggleDone dayIdx qid w)))%Z).
  { unfold Page.toggleDone.
    destruct (Page.state w) as [st |]; [| done].
    destruct (Page.plans st !! dayIdx) as [d |]; [| done].
    destruct (list_find _ _) as [[j q] |]; [| done]. cbn zeta.
    match goal with
    | |- context [Page.persist ?c ?x] => destruct (page_persist_world c x) as [_ ->]
    end.
    cbn. destruct (negb (Page.done q)); lia. }
  split; [done |]. split; [done |]. split; [| split; [| split]].
  - unfold Page.toggleEnabled.
    destruct (Page.state w) as [st |]; [| done].
    destruct (Page.plans st !! dayIdx) as [d |]; [| done].
    destruct (list_find _ _) as [[j q] |]; [| done]. cbn zeta.
    match goal with
    | |- context [Page.persist ?c ?x] => destruct (page_persist_world c x) as [_ ->]
    end.
    done.
  - unfold Page.handleQuestCompletion.
    destruct (Page.toggleDone dayIdx qid w); cbn in *; lia.
  - unfold Page.resetAll. destruct (Page.env w) as [| ls]; [done |].
    by destruct (removeItem _ _).
  - by destruct (page_generate_world now w rnd k) as (_ & _ & -> & _).
Qed.



(** ** The controller of part_002 keeps what page.tsx breaks *)

(** [toggleDone] of part_002 leaves everything as it is when the quest is
    not found in the day or is switched off, and when there is no state. *)
Lemma part002_toggleDone_guard w dayIdx qid :
  (Part002.state w = None
   \/ exists st d, Part002.state w = Some st
        /\ Part002.plans st !! dayIdx = Some d
        /\ (list_find (fun x => Part002.id x = qid) (Part002.quests d) = None
            \/ exists j q,
                 list_find (fun x => Part002.id x = qid) (Part002.quests d) = Some (j, q)
                 /\ Part002.enabled q = false)) ->
  Part002.toggleDone dayIdx qid w = Part002.Done w.
Proof.
  unfold Part002.toggleDone.
  intros [-> | (st & d & -> & -> & [-> | (j & q & -> & ->)])]; reflexivity.
Qed.

Lemma part002_withQuest_ok st dayIdx d j q :
  Forall (fun d => Forall Part002.quest_ok (Part002.quests d)) (Part002.plans st) ->
  Part002.plans st !! dayIdx = Some d ->
  Part002.quest_ok q ->
  Forall (fun d => Forall Part002.quest_ok (Part002.quests d))
         (Part002.plans (Part002.withQuest st dayIdx d j q)).
Proof.
  intros Hall Hd Hq. cbn. apply Forall_insert; [done |]. cbn.
  apply Forall_insert; [| done]. by eapply (Forall_lookup_1 _ _ _ _ Hall).
Qed.

Lemma part002_toggleDone_ok w dayIdx qid :
  Part002.world_ok w ->
  Part002.world_ok (Part002.world_of (Part002.toggleDone dayIdx qid w)).
Proof.
  intros Hok. unfold Part002.toggleDone.
  destruct (Part002.state w) as [st |] eqn:Hst; [| done].
  destruct (Part002.plans st !! dayIdx) as [d |] eqn:Hd; [| done].
  destruct (list_find _ _) as [[j q] |]; [| done].
  destruct (Part002.enabled q) eqn:Hen; [| done]. cbn [negb].
  unfold Part002.world_ok in *. rewrite part002_persist_world. cbn.
  rewrite Hst in Hok. apply (part002_withQuest_ok st dayIdx d j _ Hok Hd).
  unfold Part002.quest_ok. cbn. congruence.
Qed.

Lemma part002_toggleEnabled_ok w dayIdx qid :
  Part002.world_ok w ->
  Part002.world_ok (Part002.world_of (Part002.toggleEnabled dayIdx qid w)).
Proof.
  intros Hok. unfold Part002.toggleEnabled.
  destruct (Part002.state w) as [st |] eqn:Hst; [| done].
  destruct (Part002.plans st !! dayIdx) as [d |] eqn:Hd; [| done].
  destruct (list_find _ _) as [[j q] |]; [| done]. cbn zeta.
  unfold Part002.world_ok in *. rewrite part002_persist_world. cbn [Part002.state].
  rewrite Hst in Hok. apply (part002_withQuest_ok st dayIdx d j _ Hok Hd).
  unfold Part002.quest_ok. by destruct (Part002.enabled q).
Qed.

Lemma part002_resetAll_ok w :
  Part002.world_ok (Part002.world_of (Part002.resetAll w)).
Proof.
  unfold Part002.resetAll. destruct (Part002.env w) as [| ls]; [done |].
  by destruct (removeItem _ _).
Qed.

Lemma part002_generate_ok now w rnd k :
  Part002.world_ok (Part002.world_of (Part002.generate now w rnd k).1).
Proof.
  unfold Part002.generate. rewrite gbind_eq. cbn [gret fst].
  unfold Part002.world_ok. rewrite part002_persist_world. cbn.
  destruct (part002_buildWeekPlan_spec
              match Part002.selected w with
              | [] => [Exercise; Learning]
              | _ :: _ => Part002.selected w
              end rnd k) as (_ & F & _).
  eapply Forall_impl; [exact F |]. intros d Hd.
  eapply Forall_impl; [exact Hd |]. intros q [Hdone _] _. exact Hdone.
Qed.

(** Switching a quest off in part_002 leaves it not done, whatever it was. *)
Lemma part002_toggleEnabled_off_clears_done w dayIdx qid st d j q :
  Part002.state w = Some st ->
  Part002.plans st !! dayIdx = Some d ->
  list_find (fun x => Part002.id x = qid) (Part002.quests d) = Some (j, q) ->
  Part002.enabled q = true ->
  Part002.quest_at (Part002.world_of (Part002.toggleEnabled dayIdx qid w)) dayIdx j
  = Some (Part002.setDone false (Part002.setEnabled false q)).
Proof.
  intros Hst Hd Hq Hen. unfold Part002.toggleEnabled. rewrite Hst, Hd, Hq, Hen.
  cbn zeta. unfold Part002.quest_at. rewrite part002_persist_world.
  cbn [Part002.state mbind option_bind Part002.withQuest Part002.plans].
  pose proof Hq as (Hl & _)%list_find_Some.
  rewrite list_lookup_insert_eq by (by eapply lookup_lt_Some).
  cbn [mbind option_bind Part002.quests].
  by rewrite list_lookup_insert_eq by (by eapply lookup_lt_Some).
Qed.

(** Ticking the first quest of day 1 and then switching it off, in
    part_002: the quest ends switched off and not done. *)
Lemma part002_session_off_not_done :
  let w1 := Part002.world_of (Part002.toggleDone 0 "0k9" part002_session) in
  let w2 := Part002.world_of (Part002.toggleEnabled 0 "0k9" w1) in
  Part002.done <$> Part002.quest_at w1 0 0 = Some true
  /\ Part002.enabled <$> Part002.quest_at w2 0 0 = Some false
  /\ Part002.done <$> Part002.quest_at w2 0 0 = Some false.
Proof. cbn zeta. repeat split; vm_compute; reflexivity. Qed.

(** [handleQuestCompletion] of page.tsx, which no view calls, is not a
    toggle of the score: every call that returns adds 10. *)
Lemma page_handleQuestCompletion_adds_10 :
  let w1 := Page.world_of (Page.handleQuestCompletion 0 "0k9" page_session) in
  let w2 := Page.world_of (Page.handleQuestCompletion 0 "0k9" w1) in
  Page.score page_session = 0%Z /\ Page.score w1 = 10%Z /\ Page.score w2 = 20%Z.
Proof. cbn zeta. repeat split; vm_compute; reflexivity. Qed.

(** * More properties of the code *)

(** ** Reset, and what the handlers do to storage *)

Lemma loadState_after_removeItem ls ls' :
  removeItem STORAGE_KEY ls = Normal ls' -> loadState (Browser ls') = Normal JNull.
Proof.
  unfold removeItem. destruct (denied ls) eqn:Hd; [done |]. intros [= <-].
  unfold loadState, getItem. cbn. by rewrite lookup_delete_eq.
Qed.

Lemma loadState_denied ls : denied ls = true -> loadState (Browser ls) = Normal JNull.
Proof. intros Hd. unfold loadState, getItem. by rewrite Hd. Qed.

(** X1.  [resetAll] always leaves no state, no selection and nothing that
    [loadState] could return, also when [removeItem] throws; page.tsx
    keeps the score. *)
Theorem resetAll_clears (w : Page.World) (w2 : Part002.World) :
  (Page.state (Page.world_of (Page.resetAll w)) = None
   /\ Page.selected (Page.world_of (Page.resetAll w)) = []
   /\ Page.score (Page.world_of (Page.resetAll w)) = Page.score w
   /\ PageView.hasPlan (Page.world_of (Page.resetAll w)) = false
   /\ loadState (Page.env (Page.world_of (Page.resetAll w))) = Normal JNull)
  /\
  (Part002.state (Part002.world_of (Part002.resetAll w2)) = None
   /\ Part002.selected (Part002.world_of (Part002.resetAll w2)) = []
   /\ loadState (Part002.env (Part002.world_of (Part002.resetAll w2))) = Normal JNull).
Proof.
  split.
  - unfold Page.resetAll. destruct (Page.env w) as [| ls] eqn:He; [by rewrite ?He |].
    destruct (removeItem STORAGE_KEY ls) as [ls' | e] eqn:Hr; cbn.
    + repeat split. by eapply loadState_after_removeItem.
    + repeat split. rewrite ?He. apply loadState_denied.
      unfold removeItem in Hr. by destruct (denied ls).
  - unfold Part002.resetAll. destruct (Part002.env w2) as [| ls] eqn:He; [by rewrite ?He |].
    destruct (removeItem STORAGE_KEY ls) as [ls' | e] eqn:Hr; cbn.
    + repeat split. by eapply loadState_after_removeItem.
    + repeat split. rewrite ?He. apply loadState_denied.
      unfold removeItem in Hr. by destruct (denied ls).
Qed.

Lemma saveState_frame v h h' key :
  key <> STORAGE_KEY -> saveState v h = Normal h' -> host_item h' key = host_item h key.
Proof.
  intros Hk. destruct h as [| ls]; cbn; [by intros [= <-] |].
  unfold setItem. destruct (denied ls); [done |]. destruct (fits ls _); [| done].
  cbn. intros [= <-]. cbn. by rewrite lookup_insert_ne.
Qed.

Lemma page_persist_frame copy w key :
  key <> STORAGE_KEY ->
  host_item (Page.env (Page.world_of (Page.persist copy w))) key
  = host_item (Page.env w) key.
Proof.
  intros Hk. unfold Page.persist.
  destruct (saveState _ _) as [h |] eqn:Hs; [| done]. cbn.
  by eapply saveState_frame.
Qed.

(** X2.  The handlers of page.tsx write under the key "growth-planner-v1"
    only: whatever else the storage holds stays as it is. *)
Theorem page_handlers_leave_other_keys (w : Page.World) (key : string) :
  key <> STORAGE_KEY ->
  (forall dayIdx qid,
     host_item (Page.env (Page.world_of (Page.toggleDone dayIdx qid w))) key
     = host_item (Page.env w) key)
  /\ (forall dayIdx qid,
     host_item (Page.env (Page.world_of (Page.toggleEnabled dayIdx qid w))) key
     = host_item (Page.env w) key)
  /\ (forall theme,
     host_item (Page.env (Page.world_of (PageView.onThemeChange theme w))) key
     = host_item (Page.env w) key)
  /\ (forall now rnd k,
     host_item (Page.env (Page.world_of (Page.generate now w rnd k).1)) key
     = host_item (Page.env w) key)
  /\ host_item (Page.env (Page.world_of (Page.resetAll w))) key
     = host_item (Page.env w) key.
Proof.
  intros Hk. split; [| split; [| split; [| split]]].
  - intros dayIdx qid. unfold Page.toggleDone.
    destruct (Page.state w) as [st |]; [| done].
    destruct (Page.plans st !! dayIdx) as [d |]; [| done].
    destruct (list_find _ _) as [[j q] |]; [| done]. cbn zeta.
    by rewrite page_persist_frame.
  - intros dayIdx qid. unfold Page.toggleEnabled.
    destruct (Page.state w) as [st |]; [| done].
    destruct (Page.plans st !! dayIdx) as [d |]; [| done].
    destruct (list_find _ _) as [[j q] |]; [| done]. cbn zeta.
    by rewrite page_persist_frame.
  - intros theme. unfold PageView.onThemeChange.
    destruct (Page.state w) as [st |]; [| done]. cbn zeta.
    by rewrite page_persist_frame.
  - intros now rnd k.
    destruct (page_generate_world now w rnd k) as (_ & _ & _ & -> & _).
    by rewrite page_persist_frame.
  - unfold Page.resetAll. destruct (Page.env w) as [| ls] eqn:He; [by rewrite ?He |].
    unfold removeItem. destruct (denied ls); cbn; [by rewrite ?He |].
    by rewrite lookup_delete_ne.
Qed.

Lemma page_handlers_leave_other_keys_witness :
  host_item (Page.env (Page.world_of (Page.toggleDone 0 "0k9" page_session))) "other"
  = host_item (Page.env page_session) "other".
Proof.
  apply (page_handlers_leave_other_keys page_session "other"). discriminate.
Defined.

Lemma saveState_then_load v ls h' :
  json_safe v -> saveState v (Browser ls) = Normal h' -> loadState h' = Normal v.
Proof.
  intros (d & Hs & Hr). cbn. unfold setItem, JSON_stringify.
  destruct (denied ls); [done |]. destruct (fits ls _); [| done].
  rewrite Hs. cbn. intros [= <-].
  unfold loadState, getItem. cbn. rewrite lookup_insert_eq. cbn. by rewrite Hr.
Qed.

Lemma page_persist_synced copy w0 w' ls :
  Page.env w0 = Browser ls ->
  Page.state w0 = Some copy ->
  Page.persist copy w0 = Page.Done w' ->
  PageView.synced w'.
Proof.
  intros He Hst. unfold Page.persist. rewrite He.
  destruct (saveState _ _) as [h |] eqn:Hs; [| done]. intros [= <-].
  unfold PageView.synced. cbn. rewrite Hst.
  eapply saveState_then_load; [apply page_state_safe | exact Hs].
Qed.

(** X3.  In a browser, a handler of page.tsx that returns leaves storage and
    hooks in agreement: [loadState] would give back the state the component
    now holds. *)
Theorem page_handlers_keep_synced (w : Page.World) (ls : Storage) :
  Page.env w = Browser ls ->
  PageView.synced w ->
  (forall dayIdx qid w', Page.toggleDone dayIdx qid w = Page.Done w' -> PageView.synced w')
  /\ (forall dayIdx qid w', Page.toggleEnabled dayIdx qid w = Page.Done w' -> PageView.synced w')
  /\ (forall theme w', PageView.onThemeChange theme w = Page.Done w' -> PageView.synced w')
  /\ (forall now rnd k w', (Page.generate now w rnd k).1 = Page.Done w' -> PageView.synced w')
  /\ (forall w', Page.resetAll w = Page.Done w' -> PageView.synced w').
Proof.
  intros He Hsync. split; [| split; [| split; [| split]]].
  - intros dayIdx qid w'. unfold Page.toggleDone.
    destruct (Page.state w) as [st |]; [| by intros [= <-]].
    destruct (Page.plans st !! dayIdx) as [d |]; [| done].
    destruct (list_find _ _) as [[j q] |]; [| by intros [= <-]]. cbn zeta.
    by apply (page_persist_synced _ _ _ ls).
  - intros dayIdx qid w'. unfold Page.toggleEnabled.
    destruct (Page.state w) as [st |]; [| by intros [= <-]].
    destruct (Page.plans st !! dayIdx) as [d |]; [| done].
    destruct (list_find _ _) as [[j q] |]; [| by intros [= <-]]. cbn zeta.
    by apply (page_persist_synced _ _ _ ls).
  - intros theme w'. unfold PageView.onThemeChange.
    destruct (Page.state w) as [st |]; [| by intros [= <-]]. cbn zeta.
    by apply (page_persist_synced _ _ _ ls).
  - intros now rnd k w' Hg.
    destruct (page_generate_world now w rnd k) as (_ & _ & _ & _ & Hd & _).
    destruct (Hd w' Hg) as (w'' & Hp & Hst & Hen).
    assert (Hs'' : PageView.synced w'').
    { eapply (page_persist_synced _ _ w'' ls); [| | exact Hp]; [exact He | reflexivity]. }
    unfold PageView.synced in *. by rewrite Hst, Hen.
  - intros w'. unfold Page.resetAll. rewrite He.
    destruct (removeItem STORAGE_KEY ls) as [ls' |] eqn:Hr; [| done]. intros [= <-].
    unfold PageView.synced. cbn. by eapply loadState_after_removeItem.
Qed.

Lemma page_handlers_keep_synced_witness :
  PageView.synced page_session
  /\ PageView.synced (Page.world_of (Page.toggleDone 0 "0k9" page_session)).
Proof.
  assert (Hs : PageView.synced page_session) by (vm_compute; reflexivity).
  split; [exact Hs |].
  edestruct (page_handlers_keep_synced page_session) as (Ht & _);
    [lazy; reflexivity | exact Hs |].
  apply (Ht 0 "0k9"%string). vm_compute. reflexivity.
Defined.

(** X4.  A day index outside the plan is no silent no-op: in page.tsx and in
    part_002 both toggles throw a TypeError (from [day.quests] on
    [undefined]) before anything is changed or stored. *)
Theorem toggles_throw_on_unknown_day :
  (forall w st dayIdx qid,
     Page.state w = Some st -> length (Page.plans st) <= dayIdx ->
     Page.toggleDone dayIdx qid w = Page.Threw TypeError w
     /\ Page.toggleEnabled dayIdx qid w = Page.Threw TypeError w)
  /\
  (forall w st dayIdx qid,
     Part002.state w = Some st -> length (Part002.plans st) <= dayIdx ->
     Part002.toggleDone dayIdx qid w = Part002.Threw TypeError w
     /\ Part002.toggleEnabled dayIdx qid w = Part002.Threw TypeError w).
Proof.
  split; intros w st dayIdx qid Hst Hlen.
  - unfold Page.toggleDone, Page.toggleEnabled.
    by rewrite Hst, (lookup_ge_None_2 _ _ Hlen).
  - unfold Part002.toggleDone, Part002.toggleEnabled.
    by rewrite Hst, (lookup_ge_None_2 _ _ Hlen).
Qed.

Lemma toggles_throw_on_unknown_day_witness :
  Page.toggleEnabled 7 "0k9" page_session = Page.Threw TypeError page_session
  /\ Part002.toggleEnabled 9 "0k9" part002_session
     = Part002.Threw TypeError part002_session.
Proof.
  destruct toggles_throw_on_unknown_day as [Hp H2]. split.
  - eapply Hp; [vm_compute; reflexivity | vm_compute; lia].
  - eapply H2; [vm_compute; reflexivity | vm_compute; lia].
Defined.

(** ** What a toggle changes, and what it leaves *)

Lemma page_toggleEnabled_found w dayIdx qid st d j q :
  Page.state w = Some st ->
  Page.plans st !! dayIdx = Some d ->
  list_find (fun x => Page.id x = qid) (Page.quests d) = Some (j, q) ->
  let w' := Page.world_of (Page.toggleEnabled dayIdx qid w) in
  Page.state w' = Some (Page.withQuest st dayIdx d j (Page.flipEnabled q))
  /\ Page.score w' = Page.score w.
Proof.
  intros Hst Hd Hq. unfold Page.toggleEnabled. rewrite Hst, Hd, Hq. cbn zeta.
  match goal with
  | |- context [Page.persist ?c ?x] => destruct (page_persist_world c x) as [-> ->]
  end.
  done.
Qed.

Lemma page_withQuest_lookup w w' st dayIdx d j q q' :
  Page.state w = Some st ->
  Page.plans st !! dayIdx = Some d ->
  Page.quests d !! j = Some q ->
  Page.state w' = Some (Page.withQuest st dayIdx d j q') ->
  Page.quest_at w' dayIdx j = Some q'
  /\ (forall d' j', d' <> dayIdx \/ j' <> j ->
        Page.quest_at w' d' j' = Page.quest_at w d' j')
  /\ map (fun x => (Page.day x, length (Page.quests x)))
         (Page.plans (Page.withQuest st dayIdx d j q'))
     = map (fun x => (Page.day x, length (Page.quests x))) (Page.plans st).
Proof.
  intros Hst Hd Hq Hst'. unfold Page.quest_at. rewrite Hst, Hst'.
  cbn [mbind option_bind Page.withQuest Page.plans].
  pose proof (lookup_lt_Some _ _ _ Hd) as Hlt.
  pose proof (lookup_lt_Some _ _ _ Hq) as Hlt'.
  split; [| split].
  - rewrite list_lookup_insert_eq by done. cbn.
    by rewrite list_lookup_insert_eq.
  - intros d' j' Hne. destruct (decide (d' = dayIdx)) as [-> | Hd'].
    + rewrite list_lookup_insert_eq by done. rewrite Hd. cbn.
      rewrite list_lookup_insert_ne; [done |]. destruct Hne; congruence.
    + by rewrite list_lookup_insert_ne.
  - apply list_eq. intros i. rewrite !list_lookup_fmap.
    destruct (decide (i = dayIdx)) as [-> | Hi].
    + rewrite list_lookup_insert_eq by done. rewrite Hd. cbn.
      by rewrite length_insert.
    + by rewrite list_lookup_insert_ne.
Qed.

(** X5.  A toggle of page.tsx that finds its quest changes one flag of that
    quest and nothing else in the plan: every other quest, every day
    number and every quest count stay as they were; [toggleEnabled] leaves
    the score alone. *)
Theorem page_toggles_touch_one_quest (w : Page.World) dayIdx qid st d j q :
  Page.state w = Some st ->
  Page.plans st !! dayIdx = Some d ->
  list_find (fun x => Page.id x = qid) (Page.quests d) = Some (j, q) ->
  let w1 := Page.world_of (Page.toggleDone dayIdx qid w) in
  let w2 := Page.world_of (Page.toggleEnabled dayIdx qid w) in
  Page.quest_at w1 dayIdx j
    = Some {| Page.id := qid; Page.title := Page.title q;
              Page.done := negb (Page.done q); Page.enabled := Page.enabled q |}
  /\ Page.quest_at w2 dayIdx j
    = Some {| Page.id := qid; Page.title := Page.title q;
              Page.done := Page.done q; Page.enabled := negb (Page.enabled q) |}
  /\ Page.score w2 = Page.score w
  /\ (forall d' j', d' <> dayIdx \/ j' <> j ->
        Page.quest_at w1 d' j' = Page.quest_at w d' j'
        /\ Page.quest_at w2 d' j' = Page.quest_at w d' j')
  /\ (forall w', w' = w1 \/ w' = w2 ->
        exists st', Page.state w' = Some st'
          /\ map (fun x => (Page.day x, length (Page.quests x))) (Page.plans st')
             = map (fun x => (Page.day x, length (Page.quests x))) (Page.plans st)).
Proof.
  intros Hst Hd Hq w1 w2.
  pose proof Hq as (Hl & Hid & _)%list_find_Some.
  destruct (page_toggleDone_found w dayIdx qid st d j q Hst Hd Hq) as [S1 _].
  destruct (page_toggleEnabled_found w dayIdx qid st d j q Hst Hd Hq) as [S2 Sc2].
  fold w1 in S1. fold w2 in S2, Sc2.
  destruct (page_withQuest_lookup w w1 st dayIdx d j q _ Hst Hd Hl S1) as (A1 & B1 & C1).
  destruct (page_withQuest_lookup w w2 st dayIdx d j q _ Hst Hd Hl S2) as (A2 & B2 & C2).
  split; [| split; [| split; [done | split]]].
  - rewrite A1. unfold Page.flipDone. by rewrite Hid.
  - rewrite A2. unfold Page.flipEnabled. by rewrite Hid.
  - intros d' j' Hne. split; [by apply B1 | by apply B2].
  - intros w' [-> | ->]; eexists; split; try eassumption.
Qed.

Lemma page_toggles_touch_one_quest_witness :
  Page.quest_at (Page.world_of (Page.toggleDone 0 "0k9" page_session)) 3 1
  = Page.quest_at page_session 3 1.
Proof.
  edestruct (page_toggles_touch_one_quest page_session 0 "0k9"%string)
    as (_ & _ & _ & H & _);
    [lazy; reflexivity | lazy; reflexivity | lazy; reflexivity |].
  apply (H 3 1). left. lia.
Defined.

Lemma page_flipEnabled_twice q : Page.flipEnabled (Page.flipEnabled q) = q.
Proof. destruct q. unfold Page.flipEnabled. cbn. by rewrite negb_involutive. Qed.

Lemma part002_toggleEnabled_found w dayIdx qid st d j q :
  Part002.state w = Some st ->
  Part002.plans st !! dayIdx = Some d ->
  list_find (fun x => Part002.id x = qid) (Part002.quests d) = Some (j, q) ->
  Part002.state (Part002.world_of (Part002.toggleEnabled dayIdx qid w))
  = Some (Part002.withQuest st dayIdx d j
            (if Part002.enabled q
             then Part002.setDone false (Part002.setEnabled false q)
             else Part002.setEnabled true q)).
Proof.
  intros Hst Hd Hq. unfold Part002.toggleEnabled. rewrite Hst, Hd, Hq. cbn zeta.
  rewrite part002_persist_world. cbn [Part002.state].
  by destruct (Part002.enabled q).
Qed.

Lemma part002_withQuest_again st dayIdx d j q' q'' :
  Part002.withQuest (Part002.withQuest st dayIdx d j q') dayIdx
    {| Part002.day := Part002.day d;
       Part002.quests := <[j:=q']> (Part002.quests d) |} j q''
  = Part002.withQuest st dayIdx d j q''.
Proof.
  unfold Part002.withQuest. cbn. by rewrite !list_insert_insert_eq.
Qed.

(** X6.  Switching a quest off and on again (or on and off again): in
    page.tsx the plan is exactly the one before; in part_002 the quest comes
    back with its done mark cleared, so the plan is the one before only if
    the quest was not done. *)
Theorem toggleEnabled_twice :
  (forall w dayIdx qid st d j q,
     Page.state w = Some st ->
     Page.plans st !! dayIdx = Some d ->
     list_find (fun x => Page.id x = qid) (Page.quests d) = Some (j, q) ->
     Page.state (Page.world_of (Page.toggleEnabled dayIdx qid
                  (Page.world_of (Page.toggleEnabled dayIdx qid w))))
     = Some st)
  /\
  (forall w dayIdx qid st d j q,
     Part002.state w = Some st ->
     Part002.plans st !! dayIdx = Some d ->
     list_find (fun x => Part002.id x = qid) (Part002.quests d) = Some (j, q) ->
     Part002.state (Part002.world_of (Part002.toggleEnabled dayIdx qid
                     (Part002.world_of (Part002.toggleEnabled dayIdx qid w))))
     = Some (Part002.withQuest st dayIdx d j (Part002.setDone false q))
     /\ (Part002.done q = false ->
         Part002.withQuest st dayIdx d j (Part002.setDone false q) = st)).
Proof.
  split; intros w dayIdx qid st d j q Hst Hd Hq.
  - pose proof Hq as (Hl & Hid & _)%list_find_Some.
    destruct (page_toggleEnabled_found w dayIdx qid st d j q Hst Hd Hq) as [S1 _].
    set (w1 := Page.world_of (Page.toggleEnabled dayIdx qid w)) in *.
    set (q1 := Page.flipEnabled q) in *.
    set (d1 := {| Page.day := Page.day d; Page.quests := <[j:=q1]> (Page.quests d) |}).
    assert (Hd1 : Page.plans (Page.withQuest st dayIdx d j q1) !! dayIdx = Some d1).
    { cbn. apply list_lookup_insert_eq. by eapply lookup_lt_Some. }
    assert (Hq1 : list_find (fun x => Page.id x = qid) (Page.quests d1) = Some (j, q1)).
    { cbn [d1 Page.quests]. by apply (list_find_insert _ _ j q q1 Hq). }
    destruct (page_toggleEnabled_found w1 dayIdx qid _ d1 j q1 S1 Hd1 Hq1) as [S2 _].
    rewrite S2. unfold q1. rewrite page_flipEnabled_twice. f_equal.
    by apply page_withQuest_back.
  - pose proof Hq as (Hl & Hid & _)%list_find_Some.
    pose proof (part002_toggleEnabled_found w dayIdx qid st d j q Hst Hd Hq) as S1.
    set (w1 := Part002.world_of (Part002.toggleEnabled dayIdx qid w)) in *.
    set (q1 := if Part002.enabled q
               then Part002.setDone false (Part002.setEnabled false q)
               else Part002.setEnabled true q) in *.
    set (d1 := {| Part002.day := Part002.day d;
                  Part002.quests := <[j:=q1]> (Part002.quests d) |}).
    assert (Hd1 : Part002.plans (Part002.withQuest st dayIdx d j q1) !! dayIdx = Some d1).
    { cbn. apply list_lookup_insert_eq. by eapply lookup_lt_Some. }
    assert (Hq1 : list_find (fun x => Part002.id x = qid) (Part002.quests d1)
                  = Some (j, q1)).
    { cbn [d1 Part002.quests]. apply (list_find_insert _ _ j q q1 Hq).
      unfold q1. by destruct (Part002.enabled q). }
    pose proof (part002_toggleEnabled_found w1 dayIdx qid _ d1 j q1 S1 Hd1 Hq1) as S2.
    split.
    + rewrite S2, part002_withQuest_again. do 2 f_equal.
      unfold q1. destruct q as [i t dn [] c pt pg lk nt]; reflexivity.
    + intros Hdone. destruct st as [sel pl cr th], d as [n qs]. cbn in *.
      unfold Part002.withQuest. cbn. f_equal.
      rewrite (list_insert_id qs j); [by rewrite list_insert_id |].
      rewrite Hl. f_equal. destruct q. cbn in *. by subst.
Qed.

Lemma toggleEnabled_twice_witness :
  Page.state (Page.world_of (Page.toggleEnabled 0 "0k9"
               (Page.world_of (Page.toggleEnabled 0 "0k9" page_session))))
  = Page.state page_session
  /\ Part002.state (Part002.world_of (Part002.toggleEnabled 0 "0k9"
                      (Part002.world_of (Part002.toggleEnabled 0 "0k9" part002_session))))
     = Part002.state part002_session.
Proof.
  destruct toggleEnabled_twice as [Hp H2]. split.
  - erewrite (Hp page_session 0 "0k9"%string);
      [| lazy; reflexivity | lazy; reflexivity | lazy; reflexivity].
    vm_compute. reflexivity.
  - edestruct (H2 part002_session 0 "0k9"%string) as [E Hback];
      [lazy; reflexivity | lazy; reflexivity | lazy; reflexivity |].
    rewrite E, Hback; [vm_compute; reflexivity | reflexivity].
Defined.

(** ** The score of page.tsx and the done marks *)

Lemma filter_insert_count {A} (P : A -> Prop) `{!forall x, Decision (P x)}
    (l : list A) j x y :
  l !! j = Some x ->
  length (filter P (<[j:=y]> l)) + (if decide (P x) then 1 else 0)
  = length (filter P l) + (if decide (P y) then 1 else 0).
Proof.
  intros Hl.
  rewrite insert_take_drop by (by eapply lookup_lt_Some).
  rewrite <- (take_drop_middle l j x Hl) at 3.
  rewrite !filter_app, !length_app, !filter_cons.
  destruct (decide (P x)), (decide (P y)); cbn; lia.
Qed.

Lemma page_done_count st dayIdx d j q q' :
  Page.plans st !! dayIdx = Some d ->
  Page.quests d !! j = Some q ->
  length (filter (fun x => Page.done x = true)
            (flat_map Page.quests (Page.plans (Page.withQuest st dayIdx d j q'))))
  + (if Page.done q then 1 else 0)
  = length (filter (fun x => Page.done x = true) (flat_map Page.quests (Page.plans st)))
    + (if Page.done q' then 1 else 0).
Proof.
  intros Hd Hq. cbn [Page.withQuest Page.plans].
  rewrite insert_take_drop by (by eapply lookup_lt_Some).
  rewrite <- (take_drop_middle (Page.plans st) dayIdx d Hd) at 3.
  rewrite !flat_map_app. cbn [flat_map Page.quests].
  rewrite !filter_app, !length_app.
  pose proof (filter_insert_count (fun x => Page.done x = true) _ j q q' Hq) as Hc.
  cbn beta in Hc.
  destruct (Page.done q), (Page.done q'); repeat case_decide; try done; lia.
Qed.

Lemma page_fresh_none_done days :
  Forall (fun d => Forall fresh_page (Page.quests d)) days ->
  filter (fun x => Page.done x = true) (flat_map Page.quests days) = [].
Proof.
  induction 1 as [| d days Hd _ IH]; [done |].
  cbn. rewrite filter_app, IH, app_nil_r.
  induction Hd as [| q qs [Hq _] _ IHq]; [done |].
  rewrite filter_cons_False by congruence. exact IHq.
Qed.

(** X7.  The handlers of page.tsx keep the score at or above the number of
    quests that are marked done, when it was so before: ticking adds 1 to
    both, unticking takes 1 from both (the score stopping at 0), and
    switching quests on or off, changing the theme, creating a plan and
    resetting change neither in the wrong direction.  After a new plan and
    after a reset the score is kept while all marks are gone. *)
Theorem page_score_covers_done (w : Page.World) :
  (PageView.doneQuests w <= Page.score w)%Z ->
  (forall dayIdx qid,
     (PageView.doneQuests (Page.world_of (Page.toggleDone dayIdx qid w))
      <= Page.score (Page.world_of (Page.toggleDone dayIdx qid w)))%Z)
  /\ (forall dayIdx qid,
     (PageView.doneQuests (Page.world_of (Page.toggleEnabled dayIdx qid w))
      <= Page.score (Page.world_of (Page.toggleEnabled dayIdx qid w)))%Z)
  /\ (forall theme,
     (PageView.doneQuests (Page.world_of (PageView.onThemeChange theme w))
      <= Page.score (Page.world_of (PageView.onThemeChange theme w)))%Z)
  /\ (forall now rnd k,
     PageView.doneQuests (Page.world_of (Page.generate now w rnd k).1) = 0%Z
     /\ Page.score (Page.world_of (Page.generate now w rnd k).1) = Page.score w)
  /\ (PageView.doneQuests (Page.world_of (Page.resetAll w)) = 0%Z
      /\ Page.score (Page.world_of (Page.resetAll w)) = Page.score w).
Proof.
  intros Hinv.
  assert (Hpos : (0 <= Page.score w)%Z).
  { unfold PageView.doneQuests in Hinv. destruct (Page.state w); lia. }
  split; [| split; [| split; [| split]]].
  - intros dayIdx qid. unfold Page.toggleDone.
    destruct (Page.state w) as [st |] eqn:Hst;
      [| cbn; unfold PageView.doneQuests in *; by rewrite Hst in *].
    destruct (Page.plans st !! dayIdx) as [d |] eqn:Hd;
      [| cbn; unfold PageView.doneQuests in *; by rewrite Hst in *].
    destruct (list_find _ _) as [[j q] |] eqn:Hq;
      [| cbn; unfold PageView.doneQuests in *; by rewrite Hst in *].
    cbn zeta. pose proof Hq as (Hl & _)%list_find_Some.
    unfold PageView.doneQuests in *. rewrite Hst in Hinv.
    match goal with
    | |- context [Page.persist ?c ?x] => destruct (page_persist_world c x) as [-> ->]
    end.
    cbn [Page.state Page.score].
    pose proof (page_done_count st dayIdx d j q (Page.flipDone q) Hd Hl) as Hc.
    cbn [Page.flipDone Page.done] in *. unfold Page.addScore. cbn [Page.newScore].
    destruct (Page.done q); cbn [negb] in *; lia.
  - intros dayIdx qid. unfold Page.toggleEnabled.
    destruct (Page.state w) as [st |] eqn:Hst;
      [| cbn; unfold PageView.doneQuests in *; by rewrite Hst in *].
    destruct (Page.plans st !! dayIdx) as [d |] eqn:Hd;
      [| cbn; unfold PageView.doneQuests in *; by rewrite Hst in *].
    destruct (list_find _ _) as [[j q] |] eqn:Hq;
      [| cbn; unfold PageView.doneQuests in *; by rewrite Hst in *].
    cbn zeta. pose proof Hq as (Hl & _)%list_find_Some.
    unfold PageView.doneQuests in *. rewrite Hst in Hinv.
    match goal with
    | |- context [Page.persist ?c ?x] => destruct (page_persist_world c x) as [-> ->]
    end.
    cbn [Page.state Page.score].
    pose proof (page_done_count st dayIdx d j q (Page.flipEnabled q) Hd Hl) as Hc.
    cbn [Page.flipEnabled Page.done] in *.
    destruct (Page.done q); lia.
  - intros theme. unfold PageView.onThemeChange.
    destruct (Page.state w) as [st |] eqn:Hst;
      [| cbn; unfold PageView.doneQuests in *; by rewrite Hst in *].
    cbn zeta. unfold PageView.doneQuests in *. rewrite Hst in Hinv.
    match goal with
    | |- context [Page.persist ?c ?x] => destruct (page_persist_world c x) as [-> ->]
    end.
    done.
  - intros now rnd k. unfold PageView.doneQuests.
    destruct (page_generate_world now w rnd k) as (-> & _ & -> & _).
    cbn [Page.state Page.score Page.plans]. split; [| done].
    match goal with
    | |- context [Page.buildWeekPlan ?sel rnd k] =>
        destruct (page_buildWeekPlan_spec sel rnd k) as (_ & F & _)
    end.
    by rewrite (page_fresh_none_done _ F).
  - unfold Page.resetAll, PageView.doneQuests.
    destruct (Page.env w) as [| ls]; [done |]. by destruct (removeItem _ _).
Qed.

Lemma page_score_covers_done_witness :
  (PageView.doneQuests (Page.world_of (Page.toggleDone 0 "0k9" page_session))
   <= Page.score (Page.world_of (Page.toggleDone 0 "0k9" page_session)))%Z.
Proof.
  destruct (page_score_covers_done page_session) as (H & _);
    [vm_compute; discriminate | exact (H 0 "0k9"%string)].
Defined.

(** ** The dashboard numbers of part_002 *)

Lemma fold_left_count {D Q} (qs : D -> list Q) (P : Q -> Prop)
    `{!forall x, Decision (P x)} (pl : list D) : forall a,
  fold_left (fun s p => s + length (filter P (qs p))) pl a
  = a + length (filter P (flat_map qs pl)).
Proof.
  induction pl as [| p pl IH]; intros a; cbn; [lia |].
  rewrite IH, filter_app, length_app. lia.
Qed.

Lemma filter_length_mono {A} (P R : A -> Prop) `{!forall x, Decision (P x)}
    `{!forall x, Decision (R x)} (l : list A) :
  (forall x, P x -> R x) -> length (filter P l) <= length (filter R l).
Proof.
  intros Himp. induction l as [| x l IH]; [done |].
  rewrite !filter_cons. destruct (decide (P x)), (decide (R x)); cbn; try lia.
  naive_solver.
Qed.


Lemma flat_map_length_le {D Q} (qs : D -> list Q) (pl : list D) n :
  Forall (fun d => length (qs d) <= n) pl ->
  length (flat_map qs pl) <= n * length pl.
Proof.
  induction 1 as [| d pl Hd _ IH]; cbn; [lia |]. rewrite length_app. lia.
Qed.

Lemma part002_points_weekDone (w : Part002.World) :
  Part002.totalPoints w = (Z.of_nat (Part002View.weekDoneTotal w) * 10)%Z
  /\ Part002View.weekDoneTotal w <= Part002View.weekAllTotal w.
Proof.
  unfold Part002.totalPoints, Part002View.weekDoneTotal, Part002View.weekAllTotal,
    POINTS_PER_QUEST.
  destruct (Part002.state w) as [st |]; [| cbn; lia].
  rewrite !fold_left_count. cbn [Nat.add].
  split; [done |].
  apply filter_length_mono. intros q. by destruct (Part002.enabled q).
Qed.


(** X9.  A plan of 7 days of at most 5 quests earns at most 350 points in
    part_002, so the rank shown there never passes Marquis: Duke (500) and
    Sovereign (1000) are out of reach. *)
Theorem part002_points_capped (w : Part002.World) :
  Part002View.week_shaped w ->
  (0 <= Part002.totalPoints w <= 350)%Z
  /\ Part002View.weekAllTotal w <= 35
  /\ tier (Part002View.currentRank w) <= tier Marquis.
Proof.
  intros Hshape.
  assert (Hall : Part002View.weekAllTotal w <= 35).
  { unfold Part002View.weekAllTotal, Part002View.week_shaped in *.
    destruct (Part002.state w) as [st |]; [| lia]. destruct Hshape as [Hlen Hq].
    rewrite fold_left_count. cbn [Nat.add].
    pose proof (length_filter (fun q => Part002.enabled q = true)
                  (flat_map Part002.quests (Part002.plans st))).
    pose proof (flat_map_length_le _ _ 5 Hq). lia. }
  destruct (part002_points_weekDone w) as (Htot & Hle).
  assert (Hpts : (0 <= Part002.totalPoints w <= 350)%Z) by lia.
  split; [done | split; [done |]].
  unfold Part002View.currentRank. revert Hpts.
  generalize (Part002.totalPoints w). intros t Ht.
  rank_cases; cbn; lia.
Qed.

Lemma part002_points_capped_witness :
  (0 <= Part002.totalPoints part002_session <= 350)%Z
  /\ Part002View.weekAllTotal part002_session <= 35
  /\ tier (Part002View.currentRank part002_session) <= tier Marquis.
Proof.
  apply part002_points_capped. vm_compute. split; [reflexivity |].
  repeat constructor.
Defined.

Lemma calculateRank_cases (t : Z) :
  (0 <= t)%Z ->
  ((t < 50)%Z /\ calculateRank t = Novice)
  \/ ((50 <= t < 100)%Z /\ calculateRank t = Squire)
  \/ ((100 <= t < 200)%Z /\ calculateRank t = Knight)
  \/ ((200 <= t < 500)%Z /\ calculateRank t = Marquis)
  \/ ((500 <= t < 1000)%Z /\ calculateRank t = Duke)
  \/ ((1000 <= t)%Z /\ calculateRank t = Sovereign).
Proof. intros Ht. rank_cases; lia || tauto. Qed.

Ltac max_away bound :=
  match goal with
  | |- context [Z.max (bound - ?x) 0] =>
      replace (Z.max (bound - x) 0) with (bound - x)%Z by lia
  end.

Ltac next_rank_step bound :=
  repeat split;
  [ lia
  | max_away bound;
    match goal with
    | |- calculateRank ?e = _ => replace e with bound by lia; reflexivity
    end
  | max_away bound;
    match goal with
    | |- calculateRank ?e = _ => replace e with (bound - 1)%Z by lia; reflexivity
    end ].

(** X10.  [nextRank] and [toNext] of part_002: below Sovereign the next
    rank is the tier right above the current one, [toNext] is positive, and
    it is exactly the number of points missing: with [toNext] more points
    the rank is the next one, with one point fewer it is still the current
    one.  At Sovereign the next rank is Sovereign and [toNext] is 0. *)
Theorem part002_toNext (w : Part002.World) :
  let t := Part002.totalPoints w in
  (0 <= t)%Z
  /\ (Part002View.currentRank w <> Sovereign ->
      tier (Part002View.nextRank w) = S (tier (Part002View.currentRank w))
      /\ (0 < Part002View.toNext w)%Z
      /\ calculateRank (t + Part002View.toNext w) = Part002View.nextRank w
      /\ calculateRank (t + Part002View.toNext w - 1) = Part002View.currentRank w)
  /\ (Part002View.currentRank w = Sovereign ->
      Part002View.nextRank w = Sovereign /\ Part002View.toNext w = 0%Z).
Proof.
  cbn zeta.
  assert (Hpos : (0 <= Part002.totalPoints w)%Z).
  { destruct (part002_points_weekDone w) as (Htot & _). lia. }
  split; [done |].
  unfold Part002View.toNext, Part002View.nextRank, Part002View.currentRank.
  revert Hpos. generalize (Part002.totalPoints w). intros t Ht.
  destruct (calculateRank_cases t Ht)
    as [[H E] | [[H E] | [[H E] | [[H E] | [[H E] | [H E]]]]]];
    rewrite E;
    match goal with
    | |- context [nth ?i rankOrder Novice] =>
        let r := eval vm_compute in (nth i rankOrder Novice) in
        change (nth i rankOrder Novice) with r
    end;
    cbn [thresholdByRank tier];
    (split; [intros Hne | intros Hs; try discriminate Hs]).
  - next_rank_step 50%Z.
  - next_rank_step 100%Z.
  - next_rank_step 200%Z.
  - next_rank_step 500%Z.
  - next_rank_step 1000%Z.
  - done.
  - split; [done | lia].
Qed.

Lemma part002_toNext_witness :
  tier (Part002View.nextRank part002_session)
  = S (tier (Part002View.currentRank part002_session))
  /\ Part002View.toNext part002_session = 50%Z.
Proof.
  destruct (part002_toNext part002_session) as (_ & H & _).
  destruct H as (H1 & _); [vm_compute; discriminate |].
  split; [exact H1 | vm_compute; reflexivity].
Defined.

(** ** The day switch of part_002, and the invariants of its controller *)

Lemma setDay_flags checked q :
  Part002.enabled (Part002View.setDay checked q) = checked
  /\ Part002.done (Part002View.setDay checked q)
     = (if checked then Part002.done q else false)
  /\ Part002.id (Part002View.setDay checked q) = Part002.id q
  /\ Part002.title (Part002View.setDay checked q) = Part002.title q.
Proof. by destruct checked. Qed.

Lemma setDay_off_not_scoring qs :
  filter (fun q => Part002.enabled q && Part002.done q = true)
         (map (Part002View.setDay false) qs) = [].
Proof.
  induction qs as [| q qs IH]; [done |]. cbn [map].
  rewrite filter_cons_False; [exact IH |]. by cbn.
Qed.

(** X11.  [toggleDay] of part_002 rewrites the quests of one day in the live
    state: after it every quest of that day is switched as the box says,
    and none of them is done when the box was unticked; ids, titles and the
    other days are untouched and the points cannot rise by unticking.  It
    stores nothing: [loadState] still returns what it returned before. *)
Theorem part002_toggleDay_effect (w : Part002.World) dayIdx checked st p :
  Part002.state w = Some st ->
  Part002.plans st !! dayIdx = Some p ->
  let w' := Part002View.toggleDay dayIdx checked w in
  (exists st',
     Part002.state w' = Some st'
     /\ (Part002.quests <$> Part002.plans st' !! dayIdx)
        = Some (map (Part002View.setDay checked) (Part002.quests p))
     /\ (forall d', d' <> dayIdx -> Part002.plans st' !! d' = Part002.plans st !! d')
     /\ map (fun d => (Part002.day d,
                       map (fun q => (Part002.id q, Part002.title q)) (Part002.quests d)))
            (Part002.plans st')
        = map (fun d => (Part002.day d,
                         map (fun q => (Part002.id q, Part002.title q)) (Part002.quests d)))
              (Part002.plans st))
  /\ Forall (fun q => Part002.enabled q = checked
                      /\ Part002.done q = (if checked then Part002.done q else false))
            (map (Part002View.setDay checked) (Part002.quests p))
  /\ loadState (Part002.env w') = loadState (Part002.env w)
  /\ (if checked then True
      else (Part002.totalPoints w' <= Part002.totalPoints w)%Z).
Proof.
  intros Hst Hp w'. pose proof (lookup_lt_Some _ _ _ Hp) as Hlt.
  assert (Hst' : Part002.state w'
                 = Some {| Part002.selectedCategories := Part002.selectedCategories st;
                           Part002.plans :=
                             <[dayIdx := {| Part002.day := Part002.day p;
                                            Part002.quests :=
                                              map (Part002View.setDay checked)
                                                  (Part002.quests p) |}]>
                               (Part002.plans st);
                           Part002.createdAt := Part002.createdAt st;
                           Part002.theme := Part002.theme st |}).
  { unfold w', Part002View.toggleDay. by rewrite Hst, Hp. }
  split; [| split; [| split]].
  - eexists. split; [exact Hst' |]. cbn [Part002.plans]. split; [| split].
    + by rewrite list_lookup_insert_eq.
    + intros d' Hd'. by rewrite list_lookup_insert_ne.
    + apply list_eq. intros i. rewrite !list_lookup_fmap.
      destruct (decide (i = dayIdx)) as [-> | Hi].
      * rewrite list_lookup_insert_eq by done. rewrite Hp. cbn. do 2 f_equal.
        rewrite map_map. apply map_ext. intros q.
        by destruct (setDay_flags checked q) as (_ & _ & -> & ->).
      * by rewrite list_lookup_insert_ne.
  - apply Forall_forall. intros q (q0 & -> & _)%list_elem_of_fmap.
    destruct (setDay_flags checked q0) as (-> & -> & _). split; [done |].
    by destruct checked.
  - unfold w', Part002View.toggleDay. by rewrite Hst, Hp.
  - destruct checked; [done |].
    unfold Part002.totalPoints. rewrite Hst, Hst'. cbn [Part002.plans].
    rewrite insert_take_drop by done.
    rewrite <- (take_drop_middle (Part002.plans st) dayIdx p Hp) at 3.
    rewrite !flat_map_app. cbn [flat_map Part002.quests].
    rewrite !filter_app, !length_app, setDay_off_not_scoring.
    unfold POINTS_PER_QUEST. cbn [length]. lia.
Qed.

Lemma part002_toggleDay_effect_witness :
  loadState (Part002.env (Part002View.toggleDay 0 false part002_session))
  = loadState (Part002.env part002_session)
  /\ (Part002.totalPoints (Part002View.toggleDay 0 false part002_session)
      <= Part002.totalPoints part002_session)%Z.
Proof.
  edestruct (part002_toggleDay_effect part002_session 0 false) as (_ & _ & H1 & H2);
    [lazy; reflexivity | lazy; reflexivity |].
  exact (conj H1 H2).
Defined.

Lemma part002_toggleDay_ok w dayIdx checked :
  Part002.world_ok w -> Part002.world_ok (Part002View.toggleDay dayIdx checked w).
Proof.
  intros Hok. unfold Part002View.toggleDay.
  destruct (Part002.state w) as [st |] eqn:Hst; [| done].
  destruct (Part002.plans st !! dayIdx) as [p |] eqn:Hp; [| done].
  unfold Part002.world_ok in *. rewrite Hst in Hok. cbn.
  apply Forall_insert; [done |]. cbn.
  apply Forall_forall. intros q (q0 & -> & _)%list_elem_of_fmap.
  unfold Part002.quest_ok. destruct (setDay_flags checked q0) as (-> & -> & _).
  by destruct checked.
Qed.

Lemma part002_withQuest_shape st dayIdx d j q :
  Part002.plans st !! dayIdx = Some d ->
  length (Part002.plans st) = 7
  /\ Forall (fun d => length (Part002.quests d) <= 5) (Part002.plans st) ->
  length (Part002.plans (Part002.withQuest st dayIdx d j q)) = 7
  /\ Forall (fun d => length (Part002.quests d) <= 5)
            (Part002.plans (Part002.withQuest st dayIdx d j q)).
Proof.
  intros Hd [Hlen Hall]. cbn. rewrite length_insert. split; [done |].
  apply Forall_insert; [done |]. cbn. rewrite length_insert.
  by eapply (Forall_lookup_1 _ _ _ _ Hall).
Qed.

Lemma part002_toggle_shape w dayIdx qid :
  Part002View.week_shaped w ->
  Part002View.week_shaped (Part002.world_of (Part002.toggleDone dayIdx qid w))
  /\ Part002View.week_shaped (Part002.world_of (Part002.toggleEnabled dayIdx qid w)).
Proof.
  intros Hs. unfold Part002.toggleDone, Part002.toggleEnabled.
  destruct (Part002.state w) as [st |] eqn:Hst;
    [| cbn; unfold Part002View.week_shaped; by rewrite Hst].
  destruct (Part002.plans st !! dayIdx) as [d |] eqn:Hd; [| by split].
  destruct (list_find _ _) as [[j q] |]; [| by split]. cbn zeta.
  unfold Part002View.week_shaped in *. rewrite Hst in Hs.
  split.
  - destruct (negb (Part002.enabled q)); [cbn; by rewrite Hst |].
    rewrite part002_persist_world. cbn [Part002.state].
    by apply part002_withQuest_shape.
  - rewrite part002_persist_world. cbn [Part002.state].
    by apply part002_withQuest_shape.
Qed.

(** X12.  The controller of part_002 has two invariants: a quest that is
    switched off is not done, and the plan has 7 days of at most 5 quests.
    Both hold after [generate] and after [resetAll], from any state
    whatever; [toggleDone], [toggleEnabled] and the day switch keep them. *)
Theorem part002_invariants :
  (forall w now rnd k,
     Part002.world_ok (Part002.world_of (Part002.generate now w rnd k).1)
     /\ Part002View.week_shaped (Part002.world_of (Part002.generate now w rnd k).1))
  /\ (forall w,
     Part002.world_ok (Part002.world_of (Part002.resetAll w))
     /\ Part002View.week_shaped (Part002.world_of (Part002.resetAll w)))
  /\ (forall w,
     Part002.world_ok w /\ Part002View.week_shaped w ->
     (forall dayIdx qid,
        Part002.world_ok (Part002.world_of (Part002.toggleDone dayIdx qid w))
        /\ Part002View.week_shaped (Part002.world_of (Part002.toggleDone dayIdx qid w)))
     /\ (forall dayIdx qid,
        Part002.world_ok (Part002.world_of (Part002.toggleEnabled dayIdx qid w))
        /\ Part002View.week_shaped (Part002.world_of (Part002.toggleEnabled dayIdx qid w)))
     /\ (forall dayIdx checked,
        Part002.world_ok (Part002View.toggleDay dayIdx checked w)
        /\ Part002View.week_shaped (Part002View.toggleDay dayIdx checked w))).
Proof.
  split; [| split].
  - intros w now rnd k. split; [apply part002_generate_ok |].
    unfold Part002.generate. rewrite gbind_eq. cbn [gret fst].
    unfold Part002View.week_shaped. rewrite part002_persist_world.
    cbn [Part002.state Part002.plans].
    match goal with
    | |- context [Part002.buildWeekPlan ?sel rnd k] =>
        destruct (part002_buildWeekPlan_spec sel rnd k) as (T & _ & _);
        destruct (plan_sizes _ _ _ sel _ _ T) as [Hlen Hsz]
    end.
    split; [done |]. eapply Forall_impl; [exact Hsz |]. cbn. intros d ->. lia.
  - intros w. split; [apply part002_resetAll_ok |].
    unfold Part002.resetAll, Part002View.week_shaped.
    destruct (Part002.env w) as [| ls]; [done |]. by destruct (removeItem _ _).
  - intros w [Hok Hs]. split; [| split].
    + intros dayIdx qid. split; [by apply part002_toggleDone_ok |].
      by apply part002_toggle_shape.
    + intros dayIdx qid. split; [by apply part002_toggleEnabled_ok |].
      by apply part002_toggle_shape.
    + intros dayIdx checked. split; [by apply part002_toggleDay_ok |].
      unfold Part002View.toggleDay.
      destruct (Part002.state w) as [st |] eqn:Hst; [| done].
      destruct (Part002.plans st !! dayIdx) as [p |] eqn:Hp; [| done].
      unfold Part002View.week_shaped in *. rewrite Hst in Hs. destruct Hs as [Hlen Hall].
      cbn. rewrite length_insert. split; [done |].
      apply Forall_insert; [done |]. cbn. rewrite length_map.
      by eapply (Forall_lookup_1 _ _ _ _ Hall).
Qed.

Lemma part002_invariants_witness :
  Part002.world_ok (Part002View.toggleDay 2 false
                      (Part002.world_of (Part002.toggleDone 0 "0k9" part002_session)))
  /\ Part002View.week_shaped (Part002.world_of (Part002.toggleDone 0 "0k9" part002_session)).
Proof.
  destruct part002_invariants as (Hgen & _ & Hkeep).
  assert (H0 : Part002.world_ok part002_session /\ Part002View.week_shaped part002_session).
  { apply (Hgen {| Part002.state := None; Part002.selected := [Exercise];
                   Part002.tab := Part002.TabHome; Part002.env := empty_browser |}
                "2025-01-01T00:00:00.000Z"%string demo_rnd 0). }
  destruct (Hkeep part002_session H0) as (Ht & _).
  destruct (Ht 0 "0k9"%string) as [Hok1 Hs1].
  split; [| exact Hs1].
  destruct (Hkeep _ (conj Hok1 Hs1)) as (_ & _ & Hd).
  exact (proj1 (Hd 2 false)).
Defined.

(** ** The wizard: selection and plan creation *)

(** X13.  [generate] of page.tsx never fails to build a plan: with nothing
    selected it plans for "運動" and "学習" (4 quests a day) and leaves the
    selection empty; otherwise it plans for the selection.  The new state
    carries the creation time and no theme and has 7 days; the score is
    kept. *)
Theorem page_generate_result (now : string) (w : Page.World) (rnd : nat -> N) (k : nat) :
  let w' := Page.world_of (Page.generate now w rnd k).1 in
  let base := match Page.selected w with
              | [] => [Exercise; Learning]
              | _ => Page.selected w
              end in
  exists st,
    Page.state w' = Some st
    /\ Page.selectedCategories st = base
    /\ Page.createdAt st = Some now
    /\ Page.theme st = None
    /\ length (Page.plans st) = 7
    /\ Forall (fun d => length (Page.quests d)
                        = match Page.selected w with
                          | [] => 4
                          | sel => Nat.min (2 * length sel) 5
                          end) (Page.plans st)
    /\ PageView.hasPlan w' = true
    /\ Page.selected w' = Page.selected w
    /\ Page.score w' = Page.score w
    /\ (Page.generate now w rnd k).2 = k + 14 * length base.
Proof.
  cbn zeta.
  destruct (page_generate_world now w rnd k) as (Hst & Hsel & Hsc & _ & _ & Hk).
  cbn zeta in Hst, Hk.
  set (base := match Page.selected w with
               | [] => [Exercise; Learning]
               | _ :: _ => Page.selected w
               end) in *.
  destruct (page_buildWeekPlan_spec base rnd k) as (T & _ & _).
  destruct (plan_sizes _ _ _ base _ _ T) as [Hlen Hsz].
  eexists. split; [exact Hst |].
  cbn [Page.selectedCategories Page.createdAt Page.theme Page.plans].
  split; [done |]. split; [done |]. split; [done |]. split; [done |].
  split; [| split; [| split; [done | split; [done |]]]].
  - eapply Forall_impl; [exact Hsz |]. cbn. intros d ->.
    unfold base. by destruct (Page.selected w).
  - unfold PageView.hasPlan. rewrite Hst. cbn [Page.plans]. by rewrite Hlen.
  - rewrite Hk. clear. unfold Page.buildWeekPlan.
    assert (Hcat : forall i sel idx acc n,
               (forEach (Page.pushCategory i) sel idx acc rnd n).2 = n + 2 * length sel).
    { intros i sel. induction sel as [| c sel IH]; intros idx acc n; cbn [forEach].
      - cbn. lia.
      - rewrite gbind_eq, IH. cbn. lia. }
    assert (Hday : forall ds idx acc n,
               (forEach (Page.pushDay base) ds idx acc rnd n).2
               = n + length ds * (2 * length base)).
    { induction ds as [| i ds IH]; intros idx acc n; cbn [forEach].
      - cbn. lia.
      - rewrite gbind_eq, IH. unfold Page.pushDay. rewrite gbind_eq. cbn [gret snd].
        rewrite Hcat. cbn [length]. lia. }
    rewrite Hday. cbn [length seq]. lia.
Qed.

(** X14.  [toggleCategory] of the wizard keeps a selection free of
    repetitions, flips the membership of its key and of no other key, and
    keeps the order of the others.  Done twice it gives the selection back,
    except that a key that was selected moves to the end. *)
Theorem page_toggleCategory (key : CategoryKey) (w : Page.World) :
  NoDup (Page.selected w) ->
  let w1 := PageView.toggleCategory key w in
  let w2 := PageView.toggleCategory key w1 in
  NoDup (Page.selected w1)
  /\ (key ∈ Page.selected w1 <-> key ∉ Page.selected w)
  /\ (forall k, k <> key -> k ∈ Page.selected w1 <-> k ∈ Page.selected w)
  /\ filter (fun k => k <> key) (Page.selected w1)
     = filter (fun k => k <> key) (Page.selected w)
  /\ Page.selected w2
     = (if bool_decide (key ∈ Page.selected w)
        then filter (fun k => k <> key) (Page.selected w) ++ [key]
        else Page.selected w)
  /\ Page.state w1 = Page.state w /\ Page.env w1 = Page.env w.
Proof.
  intros Hnd. cbn zeta. unfold PageView.toggleCategory.
  cbn [Page.selected Page.state Page.env].
  assert (Hidem : forall l : list CategoryKey,
             filter (fun k => k <> key) (filter (fun k => k <> key) l)
             = filter (fun k => k <> key) l).
  { induction l as [| c l IH]; [done |]. rewrite (filter_cons _ c l).
    destruct (decide (c <> key)); [| exact IH].
    rewrite filter_cons_True by done. by rewrite IH. }
  destruct (bool_decide_reflect (key ∈ Page.selected w)) as [Hin | Hout].
  - assert (Hgone : key ∉ filter (fun k => k <> key) (Page.selected w)).
    { rewrite list_elem_of_filter. naive_solver. }
    rewrite (bool_decide_eq_false_2 _ Hgone).
    split; [by apply NoDup_filter |].
    split; [split; intros; done |].
    split; [intros k Hk; rewrite list_elem_of_filter; naive_solver |].
    split; [apply Hidem |]. done.
  - assert (Hall : filter (fun k => k <> key) (Page.selected w) = Page.selected w).
    { clear Hnd Hidem. induction (Page.selected w) as [| c l IH]; [done |].
      apply not_elem_of_cons in Hout as [Hc Hl].
      rewrite filter_cons_True by done. by rewrite IH. }
    assert (Hlast : filter (fun k => k <> key) (Page.selected w ++ [key])
                    = Page.selected w).
    { rewrite filter_app, Hall, filter_cons_False by naive_solver.
      by rewrite filter_nil, app_nil_r. }
    assert (Hnow : key ∈ Page.selected w ++ [key]).
    { apply elem_of_app. right. constructor. }
    rewrite (bool_decide_eq_true_2 _ Hnow).
    split.
    { apply NoDup_app. split; [done |]. split; [| apply NoDup_singleton].
      intros x Hx Hx'. apply list_elem_of_singleton in Hx'. by subst. }
    split; [split; intros; done |].
    split.
    { intros k Hk. rewrite elem_of_app, list_elem_of_singleton. naive_solver. }
    split; [by rewrite Hlast, Hall |]. by rewrite Hlast.
Qed.

Lemma page_toggleCategory_witness :
  Page.selected (PageView.toggleCategory Exercise
                   (PageView.toggleCategory Exercise
                      (PageView.toggleCategory Learning
                         (PageView.toggleCategory Exercise (Page.initial NoWindow)))))
  = [Learning; Exercise].
Proof.
  edestruct (page_toggleCategory Exercise
               (PageView.toggleCategory Learning
                  (PageView.toggleCategory Exercise (Page.initial NoWindow))))
    as (_ & _ & _ & _ & H & _).
  - apply (bool_decide_unpack _). vm_compute. exact I.
  - rewrite H. vm_compute. reflexivity.
Defined.

(** ** Today's index and the home view *)

(** X15.  [todayIndex] is NaN only for a creation date that is present, not
    empty and unreadable; otherwise it is a day index between 0 and 6.  It
    is 0 without a creation date (missing or empty) and when the clock is
    less than a day past it (or behind it), it is the number of whole days
    elapsed up to 6, it never goes back when the clock goes on, and it
    addresses a day of every 7-day plan. *)
Theorem todayIndex_range (getTime : string -> timeval) (now : Z)
    (createdAt : option string) :
  (todayIndex getTime now createdAt = None
   <-> exists s, createdAt = Some s /\ s <> EmptyString /\ getTime s = InvalidDate)
  /\ (createdAt = None \/ createdAt = Some EmptyString ->
      todayIndex getTime now createdAt = Some 0)
  /\ (forall n, todayIndex getTime now createdAt = Some n -> n <= 6)
  /\ (forall n later m, (now <= later)%Z ->
        todayIndex getTime now createdAt = Some n ->
        todayIndex getTime later createdAt = Some m -> n <= m)
  /\ (forall s created, createdAt = Some s -> s <> EmptyString ->
        getTime s = Ms created ->
        ((now < created + MS_PER_DAY)%Z -> todayIndex getTime now createdAt = Some 0)
        /\ ((created <= now < created + 7 * MS_PER_DAY)%Z ->
            todayIndex getTime now createdAt
            = Some (Z.to_nat ((now - created) / MS_PER_DAY)))
        /\ ((created + 6 * MS_PER_DAY <= now)%Z ->
            todayIndex getTime now createdAt = Some 6))
  /\ (forall n (plans : list Page.DayPlan), length plans = 7 ->
        todayIndex getTime now createdAt = Some n -> is_Some (plans !! n)).
Proof.
  assert (Hday : (0 < MS_PER_DAY)%Z) by done.
  assert (Hle : forall n, todayIndex getTime now createdAt = Some n -> n <= 6).
  { intros n. unfold todayIndex.
    destruct createdAt as [[| c s] |]; try (intros [= <-]; lia).
    destruct (getTime _) as [created |]; [| done]. intros [= <-]. lia. }
  split; [| split; [| split; [done | split; [| split]]]].
  - unfold todayIndex. split.
    + destruct createdAt as [[| c s] |]; try done.
      destruct (getTime _) eqn:Hg; [done |]. intros _. by eexists.
    + intros (s & -> & Hs & Hg). destruct s; [done |]. by rewrite Hg.
  - by intros [-> | ->].
  - intros n later m Hlater. unfold todayIndex.
    destruct createdAt as [[| c s] |]; try (intros [= <-] [= <-]; lia).
    destruct (getTime _) as [created |]; [| done]. intros [= <-] [= <-].
    assert ((now - created) / MS_PER_DAY <= (later - created) / MS_PER_DAY)%Z
      by (apply Z.div_le_mono; lia).
    lia.
  - intros s created -> Hs Hg. unfold todayIndex. destruct s; [done |]. rewrite Hg.
    cbn zeta. split; [| split].
    + intros Hlt. f_equal.
      assert ((now - created) / MS_PER_DAY < 1)%Z
        by (apply Z.div_lt_upper_bound; lia).
      lia.
    + intros [H1 H2]. f_equal.
      assert (0 <= (now - created) / MS_PER_DAY)%Z by (apply Z.div_pos; lia).
      assert ((now - created) / MS_PER_DAY < 7)%Z
        by (apply Z.div_lt_upper_bound; lia).
      f_equal. lia.
    + intros Hge. f_equal.
      assert (6 <= (now - created) / MS_PER_DAY)%Z
        by (apply Z.div_le_lower_bound; lia).
      lia.
  - intros n plans Hlen Hn. apply lookup_lt_is_Some. specialize (Hle n Hn). lia.
Qed.

Lemma todayIndex_range_witness :
  todayIndex demo_getTime (1735689600000 + 3 * MS_PER_DAY + 5)
    (Some "2025-01-01T00:00:00.000Z"%string) = Some 3.
Proof.
  destruct (todayIndex_range demo_getTime (1735689600000 + 3 * MS_PER_DAY + 5)
              (Some "2025-01-01T00:00:00.000Z"%string)) as (_ & _ & _ & _ & H & _).
  destruct (H "2025-01-01T00:00:00.000Z"%string 1735689600000%Z eq_refl
              ltac:(discriminate) eq_refl) as (_ & H3 & _).
  rewrite H3; [reflexivity | vm_compute; split; discriminate || reflexivity].
Defined.

(** ** Rounding in doubles *)

Lemma round53_cases (p : N) :
  ((N.size p <= 53)%N /\ round53 p = p)
  \/ exists e q r : N,
       (0 < e)%N /\ N.size p = (53 + e)%N
       /\ p = (q * 2 ^ e + r)%N /\ (r < 2 ^ e)%N /\ (2 ^ 52 <= q < 2 ^ 53)%N
       /\ ((round53 p = (q * 2 ^ e)%N /\ (2 * r <= 2 ^ e)%N)
           \/ (round53 p = ((q + 1) * 2 ^ e)%N /\ (2 ^ e <= 2 * r)%N)).
Proof.
  unfold round53. destruct (N.leb_spec (N.size p) 53) as [Hs | Hs]; [by left |].
  right. set (e := (N.size p - 53)%N).
  assert (He : (0 < e)%N) by lia.
  assert (Hsz : N.size p = (53 + e)%N) by lia.
  assert (Hpow : (2 ^ e <> 0)%N) by (apply N.pow_nonzero; lia).
  assert (Hhalf : (2 ^ e = 2 * (2 ^ e / 2))%N).
  { replace e with (N.succ (N.pred e)) by lia. rewrite N.pow_succ_r'.
    by rewrite (N.mul_comm 2), N.div_mul, N.mul_comm. }
  assert (Hlo : (2 ^ 52 * 2 ^ e <= p)%N).
  { pose proof (N.size_le p) as H. rewrite Hsz, N.pow_add_r in H.
    change (2 ^ 53)%N with (2 * 2 ^ 52)%N in H. lia. }
  assert (Hhi : (p < 2 ^ 53 * 2 ^ e)%N).
  { pose proof (N.size_gt p) as H. by rewrite Hsz, N.pow_add_r in H. }
  exists e, (p / 2 ^ e)%N, (p mod 2 ^ e)%N.
  split; [done |]. split; [done |].
  split; [rewrite (N.mul_comm _ (2 ^ e)); by apply N.div_mod |].
  split; [by apply N.mod_lt |].
  split.
  { split.
    - apply N.div_le_lower_bound; [done |]. lia.
    - apply N.Div0.div_lt_upper_bound. lia. }
  destruct (_ || _) eqn:Hc.
  - right. split; [done |].
    apply orb_true_iff in Hc as [Hc | Hc].
    + apply N.ltb_lt in Hc. lia.
    + apply andb_true_iff in Hc as [Hc _]. apply N.eqb_eq in Hc. lia.
  - left. split; [done |].
    apply orb_false_iff in Hc as [Hc _]. apply N.ltb_ge in Hc. lia.
Qed.

Lemma round53_below (m n : N) :
  (m < two53)%N -> (0 < n)%N -> (round53 (m * n) < n * two53)%N.
Proof.
  intros Hm Hn. unfold two53 in *.
  assert (Hp : (m * n + n <= n * 2 ^ 53)%N) by nia.
  destruct (round53_cases (m * n))
    as [[_ ->] | (e & q & r & He & _ & Hq & Hr & [Hq1 Hq2] & Hround)]; [lia |].
  assert (Hqe : (2 ^ 52 * 2 ^ e <= q * 2 ^ e)%N) by (by apply N.mul_le_mono_r).
  remember (2 ^ e)%N as X eqn:HX. clear HX He.
  remember (m * n)%N as p eqn:Hpm. clear Hpm Hm.
  destruct Hround as [[-> ?] | [-> ?]]; lia.
Qed.

(** [Math.floor(Math.random() * n)] is an index below [n], also after the
    product was rounded. *)
Lemma floor_mul_lt (m n : N) :
  (m < two53)%N -> (0 < n)%N -> (floor_mul m n < n)%N.
Proof.
  intros Hm Hn. unfold floor_mul. apply N.Div0.div_lt_upper_bound.
  rewrite (N.mul_comm two53). by apply round53_below.
Qed.

Lemma random_index_in_range (r : N) (len : nat) :
  (r < two53)%N -> 0 < len -> N.to_nat (floor_mul r (N.of_nat len)) < len.
Proof.
  intros Hr Hlen. pose proof (floor_mul_lt r (N.of_nat len) Hr). lia.
Qed.

Lemma round53_le (p c t : N) :
  (c <= 2 ^ 53)%N -> (p <= c * 2 ^ t)%N -> (round53 p <= c * 2 ^ t)%N.
Proof.
  intros Hc Hle.
  destruct (round53_cases p)
    as [[_ ->] | (e & q & r & He & _ & Hp & Hr & [Hq1 Hq2] & Hround)]; [done |].
  assert (HX : (0 < 2 ^ e)%N) by (apply N.neq_0_lt_0, N.pow_nonzero; lia).
  destruct (N.le_gt_cases e t) as [Het | Het].
  - replace t with (e + (t - e))%N in * by lia. rewrite N.pow_add_r in *.
    remember (2 ^ e)%N as X eqn:EX. remember (2 ^ (t - e))%N as Y eqn:EY.
    clear EX EY. rewrite (N.mul_comm X Y), N.mul_assoc in *.
    remember (c * Y)%N as c' eqn:Ec. clear Ec.
    destruct Hround as [[-> _] | [-> Hr2]]; [lia |].
    assert (q < c')%N.
    { destruct (N.lt_ge_cases q c') as [|Hge]; [done |].
      apply (N.mul_le_mono_r _ _ X) in Hge. lia. }
    apply N.mul_le_mono_r. lia.
  - assert (HY : (2 * 2 ^ t <= 2 ^ e)%N).
    { replace e with (N.succ t + (e - N.succ t))%N by lia.
      rewrite N.pow_add_r, N.pow_succ_r'.
      assert (0 < 2 ^ (e - N.succ t))%N by (apply N.neq_0_lt_0, N.pow_nonzero; lia).
      nia. }
    assert (Hqe : (2 ^ 52 * 2 ^ e <= q * 2 ^ e)%N) by (by apply N.mul_le_mono_r).
    assert (Hct : (c * 2 ^ t <= 2 ^ 53 * 2 ^ t)%N) by (by apply N.mul_le_mono_r).
    remember (2 ^ e)%N as X eqn:EX. remember (2 ^ t)%N as Y eqn:EY.
    remember (q * X)%N as QX. remember (c * Y)%N as CY.
    destruct Hround as [[-> _] | [-> Hr2]]; [lia |].
    rewrite N.mul_add_distr_r, <- HeqQX. lia.
Qed.

Lemma round53_ge (p c t : N) :
  (c <= 2 ^ 53)%N -> (c * 2 ^ t <= p)%N -> (c * 2 ^ t <= round53 p)%N.
Proof.
  intros Hc Hle.
  destruct (round53_cases p)
    as [[_ ->] | (e & q & r & He & _ & Hp & Hr & [Hq1 Hq2] & Hround)]; [done |].
  assert (Hlow : (q * 2 ^ e <= round53 p)%N).
  { destruct Hround as [[-> _] | [-> _]]; [done |]. apply N.mul_le_mono_r. lia. }
  etrans; [| exact Hlow]. clear Hlow Hround.
  destruct (N.le_gt_cases e t) as [Het | Het].
  - replace t with (e + (t - e))%N in * by lia. rewrite N.pow_add_r in *.
    remember (2 ^ e)%N as X eqn:EX. remember (2 ^ (t - e))%N as Y eqn:EY.
    clear EX EY. rewrite (N.mul_comm X Y), N.mul_assoc in *.
    remember (c * Y)%N as c' eqn:Ec. clear Ec.
    apply N.mul_le_mono_r.
    destruct (N.le_gt_cases c' q) as [| Hgt]; [done |].
    assert (q + 1 <= c')%N as Hge by lia.
    apply (N.mul_le_mono_r _ _ X) in Hge. lia.
  - assert (HY : (2 * 2 ^ t <= 2 ^ e)%N).
    { replace e with (N.succ t + (e - N.succ t))%N by lia.
      rewrite N.pow_add_r, N.pow_succ_r'.
      assert (0 < 2 ^ (e - N.succ t))%N by (apply N.neq_0_lt_0, N.pow_nonzero; lia).
      nia. }
    assert (Hqe : (2 ^ 52 * 2 ^ e <= q * 2 ^ e)%N) by (by apply N.mul_le_mono_r).
    assert (Hct : (c * 2 ^ t <= 2 ^ 53 * 2 ^ t)%N) by (by apply N.mul_le_mono_r).
    remember (2 ^ e)%N as X eqn:EX. remember (2 ^ t)%N as Y eqn:EY.
    remember (q * X)%N as QX. remember (c * Y)%N as CY. lia.
Qed.

(** A number with at most 53 significant bits is not rounded. *)
Lemma round53_exact (c t : N) : (c <= 2 ^ 53)%N -> round53 (c * 2 ^ t) = (c * 2 ^ t)%N.
Proof.
  intros Hc. apply N.le_antisymm; [by apply round53_le | by apply round53_ge].
Qed.

Lemma round53_half (p : N) : (p <= 2 * round53 p)%N.
Proof.
  destruct (round53_cases p)
    as [[_ ->] | (e & q & r & He & _ & Hp & Hr & [Hq1 Hq2] & Hround)]; [lia |].
  assert (Hqe : (2 ^ 52 * 2 ^ e <= q * 2 ^ e)%N) by (by apply N.mul_le_mono_r).
  remember (2 ^ e)%N as X eqn:EX. remember (q * X)%N as QX.
  destruct Hround as [[-> _] | [-> _]]; [lia |].
  rewrite N.mul_add_distr_r, <- HeqQX. lia.
Qed.

(** X16.  The home view of page.tsx: the done count is at most the number
    of quests switched on; [randomQuest] is [null] exactly when no quest of
    today is switched on, and otherwise it is one of today's quests that is
    switched on, for every value [Math.random] can return (the index never
    runs past the list). *)
Theorem page_randomQuest (todayPlan : Page.DayPlan) (rnd : nat -> N) (k : nat) :
  PageView.doneCount todayPlan <= length (PageView.enabledQuests todayPlan)
  /\ length (PageView.enabledQuests todayPlan) <= length (Page.quests todayPlan)
  /\ ((PageView.randomQuest todayPlan rnd k).1 = None
      <-> PageView.enabledQuests todayPlan = [])
  /\ (forall q, (PageView.randomQuest todayPlan rnd k).1 = Some q ->
        q ∈ Page.quests todayPlan /\ Page.enabled q = true).
Proof.
  split; [apply length_filter | split; [apply length_filter |]].
  unfold PageView.randomQuest.
  destruct (PageView.enabledQuests todayPlan) as [| q0 qs] eqn:He; cbn [length Nat.eqb].
  - split; [done | intros q; discriminate].
  - rewrite gbind_eq. cbn [Math_random gret fst].
    set (i := N.to_nat (floor_mul _ _)).
    assert (Hi : i < length (q0 :: qs)).
    { apply random_index_in_range; [| cbn; lia].
      apply N.mod_lt. done. }
    destruct (lookup_lt_is_Some_2 _ _ Hi) as [q Hq]. rewrite Hq.
    split; [done |]. intros q' [= <-].
    assert (Hin : q ∈ PageView.enabledQuests todayPlan).
    { rewrite He. by eapply list_elem_of_lookup_2. }
    unfold PageView.enabledQuests in Hin. by apply list_elem_of_filter in Hin as [? ?].
Qed.

Lemma page_randomQuest_witness :
  let off := Page.mkQuest "a" "軽いジョグ10分" true false in
  let on := Page.mkQuest "b" "スクワット20回" false true in
  (PageView.randomQuest (Page.mkDayPlan 1 [off; on]) demo_rnd 0).1 = Some on
  /\ on ∈ [off; on] /\ Page.enabled on = true.
Proof.
  cbn zeta. split; [vm_compute; reflexivity |].
  destruct (page_randomQuest
              (Page.mkDayPlan 1 [Page.mkQuest "a" "軽いジョグ10分" true false;
                                 Page.mkQuest "b" "スクワット20回" false true])
              demo_rnd 0) as (_ & _ & _ & H).
  apply H. vm_compute. reflexivity.
Defined.

(** ** The chat of page.tsx *)

Lemma swap_in_range {T} (l : list T) (i j : nat) (x y : T) :
  l !! i = Some x -> l !! j = Some y ->
  swap i j (Some <$> l) = Some <$> <[j := x]> (<[i := y]> l).
Proof.
  intros Hi Hj. unfold swap, js_get, js_set.
  rewrite !list_lookup_fmap, Hi, Hj. cbn [fmap option_fmap option_map default id].
  assert (Hi' : i < length (Some <$> l))
    by (rewrite length_fmap; by eapply lookup_lt_Some).
  rewrite !(decide_True _ _ Hi').
  assert (Hj' : j < length (<[i := Some y]> (Some <$> l)))
    by (rewrite length_insert, length_fmap; by eapply lookup_lt_Some).
  rewrite (decide_True _ _ Hj').
  by rewrite !list_fmap_insert.
Qed.

(** Inside [shuffle] both indices of a swap are positions of the array, so
    no element is ever [undefined] and the array keeps its length. *)
Lemma shuffle_from_spec {T} (rnd : nat -> N) (i : nat) : forall (l : list T) k,
  i < length l \/ i = 0 ->
  exists l', (shuffle_from i (Some <$> l) rnd k).1 = Some <$> l'
             /\ l' ≡ₚ l
             /\ (shuffle_from i (Some <$> l) rnd k).2 = k + i.
Proof.
  induction i as [| i IH]; intros l k Hi; cbn [shuffle_from].
  - exists l. cbn. split; [done | split; [done | lia]].
  - rewrite gbind_eq. cbn [Math_random fst snd].
    destruct Hi as [Hi | Hi]; [| done].
    set (j := N.to_nat (floor_mul _ _)).
    assert (Hj : j < S i + 1).
    { apply random_index_in_range; [by apply N.mod_lt | lia]. }
    destruct (lookup_lt_is_Some_2 l (S i) Hi) as [x Hx].
    destruct (lookup_lt_is_Some_2 l j ltac:(lia)) as [y Hy].
    rewrite (swap_in_range l (S i) j x y Hx Hy).
    destruct (IH (<[j := x]> (<[S i := y]> l)) (S k)) as (l' & E & Hp & Hk).
    { left. rewrite !length_insert. lia. }
    exists l'. split; [done |]. split; [| lia].
    etrans; [exact Hp |]. by apply Permutation_insert_swap.
Qed.

(** X17.  [shuffle] returns its input rearranged: the same elements, each
    as often as before, and none of them [undefined].  It calls
    [Math.random] once per element but the first, and the index
    [Math.floor(Math.random() * (i + 1))] it draws for position i is at most
    i, the rounding of the product included. *)
Theorem shuffle_permutes {T} (arr : list T) (rnd : nat -> N) (k : nat) :
  (exists l, (shuffle arr rnd k).1 = Some <$> l /\ l ≡ₚ arr)
  /\ length (shuffle arr rnd k).1 = length arr
  /\ (shuffle arr rnd k).2 = k + (length arr - 1)
  /\ (forall i n, N.to_nat (floor_mul (rnd n mod two53) (N.of_nat (i + 1))) <= i).
Proof.
  destruct (shuffle_from_spec rnd (length arr - 1) arr k) as (l & E & Hp & Hk).
  { destruct arr; cbn; [by right | left; lia]. }
  unfold shuffle. split; [by exists l |].
  split; [by rewrite E, length_fmap, Hp |]. split; [done |].
  intros i n.
  assert (N.to_nat (floor_mul (rnd n mod two53) (N.of_nat (i + 1))) < i + 1); [| lia].
  apply random_index_in_range; [by apply N.mod_lt | lia].
Qed.

Lemma tips_NoDup : NoDup PageChat.tips.
Proof. apply (bool_decide_unpack _). vm_compute. exact I. Qed.

Lemma default_fmap_Some {T} (d : T) (l : list T) : default d <$> (Some <$> l) = l.
Proof. induction l as [| x l IH]; [done |]. cbn. by rewrite IH. Qed.

(** X18.  The default reply of page.tsx lists max(3, min(5, length / 12))
    tips, that is 3, 4 or 5 of them: tips of the fixed pool, no tip twice,
    joined by " / " after the fixed opening.  It draws 4 random numbers. *)
Theorem fallback_reply_picks (text : jsstring) (rnd : nat -> N) (k : nat) :
  exists picks,
    (PageChat.fallback_reply text rnd k).1
    = utf16 "なるほど。いまから出来る小さな一歩: " ++ join (utf16 " / ") picks
    /\ length picks = Nat.max 3 (Nat.min 5 (length text / 12))
    /\ 3 <= length picks <= 5
    /\ NoDup picks
    /\ picks ⊆ PageChat.tips
    /\ (PageChat.fallback_reply text rnd k).2 = k + 4.
Proof.
  unfold PageChat.fallback_reply. rewrite gbind_eq. cbn [gret fst snd].
  destruct (shuffle_from_spec rnd (length PageChat.tips - 1) PageChat.tips k)
    as (l & E & Hp & Hk); [left; cbn; lia |].
  fold (shuffle PageChat.tips) in E, Hk. rewrite E.
  set (n := Nat.max 3 (Nat.min 5 (length text / 12))).
  exists (take n l).
  assert (Hlen : length l = 5) by (by rewrite Hp).
  assert (Hn : length (take n l) = n) by (rewrite length_take, Hlen; lia).
  rewrite <- fmap_take, default_fmap_Some.
  split; [done |]. split; [done |]. split; [rewrite Hn; lia |].
  split; [| split; [| done]].
  - eapply sublist_NoDup; [| apply sublist_take]. rewrite Hp. apply tips_NoDup.
  - etrans; [apply subseteq_take |]. by rewrite Hp.
Qed.

Lemma keyword_rule_false text :
  PageChatView.keyword_rule text = false ->
  (starts_with (utf16 "help") text || starts_with (utf16 "ヘルプ") text
   || includes (utf16 "困った") text || includes (utf16 "どう使") text) = false
  /\ (includes (utf16 "こんにちは") text || includes (utf16 "初めまして") text
      || includes (utf16 "こんちは") text) = false
  /\ (includes (utf16 "天気") (toLowerCase text)
      || includes (utf16 "weather") (toLowerCase text)) = false
  /\ (includes (utf16 "英単語") text || includes (utf16 "単語") text
      || includes (utf16 "英語") text) = false
  /\ (includes (utf16 "運動") text || includes (utf16 "筋トレ") text
      || includes (utf16 "ストレッチ") text || includes (utf16 "走") text) = false.
Proof.
  unfold PageChatView.keyword_rule. intros H.
  repeat match type of H with
         | (_ || _) = false => apply orb_false_elim in H as [H ?]
         end.
  repeat match goal with
         | E : _ = false |- _ => rewrite E; clear E
         end.
  done.
Qed.

(** X19.  A question that matches no keyword rule is answered with a quote
    of the last message of the user in the history, cut to 40 code units,
    and without drawing a random number.  The chat view passes the history
    without the question itself, so the quote is the previous message of the
    user; when there is none, as for the first message of a chat, the quote
    is empty. *)
Theorem mockAssistant_question_echo (input : jsstring) (history : list ChatMsg)
    (rnd : nat -> N) (k : nat) :
  PageChatView.keyword_rule (trim input) = false ->
  ends_with_question (trim input) = true ->
  PageChat.mockAssistant input history rnd k
  = (utf16 "要するに『" ++ take 40 (PageChatView.lastUserContent history)
     ++ utf16 "』ってことかな。まずは小さく試すと良いよ", k)
  /\ (Forall (fun m => role m = RoleAssistant) history ->
      (PageChatView.handleSubmit input history rnd k).1.(PageChatView.reply)
      = {| role := RoleAssistant;
           content := utf16 "要するに『" ++ utf16 "』ってことかな。まずは小さく試すと良いよ" |}).
Proof.
  intros Hkw Hq.
  destruct (keyword_rule_false _ Hkw) as (H1 & H2 & H3 & H4 & H5).
  assert (Hm : PageChat.mockAssistant input history rnd k
               = (utf16 "要するに『" ++ take 40 (PageChatView.lastUserContent history)
                  ++ utf16 "』ってことかな。まずは小さく試すと良いよ", k)).
  { unfold PageChat.mockAssistant. rewrite H1, H2, H3, H4, H5, Hq. reflexivity. }
  split; [exact Hm |]. intros Hall.
  unfold PageChatView.handleSubmit. rewrite gbind_eq, Hm. cbn [gret fst PageChatView.reply].
  do 2 f_equal.
  assert (Hnone : PageChatView.lastUserContent history = []).
  { unfold PageChatView.lastUserContent.
    assert (Hrev : Forall (fun m => role m = RoleAssistant) (rev history)).
    { apply Forall_forall. intros m Hm'. rewrite Forall_forall in Hall. apply Hall.
      apply list_elem_of_In. apply in_rev. by apply list_elem_of_In. }
    induction Hrev as [| m l Hr _ IH]; [done |]. cbn. by rewrite Hr. }
  by rewrite Hnone.
Qed.

Lemma mockAssistant_question_echo_witness :
  (PageChat.mockAssistant (utf16 "本当に？")
     [{| role := RoleAssistant; content := utf16 "River Agentです。何から始める？" |}]
     demo_rnd 0).1
  = utf16 "要するに『』ってことかな。まずは小さく試すと良いよ".
Proof.
  edestruct (mockAssistant_question_echo (utf16 "本当に？")
               [{| role := RoleAssistant; content := utf16 "River Agentです。何から始める？" |}]
               demo_rnd 0) as [H _];
    [vm_compute; reflexivity | vm_compute; reflexivity |].
  rewrite H. vm_compute. reflexivity.
Defined.

(** X20.  Sending from the input box of page.tsx: an input of white space
    only changes nothing and draws nothing; any other input appends
    exactly two messages to the ones shown, the text of the user as typed
    (not trimmed) and then the reply of the responder, which was computed
    from the messages shown before; the reply is delayed by 300 to 1200
    milliseconds. *)
Theorem page_sendMessage (input : jsstring) (messages : list ChatMsg)
    (rnd : nat -> N) (k : nat) :
  (trim input = [] -> PageChatView.sendMessage input messages rnd k = (messages, k))
  /\ (trim input <> [] ->
      (PageChatView.sendMessage input messages rnd k).1
      = messages
        ++ [{| role := RoleUser; content := input |};
            {| role := RoleAssistant;
               content := (PageChat.mockAssistant input messages rnd k).1 |}]
      /\ (PageChatView.sendMessage input messages rnd k).2
         = (PageChat.mockAssistant input messages rnd k).2)
  /\ 300 <= (PageChatView.handleSubmit input messages rnd k).1.(PageChatView.delay) <= 1200.
Proof.
  unfold PageChatView.sendMessage, PageChatView.handleSend.
  split; [| split].
  - by intros ->.
  - intros Hne. destruct (trim input) as [| c t]; [done |].
    rewrite gbind_eq. unfold PageChatView.handleSubmit. rewrite gbind_eq.
    cbn [gret fst snd]. unfold PageChatView.afterTimeout.
    cbn [PageChatView.shown PageChatView.reply]. by rewrite <- app_assoc.
  - unfold PageChatView.handleSubmit. rewrite gbind_eq.
    cbn [gret fst PageChatView.delay]. lia.
Qed.

Lemma page_sendMessage_witness :
  PageChatView.sendMessage (utf16 "   ") [] demo_rnd 0 = ([], 0)
  /\ length (PageChatView.sendMessage (utf16 " help ") [] demo_rnd 0).1 = 2.
Proof.
  destruct (page_sendMessage (utf16 "   ") [] demo_rnd 0) as (H1 & _).
  destruct (page_sendMessage (utf16 " help ") [] demo_rnd 0) as (_ & H2 & _).
  split; [apply H1; vm_compute; reflexivity |].
  destruct H2 as [-> _]; [vm_compute; discriminate | reflexivity].
Defined.

(** ** Ids and decorations *)

Lemma digit36_base36 d : (d < 36)%N -> is_base36 (digit36 d) = true.
Proof.
  intros Hd. unfold is_base36, digit36.
  destruct (N.ltb_spec d 10); rewrite N_ascii_embedding by lia; cbn zeta;
    repeat match goal with
           | |- context [(?a <=? ?b)%N] => destruct (N.leb_spec a b)
           end; cbn; try done; lia.
Qed.

Lemma digits36_base36 ds :
  Forall (fun d => (d < 36)%N) ds -> all_base36 (digits36 ds).
Proof.
  induction 1 as [| d ds Hd _ IH]; [done |]. cbn. split; [| done].
  by apply digit36_base36.
Qed.

Lemma substring0_base36 n : forall s, all_base36 s -> all_base36 (substring 0 n s).
Proof.
  induction n as [| n IH]; intros [| c s] Hs; cbn; try done.
  destruct Hs. split; [done | by apply IH].
Qed.

Lemma substring0_length n : forall s, String.length (substring 0 n s) <= n.
Proof.
  induction n as [| n IH]; intros [| c s]; cbn; try lia.
  specialize (IH s). lia.
Qed.

Lemma fraction_digits_S fuel fraction delta written :
  fraction_digits (S fuel) fraction delta written
  = let fraction1 := round53 (fraction * 36) in
    let delta1 := round53 (delta * 36) in
    let digit := (fraction1 / two53)%N in
    let fraction2 := (fraction1 mod two53)%N in
    let written1 := digit :: written in
    if ((2 ^ 52 <? fraction2)%N || ((fraction2 =? 2 ^ 52)%N && N.odd digit))
       && (2 ^ 107 <? round53 (fraction2 * 2 ^ 54 + delta1))%N
    then carry_back written1
    else if (delta1 <=? fraction2 * 2 ^ 54)%N
         then fraction_digits fuel fraction2 delta1 written1
         else Some written1.
Proof. reflexivity. Qed.

Lemma carry_back_lt written ds :
  Forall (fun d => (d < 36)%N) written -> carry_back written = Some ds ->
  Forall (fun d => (d < 36)%N) ds.
Proof.
  induction 1 as [| d written Hd Hw IH]; [done |]. cbn [carry_back].
  destruct (N.ltb_spec (d + 1) 36).
  - intros [= <-]. by constructor.
  - exact IH.
Qed.

(** Every digit the loop writes is a digit of base 36. *)
Lemma fraction_digits_lt fuel : forall fraction delta written ds,
  (fraction < two53)%N ->
  Forall (fun d => (d < 36)%N) written ->
  fraction_digits fuel fraction delta written = Some ds ->
  Forall (fun d => (d < 36)%N) ds.
Proof.
  induction fuel as [| fuel IH]; intros fraction delta written ds Hf Hw.
  - by intros [= <-].
  - rewrite fraction_digits_S. cbv zeta.
    assert (Hd : (round53 (fraction * 36) / two53 < 36)%N)
      by (apply (floor_mul_lt fraction 36); [done | lia]).
    assert (Hw1 : Forall (fun d => (d < 36)%N)
                    ((round53 (fraction * 36) / two53)%N :: written))
      by (by constructor).
    destruct (_ && _).
    + by apply carry_back_lt.
    + destruct (_ <=? _)%N.
      * apply IH; [by apply N.mod_lt | done].
      * by intros [= <-].
Qed.

(** The loop ends of its own accord: with [delta] at least 1 it runs at
    most 108 times, so any fuel from there on gives the same digits. *)
Lemma fraction_digits_stable : forall (k n1 n2 : nat) fraction delta written,
  (2 ^ 107 <= delta * 2 ^ N.of_nat k)%N -> k < n1 -> k < n2 ->
  fraction_digits n1 fraction delta written = fraction_digits n2 fraction delta written.
Proof.
  induction k as [| k IH]; intros n1 n2 fraction delta written Hd H1 H2;
    destruct n1 as [| n1]; [lia | | lia |]; destruct n2 as [| n2]; try lia;
    rewrite !fraction_digits_S; cbv zeta;
    destruct (_ && _); try done;
    destruct (N.leb_spec (round53 (delta * 36)) (round53 (fraction * 36) mod two53 * 2 ^ 54))
      as [Hle | Hgt]; try done.
  - exfalso. pose proof (round53_half (delta * 36)).
    assert (round53 (fraction * 36) mod two53 < two53)%N by (by apply N.mod_lt).
    unfold two53 in *. cbn [N.of_nat] in Hd. lia.
  - apply IH; [| lia | lia].
    pose proof (round53_half (delta * 36)) as Hh.
    replace (N.of_nat (S k)) with (N.succ (N.of_nat k)) in Hd by lia.
    rewrite N.pow_succ_r' in Hd.
    remember (2 ^ N.of_nat k)%N as X. remember (round53 (delta * 36)) as D1.
    nia.
Qed.

Lemma toString36_fuel (m : N) (fuel : nat) :
  108 <= fuel ->
  fraction_digits fuel m (2 ^ N.size m) [] = fraction_digits 1100 m (2 ^ N.size m) [].
Proof.
  intros Hfuel. apply (fraction_digits_stable 107); [| lia | lia].
  assert (0 < 2 ^ N.size m)%N by (apply N.neq_0_lt_0, N.pow_nonzero; lia).
  remember (2 ^ N.size m)%N as D. change (N.of_nat 107) with 107%N. nia.
Qed.

Lemma size_le_53 (m : N) : (m < two53)%N -> (2 ^ N.size m <= 2 ^ 53)%N.
Proof.
  intros Hm. apply N.pow_le_mono_r; [lia |].
  destruct (N.eq_dec m 0%N) as [-> | Hne]; [cbn; lia |].
  rewrite N.size_log2 by done.
  apply N.le_succ_l, N.log2_lt_pow2; [lia | done].
Qed.

Lemma carry_back_Some written :
  (exists d, d ∈ written /\ (d < 35)%N) -> carry_back written <> None.
Proof.
  intros (d & Hin & Hd). induction written as [| x written IH]; [by inversion Hin |].
  cbn [carry_back]. destruct (N.ltb_spec (x + 1) 36); [done |].
  apply IH. inversion Hin; subst; [lia | done].
Qed.

(** A rounded number between 2^58 and 2^59 is a multiple of 64. *)
Lemma round53_mult64 (p : N) :
  (p < 2 ^ 59)%N -> (2 ^ 58 < round53 p)%N -> exists f, round53 p = (64 * f)%N.
Proof.
  intros Hp Hr.
  destruct (round53_cases p)
    as [[Hs Hq] | (e & q & r & He & _ & Hpq & Hrr & [Hq1 Hq2] & Hround)].
  - exfalso. pose proof (N.size_gt p) as Hgt. rewrite Hq in Hr.
    assert (2 ^ N.size p <= 2 ^ 53)%N by (apply N.pow_le_mono_r; lia). lia.
  - assert (Hqe : (2 ^ 52 * 2 ^ e <= q * 2 ^ e)%N) by (by apply N.mul_le_mono_r).
    assert (Hq' : exists q', (q' <= 2 ^ 53)%N /\ round53 p = (q' * 2 ^ e)%N).
    { destruct Hround as [[-> _] | [-> _]]; eexists; (split; [| done]); lia. }
    destruct Hq' as (q' & Hq' & E). rewrite E in *.
    assert (Hq'e : (q' * 2 ^ e <= 2 ^ 53 * 2 ^ e)%N) by (by apply N.mul_le_mono_r).
    destruct (N.lt_trichotomy e 6) as [Hlt | [-> | Hgt]].
    + exfalso. assert (2 ^ e <= 2 ^ 5)%N by (apply N.pow_le_mono_r; lia). lia.
    + exists q'. lia.
    + exfalso. assert (2 ^ 7 <= 2 ^ e)%N by (apply N.pow_le_mono_r; lia). lia.
Qed.

(** The round-up never carries into the integer part: when every digit
    written so far is z, the rest of the fraction is further from 1 than
    [delta] reaches. *)
Lemma fraction_digits_Some fuel : forall fraction delta written,
  (fraction < two53)%N ->
  (written = [] /\ (delta <= 2 ^ 53)%N)
  \/ (exists d, d ∈ written /\ (d < 35)%N)
  \/ (exists g, (0 < g)%N /\ (fraction + 64 * g = 2 ^ 53)%N
                /\ (delta <= 64 * g * 2 ^ 53)%N) ->
  fraction_digits fuel fraction delta written <> None.
Proof.
  induction fuel as [| fuel IH]; intros fraction delta written Hf Hpre; [done |].
  rewrite fraction_digits_S. cbv zeta.
  assert (Hd : (round53 (fraction * 36) / two53 < 36)%N)
    by (apply (floor_mul_lt fraction 36); [done | lia]).
  assert (Hf2 : (round53 (fraction * 36) mod two53 < two53)%N) by (by apply N.mod_lt).
  pose proof (N.div_mod (round53 (fraction * 36)) two53 ltac:(done)) as Hdm.
  remember (round53 (fraction * 36) / two53)%N as digit eqn:Edigit.
  remember (round53 (fraction * 36) mod two53)%N as fraction2 eqn:Ef2.
  remember (round53 (delta * 36)) as delta1 eqn:Ed1.
  assert (Hlow : (exists d, d ∈ digit :: written /\ (d < 35)%N) ->
            (if ((2 ^ 52 <? fraction2)%N || ((fraction2 =? 2 ^ 52)%N && N.odd digit))
                && (2 ^ 107 <? round53 (fraction2 * 2 ^ 54 + delta1))%N
             then carry_back (digit :: written)
             else if (delta1 <=? fraction2 * 2 ^ 54)%N
                  then fraction_digits fuel fraction2 delta1 (digit :: written)
                  else Some (digit :: written)) <> None).
  { intros Hex. destruct (_ && _); [by apply carry_back_Some |].
    destruct (_ <=? _)%N; [| done]. apply IH; [done | by right; left]. }
  destruct Hpre as [[-> HD] | [(d & Hin & Hlt) | (g & Hg & HF & HD)]].
  - destruct (N.lt_ge_cases digit 35) as [Hlt | Hge].
    { apply Hlow. exists digit. split; [constructor | done]. }
    assert (digit = 35%N) as -> by lia.
    destruct (round53_mult64 (fraction * 36)) as (f & Ef).
    { unfold two53 in *. lia. }
    { unfold two53 in *. lia. }
    assert (Hlt36 : (round53 (fraction * 36) < 36 * two53)%N)
      by (apply round53_below; [done | lia]).
    assert (HD1 : (delta1 <= 36 * 2 ^ 53)%N).
    { subst delta1. apply round53_le; [lia |]. lia. }
    assert (HJ : exists g, (0 < g)%N /\ (fraction2 + 64 * g = 2 ^ 53)%N
                           /\ (delta1 <= 64 * g * 2 ^ 53)%N).
    { exists (36 * 2 ^ 47 - f)%N. unfold two53 in *. lia. }
    assert (Hno : (2 ^ 107 <? round53 (fraction2 * 2 ^ 54 + delta1))%N = false).
    { apply N.ltb_ge. destruct HJ as (g & Hg & HF & HD').
      change (2 ^ 107)%N with (2 ^ 53 * 2 ^ 54)%N.
      apply round53_le; [done |]. lia. }
    rewrite Hno, andb_false_r.
    destruct (_ <=? _)%N; [| done]. apply IH; [done | by right; right].
  - apply Hlow. exists d. split; [by constructor | done].
  - destruct (N.lt_ge_cases digit 35) as [Hlt | Hge].
    { apply Hlow. exists digit. split; [constructor | done]. }
    assert (digit = 35%N) as -> by lia.
    assert (Hex : round53 (fraction * 36) = (fraction * 36)%N).
    { replace (fraction * 36)%N with (9 * (2 ^ 47 - g) * 2 ^ 8)%N by lia.
      apply round53_exact. lia. }
    rewrite Hex in *.
    assert (HD1 : (delta1 <= 9 * g * 2 ^ 61)%N).
    { subst delta1. apply round53_le; lia. }
    assert (HJ : exists g', (0 < g')%N /\ (fraction2 + 64 * g' = 2 ^ 53)%N
                            /\ (delta1 <= 64 * g' * 2 ^ 53)%N).
    { exists (36 * g)%N. unfold two53 in *. lia. }
    assert (Hno : (2 ^ 107 <? round53 (fraction2 * 2 ^ 54 + delta1))%N = false).
    { apply N.ltb_ge. destruct HJ as (g' & Hg' & HF' & HD').
      change (2 ^ 107)%N with (2 ^ 53 * 2 ^ 54)%N.
      apply round53_le; [done |]. lia. }
    rewrite Hno, andb_false_r.
    destruct (_ <=? _)%N; [| done]. apply IH; [done | by right; right].
Qed.

Lemma fraction_digits_nonempty fuel : forall fraction delta written ds,
  (fuel <> 0 \/ written <> []) ->
  fraction_digits fuel fraction delta written = Some ds -> ds <> [].
Proof.
  induction fuel as [| fuel IH]; intros fraction delta written ds Hne.
  - intros [= <-]. by destruct Hne.
  - rewrite fraction_digits_S. cbv zeta. destruct (_ && _).
    + cbn [carry_back]. destruct (_ <? _)%N; [by intros [= <-] |].
      clear. induction written as [| d written IHw]; [done |].
      cbn [carry_back]. destruct (_ <? _)%N; [by intros [= <-] | done].
    + destruct (_ <=? _)%N; [| by intros [= <-]].
      apply IH. by right.
Qed.

(** The id made from a draw: nothing for 0, and otherwise the first 8 of
    the digits the loop writes, of which there is at least one. *)
Lemma uid_of_cases (m : N) :
  (m < two53)%N ->
  (m = 0%N /\ uid_of m = EmptyString)
  \/ (m <> 0%N
      /\ exists ds, ds <> [] /\ Forall (fun d => (d < 36)%N) ds
                    /\ uid_of m = substring 0 8 (digits36 ds)).
Proof.
  intros Hm. destruct (N.eq_dec m 0%N) as [-> | Hne]; [by left |].
  right. split; [done |]. unfold uid_of, slice, toString36.
  rewrite (proj2 (N.eqb_neq m 0)) by done.
  assert (Hdelta : (m * 2 ^ 54 <? 2 ^ N.size m)%N = false).
  { apply N.ltb_ge. pose proof (N.size_le m). lia. }
  rewrite Hdelta.
  destruct (fraction_digits 1100 m (2 ^ N.size m) []) as [ds |] eqn:E.
  - exists (rev ds). split; [| split].
    + intros H. apply (f_equal (@length N)) in H. rewrite length_rev in H.
      destruct ds; [| done].
      assert (Hfuel : 1100 <> 0 \/ @nil N <> []) by (left; lia).
      by apply (fraction_digits_nonempty _ _ _ _ _ Hfuel E).
    + apply Forall_rev. by eapply (fraction_digits_lt _ _ _ _ _ Hm), E.
    + reflexivity.
  - exfalso. eapply fraction_digits_Some; [exact Hm | | exact E].
    left. split; [done | by apply size_le_53].
Qed.

(** X21.  An id made by [uid] has at most 8 characters, all of them digits
    or lower-case letters, also where the engine rounds the last digit up
    and carries; it can be shorter than 8, and it is the empty string
    exactly when [Math.random] returned 0.  Each call draws one number. *)
Theorem uid_token (rnd : nat -> N) (k : nat) :
  String.length (uid rnd k).1 <= 8
  /\ all_base36 (uid rnd k).1
  /\ ((uid rnd k).1 = EmptyString <-> (rnd k mod two53 = 0)%N)
  /\ (uid rnd k).2 = S k.
Proof.
  rewrite uid_eq. cbn [fst snd]. unfold uid_at.
  assert (Hm : (rnd k mod two53 < two53)%N) by (apply N.mod_lt; done).
  destruct (uid_of_cases _ Hm) as [[-> ->] | (Hne & ds & Hds & Hlt & ->)].
  - cbn. repeat split; lia || done.
  - split; [apply substring0_length |].
    split; [by apply substring0_base36, digits36_base36 |].
    split; [| done]. split; [| done].
    destruct ds as [| d ds]; [done |]. cbn. discriminate.
Qed.

Lemma progress_in_range (r : N) :
  (r < two53)%N -> (10 <= Part002.floor70_plus10 r <= 79)%Z.
Proof.
  intros Hr. unfold Part002.floor70_plus10.
  pose proof (floor_mul_lt r 70 Hr ltac:(lia)). lia.
Qed.

Lemma drawProgress_range rnd k :
  (Part002.drawProgress rnd k).1 = Undef
  \/ exists p, (Part002.drawProgress rnd k).1 = Has p /\ (10 <= p <= 79)%Z.
Proof.
  unfold Part002.drawProgress. rewrite gbind_eq. cbn [Math_random fst snd].
  destruct (Part002.lt_0_3 _); [| by left].
  right. rewrite gbind_eq. cbn [Math_random gret fst]. eexists. split; [done |].
  apply progress_in_range. by apply N.mod_lt.
Qed.

Lemma part002_pushTitle_decor rnd cat t j acc k :
  j = 0 \/ j = 1 ->
  exists q,
    (Part002.pushTitle cat t j acc rnd k).1 = acc ++ [q]
    /\ Part002.title q = t
    /\ (decorated q /\ Part002.points q = Has (if (j =? 1)%nat then 15 else 10)%Z)
    /\ drawn rnd k (Part002.pushTitle cat t j acc rnd k).2 [Part002.id q].
Proof.
  intros Hj.
  destruct (part002_pushTitle_spec rnd cat t j acc k) as (q & E & T & _ & D).
  exists q. split; [done | split; [done | split; [| done]]].
  revert E. unfold Part002.pushTitle. rewrite !gbind_eq, uid_eq. cbn [gret fst snd].
  intros E%app_inv_head. injection E as <-.
  unfold decorated. cbn.
  pose proof (drawProgress_range rnd (S k)) as Hp.
  destruct Hj as [-> | ->]; cbn; repeat split; eauto.
Qed.

Lemma part002_pushCategory_decor rnd i cat idx acc k :
  exists new,
    (Part002.pushCategory i cat idx acc rnd k).1 = acc ++ new
    /\ map Part002.title new = rotation_pair i idx cat
    /\ Forall decorated new
    /\ drawn rnd k (Part002.pushCategory i cat idx acc rnd k).2 (map Part002.id new).
Proof.
  unfold Part002.pushCategory. cbn [forEach]. rewrite !gbind_eq.
  set (base := (i + idx) mod length (TEMPLATE_QUESTS cat)).
  set (t1 := nth base _ _). set (t2 := nth _ _ _).
  destruct (part002_pushTitle_decor rnd cat t1 0 acc k (or_introl eq_refl))
    as (q1 & E1 & T1 & [F1 _] & D1).
  set (r1 := Part002.pushTitle cat t1 0 acc rnd k) in *.
  destruct (part002_pushTitle_decor rnd cat t2 1 r1.1 r1.2 (or_intror eq_refl))
    as (q2 & E2 & T2 & [F2 _] & D2).
  exists [q1; q2]. cbn [gret fst snd].
  split; [by rewrite E2, E1, <- app_assoc |]. split; [| split].
  - cbn. rewrite T1, T2. unfold rotation_pair, t1, t2, base.
    by rewrite <- rotation_next.
  - by repeat apply Forall_cons_2.
  - apply (drawn_app rnd k r1.2 _ [_] [_]); assumption.
Qed.

Lemma part002_days_decor sel rnd ds : forall idx acc k,
  exists new,
    (forEach (Part002.pushDay sel) ds idx acc rnd k).1 = acc ++ new
    /\ Forall (fun d => Forall decorated (Part002.quests d)) new.
Proof.
  induction ds as [| i ds IH]; intros idx acc k.
  - exists []. cbn. by rewrite app_nil_r.
  - cbn [forEach]. rewrite gbind_eq.
    destruct (IH (S idx) (Part002.pushDay sel i idx acc rnd k).1
                 (Part002.pushDay sel i idx acc rnd k).2) as (n2 & E2 & F2).
    destruct (category_loop Part002.title Part002.id decorated
                Part002.pushCategory rnd
                (part002_pushCategory_decor rnd) i sel 0 [] k) as (new & E & _ & F & _).
    cbn in E.
    exists (Part002.mkDayPlan i (take 5 new) :: n2).
    split.
    + rewrite E2. unfold Part002.pushDay. rewrite gbind_eq. cbn [gret fst].
      by rewrite E, <- app_assoc.
    + constructor; [| done]. cbn. by apply Forall_take.
Qed.

(** X22.  Every quest [buildWeekPlan] of part_002 makes carries the key of a
    category as its label, 10 or 15 points, [locked: false] and no note;
    its progress is [undefined] or a whole number from 10 to 79 (the quest
    view uses it as the width of a bar, in percent). *)
Theorem part002_buildWeekPlan_decorated (sel : list CategoryKey) (rnd : nat -> N)
    (k : nat) :
  Forall (fun d => Forall decorated (Part002.quests d))
         (Part002.buildWeekPlan sel rnd k).1.
Proof.
  destruct (part002_days_decor sel rnd (seq 1 7) 0 [] k) as (new & E & F).
  unfold Part002.buildWeekPlan. by rewrite E.
Qed.

